(** * trireme-lib: UDP datapath, ACL cache and policy lookup

    A shallow embedding of
    - [controller/internal/enforcer/nfqdatapath/datapath_udp.go],
    - the ACL cache of package [acls] (ACLCache, AddRule, GetMatchingAction),
    - the test suite of package [lookup] (TestFuncSearch),
    together with the properties stated about them.

    Go values are embedded as follows: an [error] is an optional message
    ([None] is Go's nil), pointers that may be nil are options, integers are
    [Z], maps are stdpp [gmap]s, slices are lists. *)

From Stdlib Require Import ZArith List String Ascii Bool Lia.
From stdpp Require Import base option list gmap strings.
Import ListNotations.

Local Open Scope string_scope.
Local Open Scope Z_scope.

(** ** Go runtime pieces used by the sources *)

Module Go.

(** Go's [error] interface value: [None] is nil. *)
Definition error := option string.

Definition errors_New (msg : string) : error := Some msg.

Definition digit_of (n : Z) : ascii :=
  ascii_of_nat (48 + Z.to_nat n).

Fixpoint digits_fuel (fuel : nat) (n : Z) (acc : string) : string :=
  match fuel with
  | O => acc
  | S fuel' =>
      let acc' := String (digit_of (n mod 10)) acc in
      if n / 10 =? 0 then acc' else digits_fuel fuel' (n / 10) acc'
  end.

(** [strconv.Itoa]: decimal rendering of an integer. *)
Definition Itoa (n : Z) : string :=
  if n <? 0
  then String "-" (digits_fuel (S (Z.to_nat (Z.log2 (- n)))) (- n) "")
  else digits_fuel (S (Z.to_nat (Z.log2 n))) n "".

Definition is_digit (c : ascii) : bool :=
  let n := Z.of_nat (nat_of_ascii c) in (48 <=? n) && (n <=? 57).

Fixpoint parse_digits (s : string) (acc : Z) : option Z :=
  match s with
  | EmptyString => Some acc
  | String c rest =>
      if is_digit c
      then parse_digits rest (10 * acc + (Z.of_nat (nat_of_ascii c) - 48))
      else None
  end.

(** [strconv.Atoi]: optional sign, at least one decimal digit, and the value
    must fit Go's 64-bit [int]. *)
Definition Atoi (s : string) : option Z :=
  let signed (neg : bool) (body : string) :=
    match body with
    | EmptyString => None
    | _ =>
        match parse_digits body 0 with
        | Some n =>
            let v := if neg then - n else n in
            if (- 2 ^ 63 <=? v) && (v <? 2 ^ 63) then Some v else None
        | None => None
        end
    end in
  match s with
  | String "-" rest => signed true rest
  | String "+" rest => signed false rest
  | _ => signed false s
  end.

(** [strings.Split(s, sep)] for a one-character separator: the pieces between
    the separators, in order; never the empty slice. *)
Fixpoint Split_aux (s : string) (sep : ascii) (cur : string) : list string :=
  match s with
  | EmptyString => [cur]
  | String c rest =>
      if Ascii.eqb c sep
      then cur :: Split_aux rest sep ""
      else Split_aux rest sep (cur +:+ String c "")
  end.

Definition Split (s : string) (sep : ascii) : list string := Split_aux s sep "".

End Go.

(** ** Package [policy]: the decision records the datapath and the ACLs share *)

Module policy.

(** Modelled from the spec: package [policy] (FlowPolicy, IPRule, TagStore and
    the action types) is imported by every source file but is not among them.
    The spec's data model gives a FlowPolicy an action in
    (Accept, Reject, Continue), an observe action in (None, Continue, Apply),
    a policy ID and a service ID; a Go literal that leaves a field out gets
    the zero value, which is [ObserveNone] and the empty string. *)
Inductive ActionType := Accept | Reject | Continue.

Inductive ObserveActionType := ObserveNone | ObserveContinue | ObserveApply.

Record FlowPolicy := {
  Action : ActionType;
  ObserveAction : ObserveActionType;
  PolicyID : string;
  ServiceID : string
}.

Definition Accepted (a : ActionType) : bool :=
  match a with Accept => true | _ => false end.

Definition Rejected (a : ActionType) : bool :=
  match a with Reject => true | _ => false end.

Definition Observed (o : ObserveActionType) : bool :=
  match o with ObserveNone => false | _ => true end.

Definition IsObserveContinue (o : ObserveActionType) : bool :=
  match o with ObserveContinue => true | _ => false end.

Definition IsObserveApply (o : ObserveActionType) : bool :=
  match o with ObserveApply => true | _ => false end.

(** [policy.IPRule]: address and port are kept as the strings the rule is
    written with; the ACL parses them when the rule is added. *)
Record IPRule := {
  Address : string;
  Port : string;
  Protocol : string;
  Policy : FlowPolicy
}.

(** Modelled from the spec: a tag store is an ordered list of claims with
    append, built from key and value or from a flat sequence of "k=v"
    strings (the lookup test also stores a bare rule ID, "1"). *)
Definition TagStore := list string.

Definition NewTagStore : TagStore := [].

Definition NewTagStoreFromSlice (tags : list string) : TagStore := tags.

Definition AppendKeyValue (t : TagStore) (key value : string) : TagStore :=
  (t ++ [key +:+ "=" +:+ value])%list.

(** Splits "k=v" at the first equals sign; a tag without one has no key. *)
Fixpoint SplitTag_aux (s : string) (key : string) : option (string * string) :=
  match s with
  | EmptyString => None
  | String c rest =>
      if Ascii.eqb c "="
      then Some (key, rest)
      else SplitTag_aux rest (key +:+ String c "")
  end.

Definition SplitTag (tag : string) : option (string * string) :=
  SplitTag_aux tag "".

(** [Get]: the value of the first claim with the given key. *)
Fixpoint Get (t : TagStore) (key : string) : string * bool :=
  match t with
  | [] => ("", false)
  | tag :: rest =>
      match SplitTag tag with
      | Some (k, v) => if String.eqb k key then (v, true) else Get rest key
      | None => Get rest key
      end
  end.

End policy.

(** ** Package [acls]: the three-tier ACL cache *)

Module acls.
Import policy.

(** [var catchAllPolicy = &policy.FlowPolicy{Action: policy.Reject,
    PolicyID: "default", ServiceID: "default"}] *)
Definition catchAllPolicy : FlowPolicy :=
  {| Action := Reject; ObserveAction := ObserveNone;
     PolicyID := "default"; ServiceID := "default" |}.

(** One port range of a CIDR entry with the policy it carries. *)
Record portAction := {
  min_port : Z;
  max_port : Z;
  pa_policy : FlowPolicy
}.

Abbreviation portActionList := (list portAction).

(** [type prefixRules struct { mask uint32; rules map[uint32]portActionList }] *)
Record prefixRules := {
  mask : Z;
  rules : gmap Z portActionList
}.

(** Modelled from the spec: the single-tier type [acl] and its methods
    [addRule], [reverseSort] and [getMatchingAction] live in a file that is
    not among the sources. The spec describes a tier as a list of CIDR
    entries (mask, map from prefix to port ranges with their policy) sorted by
    descending mask length. *)
Definition acl := list prefixRules.

Definition newACL : acl := [].

Definition port_in (pa : portAction) (port : Z) : bool :=
  (min_port pa <=? port) && (port <=? max_port pa).

(** Modelled from the spec: within one CIDR entry the first port range that
    contains the port decides. "Observe actions of kind Continue accumulate as
    the report policy but never stop iteration; Apply additionally sets
    packet." The report handed in by the caller is kept when it is already
    set, as [GetMatchingAction] does with the catch-all policy. *)
Fixpoint portActionList_lookup (l : portActionList) (port : Z)
    (preReported : option FlowPolicy)
  : option FlowPolicy * option FlowPolicy * Go.error :=
  match l with
  | [] => (preReported, None, Go.errors_New "No match")
  | pa :: rest =>
      if port_in pa port then
        let report :=
          match preReported with
          | Some r => Some r
          | None => Some (pa_policy pa)
          end in
        match ObserveAction (pa_policy pa) with
        | ObserveContinue => portActionList_lookup rest port report
        | ObserveApply => (report, Some (pa_policy pa), None)
        | ObserveNone => (report, Some (pa_policy pa), None)
        end
      else portActionList_lookup rest port preReported
  end.

(** Modelled from the spec: "entries are sorted by descending mask length; the
    first CIDR containing the IP whose port-range list contains the
    destination port yields a match". [ip] is the IPv4 address read as a
    big-endian 32-bit number. *)
Fixpoint getMatchingAction (a : acl) (ip : Z) (port : Z)
    (preReported : option FlowPolicy)
  : option FlowPolicy * option FlowPolicy * Go.error :=
  match a with
  | [] => (preReported, None, Go.errors_New "No match")
  | pr :: rest =>
      match rules pr !! Z.land ip (mask pr) with
      | Some l =>
          match portActionList_lookup l port preReported with
          | (report, packet, None) => (report, packet, None)
          | (report, _, Some _) => getMatchingAction rest ip port report
          end
      | None => getMatchingAction rest ip port preReported
      end
  end.

(** An entry of a tier matches (ip, port) when its CIDR contains the address
    and its port range contains the port. *)
Definition entry_matches (a : acl) (ip port : Z) (pa : portAction) : Prop :=
  exists pr l,
    In pr a /\ rules pr !! Z.land ip (mask pr) = Some l /\ In pa l /\
    port_in pa port = true.

(** *** Adding rules (spec-modelled parsing of the rule's strings) *)

Definition parse_number (s : string) : option Z :=
  match s with
  | EmptyString => None
  | _ => Go.parse_digits s 0
  end.

Definition parse_octets (l : list string) : option Z :=
  match l with
  | [a; b; c; d] =>
      match parse_number a, parse_number b, parse_number c, parse_number d with
      | Some a, Some b, Some c, Some d =>
          if (a <=? 255) && (b <=? 255) && (c <=? 255) && (d <=? 255)
          then Some (a * 2 ^ 24 + b * 2 ^ 16 + c * 2 ^ 8 + d)
          else None
      | _, _, _, _ => None
      end
  | _ => None
  end.

(** "a.b.c.d" or "a.b.c.d/len": the mask length and the address. *)
Definition parseCIDR (s : string) : option (Z * Z) :=
  match Go.Split s "/" with
  | [ip] =>
      match parse_octets (Go.Split ip ".") with
      | Some addr => Some (32, addr)
      | None => None
      end
  | [ip; len] =>
      match parse_octets (Go.Split ip "."), parse_number len with
      | Some addr, Some n => if n <=? 32 then Some (n, addr) else None
      | _, _ => None
      end
  | _ => None
  end.

(** "p" or "min:max". *)
Definition parsePorts (s : string) : option (Z * Z) :=
  match Go.Split s ":" with
  | [p] =>
      match parse_number p with
      | Some n => if n <=? 65535 then Some (n, n) else None
      | None => None
      end
  | [lo; hi] =>
      match parse_number lo, parse_number hi with
      | Some a, Some b =>
          if (a <=? b) && (b <=? 65535) then Some (a, b) else None
      | _, _ => None
      end
  | _ => None
  end.

(** The 32-bit mask with [len] leading ones. *)
Definition mask_of_len (len : Z) : Z :=
  Z.land (Z.shiftl (2 ^ 32 - 1) (32 - len)) (2 ^ 32 - 1).

Fixpoint insert_entry (a : acl) (m prefix : Z) (pa : portAction) : acl :=
  match a with
  | [] => [ {| mask := m; rules := {[ prefix := [pa] ]} |} ]
  | pr :: rest =>
      if mask pr =? m
      then {| mask := m;
              rules := <[ prefix := (default [] (rules pr !! prefix) ++ [pa])%list ]>
                         (rules pr) |} :: rest
      else pr :: insert_entry rest m prefix pa
  end.

(** Modelled from the spec: "Parse the CIDR, store under (mask, prefix) with
    the port range list". A rule that does not parse is refused and the tier
    is left as it was. *)
Definition addRule (a : acl) (rule : IPRule) : acl * Go.error :=
  match parseCIDR (Address rule), parsePorts (Port rule) with
  | Some (len, addr), Some (lo, hi) =>
      let m := mask_of_len len in
      (insert_entry a m (Z.land addr m)
         {| min_port := lo; max_port := hi; pa_policy := Policy rule |}, None)
  | None, _ => (a, Go.errors_New "invalid address")
  | _, None => (a, Go.errors_New "invalid port")
  end.

Fixpoint insert_desc (pr : prefixRules) (sorted : acl) : acl :=
  match sorted with
  | [] => [pr]
  | q :: rest =>
      if mask q <? mask pr then pr :: q :: rest else q :: insert_desc pr rest
  end.

(** Modelled from the spec: "sort each tier by mask length descending". *)
Definition reverseSort (a : acl) : acl := fold_right insert_desc [] a.

(** *** The cache, as in the source *)

(** [type ACLCache struct { reject *acl; accept *acl; observe *acl }] *)
Record ACLCache := {
  reject : acl;
  accept : acl;
  observe : acl
}.

Definition NewACLCache : ACLCache :=
  {| reject := newACL; accept := newACL; observe := newACL |}.

(** [func (c *ACLCache) AddRule(rule policy.IPRule) (err error)]: the rule
    goes to the observe tier when its observe action is Apply, to the accept
    tier when its action is accepted, to the reject tier otherwise; the
    deferred function re-sorts the three tiers on the way out. *)
Definition AddRule (c : ACLCache) (rule : IPRule) : ACLCache * Go.error :=
  let '(c', err) :=
    if IsObserveApply (ObserveAction (Policy rule)) then
      let '(o, err) := addRule (observe c) rule in
      ({| reject := reject c; accept := accept c; observe := o |}, err)
    else if Accepted (Action (Policy rule)) then
      let '(a, err) := addRule (accept c) rule in
      ({| reject := reject c; accept := a; observe := observe c |}, err)
    else
      let '(r, err) := addRule (reject c) rule in
      ({| reject := r; accept := accept c; observe := observe c |}, err) in
  ({| reject := reverseSort (reject c');
      accept := reverseSort (accept c');
      observe := reverseSort (observe c') |}, err).

(** [func (c *ACLCache) AddRuleList(rules policy.IPRuleList) (err error)] *)
Fixpoint AddRuleList_loop (c : ACLCache) (rs : list IPRule) : ACLCache * Go.error :=
  match rs with
  | [] => (c, None)
  | rule :: rest =>
      match AddRule c rule with
      | (c', Some e) => (c', Some e)
      | (c', None) => AddRuleList_loop c' rest
      end
  end.

Definition AddRuleList (c : ACLCache) (rs : list IPRule) : ACLCache * Go.error :=
  match AddRuleList_loop c rs with
  | (c', Some e) => (c', Some e)
  | (c', None) =>
      ({| reject := reverseSort (reject c');
          accept := reverseSort (accept c');
          observe := reverseSort (observe c') |}, None)
  end.

(** [func (c *ACLCache) GetMatchingAction(ip []byte, port uint16)
      (report *policy.FlowPolicy, packet *policy.FlowPolicy, err error)] *)
Definition GetMatchingAction (c : ACLCache) (ip : Z) (port : Z)
  : option FlowPolicy * option FlowPolicy * Go.error :=
  match getMatchingAction (reject c) ip port None with
  | (report, packet, None) => (report, packet, None)
  | (report, _, Some _) =>
      match getMatchingAction (accept c) ip port report with
      | (report, packet, None) => (report, packet, None)
      | (report, _, Some _) =>
          match getMatchingAction (observe c) ip port report with
          | (report, packet, None) => (report, packet, None)
          | (report, packet, Some _) =>
              let report :=
                match report with None => Some catchAllPolicy | r => r end in
              let packet :=
                match packet with None => Some catchAllPolicy | p => p end in
              (report, packet, Go.errors_New "no match")
          end
      end
  end.

End acls.

(** ** Package [lookup]: the policy database and its test suite *)

Module lookup.

(** Modelled from the spec: [policy.KeyValueOperator] and
    [policy.TagSelector] are declared in the absent package [policy]. A
    clause is a key, a list of values, an operator and an optional ID; a
    selector is a conjunction of clauses with the policy it yields. *)
Inductive Operator := Equal | NotEqual | KeyExists | KeyNotExists.

Record KeyValueOperator := {
  Key : string;
  Value : list string;
  Op : Operator;
  ID : string
}.

Record TagSelector := {
  Clause : list KeyValueOperator;
  Policy : policy.FlowPolicy
}.

(** Modelled from the spec: lookup.go (PolicyDB, NewPolicyDB, AddPolicy,
    Search) is not among the sources; only its test suite is. The tables are
    the inverted indexes of the spec's Policy DB, under the field names the
    test suite reads ([numberOfPolicies], [equalMapTable], [equalPrefixes],
    [notEqualMapTable], and [index] on the entries). The tables point to the
    policy objects; here they hold the object's index and [policies] holds
    the objects. Where the spec's prose leaves the evaluation open, or
    disagrees with the test suite, the assertions of TestFuncAddPolicy and
    TestFuncSearch decide: [Search] consults the tables claim by claim and
    returns the first selector whose clause count is reached.
    - [equalMapTable]: key, then value or stripped prefix, to the policies
      with an Equal clause for it; the empty prefix stands for KeyExists;
    - [equalPrefixes]: key to the lengths of its prefixes, longest first;
    - [equalIDMapTable]: clause ID to the policies with that clause (the
      claim rule-IDs of the spec; the test searches for the bare tag "1");
    - [notEqualMapTable]: key, then value, to the policies with a NotEqual
      clause for it, in the order the values were added;
    - [notStarTable]: key to the policies with a KeyNotExists clause on it;
    - [defaultNotExistsPolicy]: the selector that is one KeyNotExists clause
      and nothing else; it is the answer when no other selector is found and
      the claims do not carry its key (the last case of TestFuncSearch). *)
Record ForwardingPolicy := {
  tags : list KeyValueOperator;
  count : Z;
  index : Z;
  actions : policy.FlowPolicy
}.

Record PolicyDB := {
  numberOfPolicies : Z;
  policies : gmap Z ForwardingPolicy;
  equalPrefixes : gmap string (list nat);
  equalMapTable : gmap string (gmap string (list Z));
  equalIDMapTable : gmap string (list Z);
  notEqualMapTable : gmap string (list (string * list Z));
  notStarTable : gmap string (list Z);
  defaultNotExistsPolicy : option Z
}.

Definition NewPolicyDB : PolicyDB :=
  {| numberOfPolicies := 0; policies := ∅; equalPrefixes := ∅;
     equalMapTable := ∅; equalIDMapTable := ∅; notEqualMapTable := ∅;
     notStarTable := ∅; defaultNotExistsPolicy := None |}.

(** Prefix lengths are kept as a descending list without repetition. *)
Fixpoint sortedInsert (l : list nat) (value : nat) : list nat :=
  match l with
  | [] => [value]
  | x :: rest =>
      if (x <? value)%nat then value :: x :: rest
      else if (x =? value)%nat then x :: rest
      else x :: sortedInsert rest value
  end.

(** A value ending in a star denotes a prefix: the value without the star. *)
Fixpoint strip_star (v : string) : option string :=
  match v with
  | EmptyString => None
  | String c EmptyString => if Ascii.eqb c "*" then Some "" else None
  | String c rest =>
      match strip_star rest with
      | Some p => Some (String c p)
      | None => None
      end
  end.

Definition table_append (m : gmap string (list Z)) (k : string) (i : Z)
  : gmap string (list Z) :=
  <[ k := (default [] (m !! k) ++ [i])%list ]> m.

Definition table2_append (m : gmap string (gmap string (list Z)))
    (k v : string) (i : Z) : gmap string (gmap string (list Z)) :=
  <[ k := table_append (default ∅ (m !! k)) v i ]> m.

Fixpoint assoc_append (l : list (string * list Z)) (v : string) (i : Z)
  : list (string * list Z) :=
  match l with
  | [] => [(v, [i])]
  | (v', table) :: rest =>
      if String.eqb v' v then (v', (table ++ [i])%list) :: rest
      else (v', table) :: assoc_append rest v i
  end.

(** One value of an Equal clause: under the stripped prefix, with its length
    recorded, when it ends in a star; under the value itself otherwise. *)
Definition addEqualValue (i : Z) (key : string) (m : PolicyDB) (v : string)
  : PolicyDB :=
  match strip_star v with
  | Some p =>
      {| numberOfPolicies := numberOfPolicies m; policies := policies m;
         equalPrefixes :=
           <[ key := sortedInsert (default [] (equalPrefixes m !! key))
                       (String.length p) ]> (equalPrefixes m);
         equalMapTable := table2_append (equalMapTable m) key p i;
         equalIDMapTable := equalIDMapTable m;
         notEqualMapTable := notEqualMapTable m;
         notStarTable := notStarTable m;
         defaultNotExistsPolicy := defaultNotExistsPolicy m |}
  | None =>
      {| numberOfPolicies := numberOfPolicies m; policies := policies m;
         equalPrefixes := equalPrefixes m;
         equalMapTable := table2_append (equalMapTable m) key v i;
         equalIDMapTable := equalIDMapTable m;
         notEqualMapTable := notEqualMapTable m;
         notStarTable := notStarTable m;
         defaultNotExistsPolicy := defaultNotExistsPolicy m |}
  end.

Definition addNotEqualValue (i : Z) (key : string) (m : PolicyDB) (v : string)
  : PolicyDB :=
  {| numberOfPolicies := numberOfPolicies m; policies := policies m;
     equalPrefixes := equalPrefixes m;
     equalMapTable := equalMapTable m;
     equalIDMapTable := equalIDMapTable m;
     notEqualMapTable :=
       <[ key := assoc_append (default [] (notEqualMapTable m !! key)) v i ]>
         (notEqualMapTable m);
     notStarTable := notStarTable m;
     defaultNotExistsPolicy := defaultNotExistsPolicy m |}.

(** One clause of the selector being added as policy [i]: the tables after
    it, and by how much the policy's clause count grows. *)
Definition addClause (i : Z) (nclauses : nat) (m : PolicyDB)
    (c : KeyValueOperator) : PolicyDB * Z :=
  match Op c with
  | KeyExists =>
      ({| numberOfPolicies := numberOfPolicies m; policies := policies m;
          equalPrefixes :=
            <[ Key c := sortedInsert (default [] (equalPrefixes m !! Key c)) 0%nat ]>
              (equalPrefixes m);
          equalMapTable := table2_append (equalMapTable m) (Key c) "" i;
          equalIDMapTable := equalIDMapTable m;
          notEqualMapTable := notEqualMapTable m;
          notStarTable := notStarTable m;
          defaultNotExistsPolicy := defaultNotExistsPolicy m |}, 1)
  | KeyNotExists =>
      ({| numberOfPolicies := numberOfPolicies m; policies := policies m;
          equalPrefixes := equalPrefixes m;
          equalMapTable := equalMapTable m;
          equalIDMapTable := equalIDMapTable m;
          notEqualMapTable := notEqualMapTable m;
          notStarTable := table_append (notStarTable m) (Key c) i;
          defaultNotExistsPolicy :=
            if (nclauses =? 1)%nat then Some i else defaultNotExistsPolicy m |}, 0)
  | Equal =>
      let m1 := fold_left (addEqualValue i (Key c)) (Value c) m in
      let m2 :=
        if String.eqb (ID c) "" then m1 else
        {| numberOfPolicies := numberOfPolicies m1; policies := policies m1;
           equalPrefixes := equalPrefixes m1;
           equalMapTable := equalMapTable m1;
           equalIDMapTable := table_append (equalIDMapTable m1) (ID c) i;
           notEqualMapTable := notEqualMapTable m1;
           notStarTable := notStarTable m1;
           defaultNotExistsPolicy := defaultNotExistsPolicy m1 |} in
      (m2, 1)
  | NotEqual =>
      (fold_left (addNotEqualValue i (Key c)) (Value c) m,
       Z.of_nat (length (Value c)))
  end.

Fixpoint addClauses (i : Z) (nclauses : nat) (m : PolicyDB) (cnt : Z)
    (cs : list KeyValueOperator) : PolicyDB * Z :=
  match cs with
  | [] => (m, cnt)
  | c :: rest =>
      let '(m', k) := addClause i nclauses m c in
      addClauses i nclauses m' (cnt + k) rest
  end.

(** [AddPolicy(selector) -> index]: indexes are handed out from 1 upward. *)
Definition AddPolicy (m : PolicyDB) (selector : TagSelector) : PolicyDB * Z :=
  let i := numberOfPolicies m + 1 in
  let '(m', cnt) := addClauses i (length (Clause selector)) m 0 (Clause selector) in
  ({| numberOfPolicies := i;
      policies := <[ i := {| tags := Clause selector; count := cnt; index := i;
                             actions := Policy selector |} ]> (policies m');
      equalPrefixes := equalPrefixes m';
      equalMapTable := equalMapTable m';
      equalIDMapTable := equalIDMapTable m';
      notEqualMapTable := notEqualMapTable m';
      notStarTable := notStarTable m';
      defaultNotExistsPolicy := defaultNotExistsPolicy m' |}, i).

(** *** Search *)

Definition member (i : Z) (l : list Z) : bool := existsb (Z.eqb i) l.

(** The state of one search: the match counter of every policy, and the
    policies the claim at hand has already been counted for. *)
Record counters := {
  hits : gmap Z Z;
  seen : list Z
}.

(** Counts the claim for every policy of the table entry that is not
    disabled, and stops at the first policy whose clause count is reached. *)
Fixpoint searchInMapTable (m : PolicyDB) (table : list Z) (skip : list Z)
    (st : counters) : counters * option (Z * policy.FlowPolicy) :=
  match table with
  | [] => (st, None)
  | i :: rest =>
      if member i skip || member i (seen st) then searchInMapTable m rest skip st
      else
        let n := default 0 (hits st !! i) + 1 in
        let st' := {| hits := <[ i := n ]> (hits st); seen := i :: seen st |} in
        match policies m !! i with
        | Some p =>
            if n =? count p then (st', Some (index p, actions p))
            else searchInMapTable m rest skip st'
        | None => searchInMapTable m rest skip st'
        end
  end.

(** The prefixes of the claim's key, longest first. A policy the claim has
    been counted for is not counted again by a shorter prefix. *)
Fixpoint searchPrefixes (m : PolicyDB) (k v : string) (prefixes : list nat)
    (skip : list Z) (st : counters)
  : counters * option (Z * policy.FlowPolicy) :=
  match prefixes with
  | [] => (st, None)
  | i :: rest =>
      if (i <=? String.length v)%nat then
        match searchInMapTable m
                (default [] (default ∅ (equalMapTable m !! k) !! String.substring 0 i v))
                skip st with
        | (st', Some r) => (st', Some r)
        | (st', None) => searchPrefixes m k v rest skip st'
        end
      else searchPrefixes m k v rest skip st
  end.

(** The not-equal entries of the claim's key: every listed value other than
    the claim's value counts for its policies. *)
Fixpoint searchNotEqual (m : PolicyDB) (v : string)
    (entries : list (string * list Z)) (skip : list Z) (st : counters)
  : counters * option (Z * policy.FlowPolicy) :=
  match entries with
  | [] => (st, None)
  | (value, table) :: rest =>
      if String.eqb v value then searchNotEqual m v rest skip st
      else
        match searchInMapTable m table skip
                {| hits := hits st; seen := [] |} with
        | (st', Some r) => (st', Some r)
        | (st', None) => searchNotEqual m v rest skip st'
        end
  end.

(** One claim: its rule ID, its exact value, the prefixes of its key, and
    the not-equal entries of its key, in this order. *)
Definition searchTag (m : PolicyDB) (skip : list Z) (t : string) (st : counters)
  : counters * option (Z * policy.FlowPolicy) :=
  match searchInMapTable m (default [] (equalIDMapTable m !! t)) skip
          {| hits := hits st; seen := [] |} with
  | (st1, Some r) => (st1, Some r)
  | (st1, None) =>
      match policy.SplitTag t with
      | None => (st1, None)
      | Some (k, v) =>
          match searchInMapTable m
                  (default [] (default ∅ (equalMapTable m !! k) !! v)) skip
                  {| hits := hits st1; seen := [] |} with
          | (st2, Some r) => (st2, Some r)
          | (st2, None) =>
              match searchPrefixes m k v (default [] (equalPrefixes m !! k))
                      skip st2 with
              | (st3, Some r) => (st3, Some r)
              | (st3, None) =>
                  searchNotEqual m v (default [] (notEqualMapTable m !! k))
                    skip st3
              end
          end
      end
  end.

Fixpoint searchTags (m : PolicyDB) (skip : list Z) (ts : list string)
    (st : counters) : option (Z * policy.FlowPolicy) :=
  match ts with
  | [] => None
  | t :: rest =>
      match searchTag m skip t st with
      | (_, Some r) => Some r
      | (st', None) => searchTags m skip rest st'
      end
  end.

(** Policies with a key-must-not-exist clause on a key the claims carry. *)
Definition disabled (m : PolicyDB) (ts : policy.TagStore) : list Z :=
  flat_map (fun t =>
              match policy.SplitTag t with
              | Some (k, _) => default [] (notStarTable m !! k)
              | None => []
              end) ts.

(** [Search(claims) -> (index, policy)], or (-1, nil). *)
Definition Search (m : PolicyDB) (ts : policy.TagStore)
  : Z * option policy.FlowPolicy :=
  let skip := disabled m ts in
  match searchTags m skip ts {| hits := ∅; seen := [] |} with
  | Some (i, a) => (i, Some a)
  | None =>
      match defaultNotExistsPolicy m with
      | Some d =>
          if member d skip then (-1, None)
          else match policies m !! d with
               | Some p => (index p, Some (actions p))
               | None => (-1, None)
               end
      | None => (-1, None)
      end
  end.

End lookup.

(** ** The test suite of package [lookup] (lookup_test.go) *)

Module lookup_test.
Import lookup.

(** The policy every selector of the suite carries:
    [&policy.FlowPolicy{Action: policy.Accept}]. *)
Definition acceptPolicy : policy.FlowPolicy :=
  {| policy.Action := policy.Accept; policy.ObserveAction := policy.ObserveNone;
     policy.PolicyID := ""; policy.ServiceID := "" |}.

Definition appEqWeb : KeyValueOperator :=
  {| Key := "app"; Value := ["web"]; Op := Equal; ID := "1" |}.

Definition envEqDemo : KeyValueOperator :=
  {| Key := "env"; Value := ["demo"]; Op := Equal; ID := "2" |}.

Definition envEqDemoOrQa : KeyValueOperator :=
  {| Key := "env"; Value := ["demo"; "qa"]; Op := Equal; ID := "3" |}.

Definition dcKeyExists : KeyValueOperator :=
  {| Key := "dc"; Value := []; Op := KeyExists; ID := "" |}.

Definition langNotJava : KeyValueOperator :=
  {| Key := "lang"; Value := ["java"]; Op := NotEqual; ID := "" |}.

Definition envNotDemoOrQA : KeyValueOperator :=
  {| Key := "env"; Value := ["demo"; "qa"]; Op := NotEqual; ID := "" |}.

Definition envKeyNotExists : KeyValueOperator :=
  {| Key := "env"; Value := []; Op := KeyNotExists; ID := "" |}.

Definition vulnerKey : KeyValueOperator :=
  {| Key := "vulnerability"; Value := ["high"]; Op := Equal; ID := "" |}.

Definition vulnerLowKey : KeyValueOperator :=
  {| Key := "vulnerability"; Value := ["low"]; Op := Equal; ID := "" |}.

Definition namespaceKey : KeyValueOperator :=
  {| Key := "namespace"; Value := ["/a/b/*"]; Op := Equal; ID := "" |}.

Definition appEqWebAndenvEqDemo : TagSelector :=
  {| Clause := [appEqWeb; envEqDemo]; Policy := acceptPolicy |}.

Definition appEqWebAndEnvEqDemoOrQa : TagSelector :=
  {| Clause := [appEqWeb; envEqDemoOrQa]; Policy := acceptPolicy |}.

Definition dcTagExists : TagSelector :=
  {| Clause := [dcKeyExists]; Policy := acceptPolicy |}.

Definition policylangNotJava : TagSelector :=
  {| Clause := [langNotJava]; Policy := acceptPolicy |}.

Definition appEqWebAndenvNotDemoOrQA : TagSelector :=
  {| Clause := [appEqWeb; envNotDemoOrQA]; Policy := acceptPolicy |}.

Definition envKeyNotExistsAndAppEqWeb : TagSelector :=
  {| Clause := [envKeyNotExists; appEqWeb]; Policy := acceptPolicy |}.

Definition vulnTagPolicy : TagSelector :=
  {| Clause := [vulnerKey]; Policy := acceptPolicy |}.

Definition policyNamespace : TagSelector :=
  {| Clause := [namespaceKey; vulnerLowKey]; Policy := acceptPolicy |}.

Definition domainParent : KeyValueOperator :=
  {| Key := "domain";
     Value := ["com.example.*"; "com.*"; "com.longexample.*"; "com.ex.*"];
     Op := Equal; ID := "" |}.

Definition domainFull : KeyValueOperator :=
  {| Key := "domain"; Value := ["com.example.web"]; Op := Equal; ID := "" |}.

Definition policyDomainParent : TagSelector :=
  {| Clause := [domainParent]; Policy := acceptPolicy |}.

Definition policyDomainFull : TagSelector :=
  {| Clause := [domainFull]; Policy := acceptPolicy |}.

Definition policyEnvDoesNotExist : TagSelector :=
  {| Clause := [envKeyNotExists]; Policy := acceptPolicy |}.

(** The database TestFuncSearch builds before each of its cases, and the
    indexes the eleven calls of AddPolicy return. *)
Definition addAll (selectors : list TagSelector) : PolicyDB * list Z :=
  fold_left (fun '(m, is_) s => let '(m', i) := AddPolicy m s in (m', (is_ ++ [i])%list))
            selectors (NewPolicyDB, []).

Definition searchSelectors : list TagSelector :=
  [appEqWebAndenvEqDemo; policylangNotJava; dcTagExists;
   appEqWebAndEnvEqDemoOrQa; appEqWebAndenvNotDemoOrQA;
   envKeyNotExistsAndAppEqWeb; policyDomainParent; policyDomainFull;
   policyEnvDoesNotExist; vulnTagPolicy; policyNamespace].

Definition policyDB : PolicyDB := fst (addAll searchSelectors).

Definition indexOf (n : nat) : Z := nth n (snd (addAll searchSelectors)) 0.

Definition index1 := indexOf 0.
Definition index2 := indexOf 1.
Definition index3 := indexOf 2.
Definition index4 := indexOf 3.
Definition index5 := indexOf 4.
Definition index6 := indexOf 5.
Definition index7 := indexOf 6.
Definition index8 := indexOf 7.
Definition index9 := indexOf 8.
Definition index10 := indexOf 9.
Definition index11 := indexOf 10.

Definition tagsOf (kvs : list (string * string)) : policy.TagStore :=
  fold_left (fun t '(k, v) => policy.AppendKeyValue t k v) kvs policy.NewTagStore.

(** [So(index, ShouldEqual, i)] together with the assertion that the action
    found is a FlowPolicy whose Action equals [policy.Accept]. *)
Definition shouldFind (ts : policy.TagStore) (i : Z) : bool :=
  match Search policyDB ts with
  | (index, Some action) =>
      (index =? i) && policy.Accepted (policy.Action action)
  | (_, None) => false
  end.

(** [So(index, ShouldEqual, -1)] together with [So(action, ShouldBeNil)]. *)
Definition shouldNotFind (ts : policy.TagStore) : bool :=
  match Search policyDB ts with
  | (index, None) => index =? -1
  | (_, Some _) => false
  end.

(** The two cases on the key "domain". *)
Definition tagsMatchingPrefix : policy.TagStore :=
  tagsOf [("domain", "com.example.db")].

Definition tagsMatchingCompleteValue : policy.TagStore :=
  tagsOf [("domain", "com.example.web")].

(** [func TestFuncSearch(t *testing.T)]: every assertion of the test, in the
    order of the source. *)
Definition TestFuncSearch : list bool :=
  [ (index1 =? 1); (index2 =? 2); (index3 =? 3); (index4 =? 4);
    (index5 =? 5); (index6 =? 6); (index9 =? 9);
    shouldFind (tagsOf [("vulnerability", "high")]) index10;
    shouldFind (policy.NewTagStoreFromSlice ["1"]) index6;
    shouldNotFind (tagsOf [("namespace", "/a/b/c/d"); ("env", "privatedemo")]);
    shouldFind (tagsOf [("namespace", "/a/b/c/d"); ("vulnerability", "low");
                        ("env", "privatedemo")]) index11;
    shouldFind (tagsOf [("app", "web"); ("env", "demo")]) index1;
    shouldFind (tagsOf [("lang", "go"); ("env", "demo")]) index2;
    shouldFind (tagsOf [("dc", "EAST"); ("env", "demo")]) index3;
    shouldFind (tagsOf [("app", "web"); ("env", "qa")]) index4;
    shouldFind (tagsOf [("app", "web"); ("env", "prod")]) index5;
    shouldNotFind (tagsOf [("lang", "java"); ("env", "demo"); ("app", "db")]);
    shouldNotFind (tagsOf [("tag", "node"); ("env", "node")]);
    shouldFind (tagsOf [("app", "web")]) index6;
    shouldFind tagsMatchingPrefix index7;
    shouldFind tagsMatchingCompleteValue index8;
    shouldNotFind (tagsOf [("domain", "co"); ("env", "node")]);
    shouldFind (tagsOf [("sometag", "nomatch")]) index9 ].

(** [func TestFuncAddPolicy(t *testing.T)]: each case starts from an empty
    database. *)
Definition entryIndex (m : PolicyDB) (k v : string) : option Z :=
  head (default [] (default ∅ (equalMapTable m !! k) !! v)).

Definition hasPrefix (m : PolicyDB) (k : string) (n : nat) : bool :=
  existsb (Nat.eqb n) (default [] (equalPrefixes m !! k)).

Definition TestFuncAddPolicy : list bool :=
  let '(m1, i1) := AddPolicy NewPolicyDB appEqWebAndenvEqDemo in
  let '(m2, i2) := AddPolicy NewPolicyDB policylangNotJava in
  let '(m3, i3) := AddPolicy NewPolicyDB dcTagExists in
  let '(m4, i4) := AddPolicy NewPolicyDB policyDomainParent in
  [ (numberOfPolicies m1 =? 1); (i1 =? 1);
    bool_decide (entryIndex m1 "app" "web" = Some i1);
    bool_decide (entryIndex m1 "env" "demo" = Some i1);
    bool_decide (equalPrefixes m1 !! "app" = None);
    bool_decide (equalPrefixes m1 !! "env" = None);
    (numberOfPolicies m2 =? 1); (i2 =? 1);
    bool_decide (head (default []
       (snd <$> head (default [] (notEqualMapTable m2 !! "lang")))) = Some i2);
    bool_decide (equalPrefixes m2 !! "lang" = None);
    (numberOfPolicies m3 =? 1); (i3 =? 1);
    bool_decide (equalPrefixes m3 !! "dc" = Some [0%nat]);
    bool_decide (size (default ∅ (equalMapTable m3 !! "dc")) = 1%nat);
    bool_decide (is_Some (default ∅ (equalMapTable m3 !! "dc") !! ""));
    (numberOfPolicies m4 =? 1); (i4 =? 1);
    bool_decide (size (default ∅ (equalMapTable m4 !! "domain")) = 4%nat);
    bool_decide (is_Some (default ∅ (equalMapTable m4 !! "domain") !! "com.example."));
    bool_decide (is_Some (default ∅ (equalMapTable m4 !! "domain") !! "com."));
    bool_decide (is_Some (default ∅ (equalMapTable m4 !! "domain") !! "com.longexample."));
    bool_decide (is_Some (default ∅ (equalMapTable m4 !! "domain") !! "com.ex."));
    bool_decide (length (default [] (equalPrefixes m4 !! "domain")) = 4%nat);
    hasPrefix m4 "domain" 12; hasPrefix m4 "domain" 4;
    hasPrefix m4 "domain" 16; hasPrefix m4 "domain" 7 ].

End lookup_test.

(** ** Packages [packet], [connection], [pucontext], [tokens], [collector]:
       the types the UDP datapath works on *)

Module packet.

(** Modelled from the spec: package [packet] is not among the sources. A
    packet carries the fields the datapath reads and its byte buffer. *)
Record Packet := {
  SourceAddress : list Z;
  DestinationAddress : list Z;
  SourcePort : Z;
  DestinationPort : Z;
  IPProto : Z;
  IPTotalLength : Z;
  Mark : string;
  Buffer : list Z
}.

(** Modelled from the spec: the UDP payload starts after the 20-byte IP
    header and the 8-byte UDP header; the auth marker is its first 20 bytes:
    byte 0 carries the packet type in its two high bits (01 SYN, 10 SYNACK,
    11 ACK), byte 1 is reserved, bytes 2 to 19 are the fixed signature. *)
Definition UDPDataPos : Z := 28.
Definition UDPSignatureLen : Z := 20.
Definition UDPAuthMarker : string := "n30njxq7bmiwr6dtxq".

Definition UDPSynMask : Z := 64.
Definition UDPSynAckMask : Z := 128.
Definition UDPAckMask : Z := 192.
Definition UDPPacketMask : Z := 192.

Definition PacketTypeNetwork : Z := 1.
Definition PacketTypeApplication : Z := 2.
Definition IPProtocolUDP : Z := 17.

Definition bytes_of_string (s : string) : list Z :=
  map (fun c => Z.of_nat (nat_of_ascii c)) (list_ascii_of_string s).

(** The UDP payload of the packet. *)
Definition GetUDPData (p : Packet) : list Z :=
  skipn (Z.to_nat UDPDataPos) (Buffer p).

(** Modelled from the spec: "A UDP packet whose first byte's high bits decode
    to SYN/SYNACK/ACK AND whose bytes 2-19 equal the signature is a control
    packet; otherwise it is data." The type of a data packet is 0. *)
Definition GetUDPType (p : Packet) : Z :=
  match GetUDPData p with
  | b0 :: _ :: rest =>
      if bool_decide (firstn 18 rest = bytes_of_string UDPAuthMarker)
      then Z.land b0 UDPPacketMask
      else 0
  | _ => 0
  end.

(** The token of a control packet: what follows the 20-byte marker. *)
Definition ReadUDPToken (p : Packet) : list Z :=
  skipn (Z.to_nat UDPSignatureLen) (GetUDPData p).

End packet.

Module collector.

(** Modelled from the spec: the reason codes of a flow report. *)
Inductive DropReason :=
  | InvalidToken | MissingToken | PolicyDrop | InvalidFormat | UnableToDial.

Definition DefaultEndPoint : string := "default".

End collector.

Module tokens.

(** [tokens.ConnectionClaims]: the peer's tag store, [T]. *)
Record ConnectionClaims := {
  T : policy.TagStore
}.

End tokens.

Module pucontext.

(** Modelled from the spec: the per-PU aggregate. The datapath reads its
    management ID, hands it to the token accessor and to the rule search, and
    extends its application ACLs from its DNS ACLs (host name to a
    comma-separated list of ports). *)
Record PUContext := {
  managementID : string;
  DNSACLs : gmap string string;
  ApplicationACLs : acls.ACLCache
}.

Definition ManagementID (c : PUContext) : string := managementID c.

Definition withApplicationACLs (c : PUContext) (a : acls.ACLCache) : PUContext :=
  {| managementID := managementID c; DNSACLs := DNSACLs c; ApplicationACLs := a |}.

End pucontext.

Module connection.

(** Modelled from the spec: the states of a UDP flow. *)
Inductive UDPFlowState :=
  | UDPSynStart | UDPSynSend | UDPSynReceived | UDPSynAckSent
  | UDPSynAckReceived | UDPAckReceived | UDPAckProcessed.

Definition UDPFlowState_eqb (a b : UDPFlowState) : bool :=
  match a, b with
  | UDPSynStart, UDPSynStart | UDPSynSend, UDPSynSend
  | UDPSynReceived, UDPSynReceived | UDPSynAckSent, UDPSynAckSent
  | UDPSynAckReceived, UDPSynAckReceived | UDPAckReceived, UDPAckReceived
  | UDPAckProcessed, UDPAckProcessed => true
  | _, _ => false
  end.

(** [connection.AuthInfo]: the handshake state the token accessor keeps. *)
Record AuthInfo := {
  LocalContext : list Z;
  RemoteContext : list Z;
  RemoteContextID : string
}.

(** Modelled from the spec: the per-flow state. [Context] points to the PU
    context (an address in the datapath's store of contexts). *)
Record UDPConnection := {
  state : UDPFlowState;
  Context : option nat;
  Auth : AuthInfo;
  PacketQueue : list packet.Packet;
  ReportFlowPolicy : option policy.FlowPolicy;
  PacketFlowPolicy : option policy.FlowPolicy;
  ServiceConnection : bool
}.

Definition emptyAuth : AuthInfo :=
  {| LocalContext := []; RemoteContext := []; RemoteContextID := "" |}.

(** [NewUDPConnection(context, writer)]: a fresh flow in state SynStart with
    nothing queued. *)
Definition NewUDPConnection (context : option nat) : UDPConnection :=
  {| state := UDPSynStart; Context := context; Auth := emptyAuth;
     PacketQueue := []; ReportFlowPolicy := None; PacketFlowPolicy := None;
     ServiceConnection := false |}.

Definition withState (c : UDPConnection) (s : UDPFlowState) : UDPConnection :=
  {| state := s; Context := Context c; Auth := Auth c;
     PacketQueue := PacketQueue c; ReportFlowPolicy := ReportFlowPolicy c;
     PacketFlowPolicy := PacketFlowPolicy c;
     ServiceConnection := ServiceConnection c |}.

Definition withAuth (c : UDPConnection) (a : AuthInfo) : UDPConnection :=
  {| state := state c; Context := Context c; Auth := a;
     PacketQueue := PacketQueue c; ReportFlowPolicy := ReportFlowPolicy c;
     PacketFlowPolicy := PacketFlowPolicy c;
     ServiceConnection := ServiceConnection c |}.

Definition withPacketQueue (c : UDPConnection) (q : list packet.Packet)
  : UDPConnection :=
  {| state := state c; Context := Context c; Auth := Auth c;
     PacketQueue := q; ReportFlowPolicy := ReportFlowPolicy c;
     PacketFlowPolicy := PacketFlowPolicy c;
     ServiceConnection := ServiceConnection c |}.

Definition withPolicies (c : UDPConnection)
    (report pkt : option policy.FlowPolicy) : UDPConnection :=
  {| state := state c; Context := Context c; Auth := Auth c;
     PacketQueue := PacketQueue c; ReportFlowPolicy := report;
     PacketFlowPolicy := pkt;
     ServiceConnection := ServiceConnection c |}.

End connection.

(** ** Package [nfqdatapath]: datapath_udp.go *)

Module nfqdatapath.
Import packet connection pucontext.

(** *** The collaborators the datapath calls *)

(** [d.tokenAccessor]: creates and parses the handshake tokens. Each method
    takes [&conn.Auth] and may update it; the updated value is handed back as
    the last component. *)
Record TokenAccessor := {
  CreateSynPacketToken : PUContext -> AuthInfo -> list Z * Go.error * AuthInfo;
  CreateSynAckPacketToken : PUContext -> AuthInfo -> list Z * Go.error * AuthInfo;
  CreateAckPacketToken : PUContext -> AuthInfo -> list Z * Go.error * AuthInfo;
  ParsePacketToken :
    AuthInfo -> list Z -> option tokens.ConnectionClaims * Go.error * AuthInfo;
  ParseAckToken :
    AuthInfo -> list Z -> option tokens.ConnectionClaims * Go.error * AuthInfo
}.

(** [d.service]: the optional pre- and post-processing hooks, modelled by
    their verdict. *)
Record Service := {
  PreProcessUDPAppPacket : Packet -> UDPConnection -> Z -> bool;
  PostProcessUDPAppPacket : Packet -> UDPConnection -> bool;
  PreProcessUDPNetPacket : Packet -> UDPConnection -> bool;
  PostProcessUDPNetPacket :
    Packet -> option policy.FlowPolicy -> option tokens.ConnectionClaims ->
    UDPConnection -> bool
}.

(** One resource record of a decoded DNS message (gopacket's
    [layers.DNSResourceRecord]). *)
Record DNSResourceRecord := {
  Name : string;
  DataLength : Z;
  IP : list Z
}.

(** The fields of [Datapath] that a packet does not change, and the methods
    of [Datapath] that other files define. *)
Record Datapath := {
  packetLogs : bool;
  mutualAuthorization : bool;
  service : option Service;
  tokenAccessor : TokenAccessor;
  (** [d.udpSocketWriter.WriteSocket(buf)] *)
  WriteSocket : list Z -> Go.error;
  (** [d.conntrackHdl.ConntrackTableUpdateMark(ipSrc, ipDst, protonum,
      srcport, dstport, newmark)] *)
  ConntrackTableUpdateMark : string -> string -> Z -> Z -> Z -> Z -> Go.error;
  (** [d.contextFromIP(app, packetIP, mark, port, protocol)] *)
  contextFromIP : bool -> string -> string -> Z -> Z -> option nat * Go.error
}.

(** Functions and constants of absent packages and of Go's library that the
    file uses and whose results the properties below do not depend on. *)
Record Library := {
  (** [net.IP.String] and [net.ParseIP] *)
  IPString : list Z -> string;
  ParseIP : string -> list Z;
  (** methods of [packet.Packet] *)
  L4FlowHash : Packet -> string;
  L4ReverseFlowHash : Packet -> string;
  SourcePortHash : Packet -> Z -> string;
  UDPTokenAttach : Packet -> list Z -> list Z -> Packet;
  CreateReverseFlowPacket : Packet -> list Z -> Z -> Packet;
  FixupIPHdrOnDataModify : Packet -> Z -> Z -> Packet;
  (** [packet.New(context, bytes, mark)]: a packet, or an error *)
  New : Z -> list Z -> string -> Packet + string;
  (** methods of [pucontext.PUContext] *)
  SearchRcvRules :
    PUContext -> policy.TagStore -> policy.FlowPolicy * policy.FlowPolicy;
  SearchTxtRules :
    PUContext -> policy.TagStore -> bool -> policy.FlowPolicy * policy.FlowPolicy;
  (** [layers.DNS.DecodeFromBytes]: the answers of the message *)
  DecodeAnswers : list Z -> list DNSResourceRecord;
  (** [enforcerconstants.TransmitterLabel], [constants.DefaultConnMark] *)
  TransmitterLabel : string;
  DefaultConnMark : Z
}.

(** Modelled from the spec: "@port=<dstPort> is appended to inbound SYN
    claims"; the constant [enforcerconstants.PortNumberLabelString] is
    declared in an absent file. *)
Definition PortNumberLabelString : string := "@port".

(** *** What a packet can change, and what it makes the datapath do *)

(** Calls that leave the datapath, in the order they are made. *)
Inductive Event :=
  | EvWriteSocket (buf : list Z)
  | EvConntrackTableUpdateMark
      (ipSrc ipDst : string) (protonum srcport dstport newmark : Z)
  | EvRejectedFlow
      (p : Packet) (conn : option nat) (sourceID destID : string)
      (mode : collector.DropReason) (report pkt : option policy.FlowPolicy)
  | EvAcceptedFlow
      (p : Packet) (conn : option nat) (sourceID destID : string)
      (report pkt : option policy.FlowPolicy)
  | EvSearchRcvRules (context : PUContext) (tags : policy.TagStore)
  | EvSearchTxtRules (context : PUContext) (tags : policy.TagStore) (skip : bool).

(** Connections and PU contexts are shared through pointers: the caches hold
    addresses into [conns], a connection holds an address into [contexts],
    and so does the package-level [dnsmap]. *)
Record State := {
  conns : gmap nat UDPConnection;
  contexts : gmap nat PUContext;
  udpAppOrigConnectionTracker : gmap string nat;
  udpAppReplyConnectionTracker : gmap string nat;
  udpNetOrigConnectionTracker : gmap string nat;
  udpNetReplyConnectionTracker : gmap string nat;
  udpSourcePortConnectionCache : gmap string nat;
  udpNatConnectionTracker : gmap string string;
  dnsmap : gmap Z (option nat);
  events : list Event
}.

(** The connection tables of a state. *)
Definition tables (s : State) :=
  (udpAppOrigConnectionTracker s, udpAppReplyConnectionTracker s,
   udpNetOrigConnectionTracker s, udpNetReplyConnectionTracker s,
   udpSourcePortConnectionCache s, udpNatConnectionTracker s).

Definition set_conns (f : gmap nat UDPConnection -> gmap nat UDPConnection)
    (s : State) : State :=
  {| conns := f (conns s); contexts := contexts s;
     udpAppOrigConnectionTracker := udpAppOrigConnectionTracker s;
     udpAppReplyConnectionTracker := udpAppReplyConnectionTracker s;
     udpNetOrigConnectionTracker := udpNetOrigConnectionTracker s;
     udpNetReplyConnectionTracker := udpNetReplyConnectionTracker s;
     udpSourcePortConnectionCache := udpSourcePortConnectionCache s;
     udpNatConnectionTracker := udpNatConnectionTracker s;
     dnsmap := dnsmap s; events := events s |}.

Definition set_contexts (f : gmap nat PUContext -> gmap nat PUContext)
    (s : State) : State :=
  {| conns := conns s; contexts := f (contexts s);
     udpAppOrigConnectionTracker := udpAppOrigConnectionTracker s;
     udpAppReplyConnectionTracker := udpAppReplyConnectionTracker s;
     udpNetOrigConnectionTracker := udpNetOrigConnectionTracker s;
     udpNetReplyConnectionTracker := udpNetReplyConnectionTracker s;
     udpSourcePortConnectionCache := udpSourcePortConnectionCache s;
     udpNatConnectionTracker := udpNatConnectionTracker s;
     dnsmap := dnsmap s; events := events s |}.

Definition set_udpAppOrig (f : gmap string nat -> gmap string nat)
    (s : State) : State :=
  {| conns := conns s; contexts := contexts s;
     udpAppOrigConnectionTracker := f (udpAppOrigConnectionTracker s);
     udpAppReplyConnectionTracker := udpAppReplyConnectionTracker s;
     udpNetOrigConnectionTracker := udpNetOrigConnectionTracker s;
     udpNetReplyConnectionTracker := udpNetReplyConnectionTracker s;
     udpSourcePortConnectionCache := udpSourcePortConnectionCache s;
     udpNatConnectionTracker := udpNatConnectionTracker s;
     dnsmap := dnsmap s; events := events s |}.

Definition set_udpAppReply (f : gmap string nat -> gmap string nat)
    (s : State) : State :=
  {| conns := conns s; contexts := contexts s;
     udpAppOrigConnectionTracker := udpAppOrigConnectionTracker s;
     udpAppReplyConnectionTracker := f (udpAppReplyConnectionTracker s);
     udpNetOrigConnectionTracker := udpNetOrigConnectionTracker s;
     udpNetReplyConnectionTracker := udpNetReplyConnectionTracker s;
     udpSourcePortConnectionCache := udpSourcePortConnectionCache s;
     udpNatConnectionTracker := udpNatConnectionTracker s;
     dnsmap := dnsmap s; events := events s |}.

Definition set_udpNetOrig (f : gmap string nat -> gmap string nat)
    (s : State) : State :=
  {| conns := conns s; contexts := contexts s;
     udpAppOrigConnectionTracker := udpAppOrigConnectionTracker s;
     udpAppReplyConnectionTracker := udpAppReplyConnectionTracker s;
     udpNetOrigConnectionTracker := f (udpNetOrigConnectionTracker s);
     udpNetReplyConnectionTracker := udpNetReplyConnectionTracker s;
     udpSourcePortConnectionCache := udpSourcePortConnectionCache s;
     udpNatConnectionTracker := udpNatConnectionTracker s;
     dnsmap := dnsmap s; events := events s |}.

Definition set_udpNetReply (f : gmap string nat -> gmap string nat)
    (s : State) : State :=
  {| conns := conns s; contexts := contexts s;
     udpAppOrigConnectionTracker := udpAppOrigConnectionTracker s;
     udpAppReplyConnectionTracker := udpAppReplyConnectionTracker s;
     udpNetOrigConnectionTracker := udpNetOrigConnectionTracker s;
     udpNetReplyConnectionTracker := f (udpNetReplyConnectionTracker s);
     udpSourcePortConnectionCache := udpSourcePortConnectionCache s;
     udpNatConnectionTracker := udpNatConnectionTracker s;
     dnsmap := dnsmap s; events := events s |}.

Definition set_udpSourcePort (f : gmap string nat -> gmap string nat)
    (s : State) : State :=
  {| conns := conns s; contexts := contexts s;
     udpAppOrigConnectionTracker := udpAppOrigConnectionTracker s;
     udpAppReplyConnectionTracker := udpAppReplyConnectionTracker s;
     udpNetOrigConnectionTracker := udpNetOrigConnectionTracker s;
     udpNetReplyConnectionTracker := udpNetReplyConnectionTracker s;
     udpSourcePortConnectionCache := f (udpSourcePortConnectionCache s);
     udpNatConnectionTracker := udpNatConnectionTracker s;
     dnsmap := dnsmap s; events := events s |}.

Definition set_udpNat (f : gmap string string -> gmap string string)
    (s : State) : State :=
  {| conns := conns s; contexts := contexts s;
     udpAppOrigConnectionTracker := udpAppOrigConnectionTracker s;
     udpAppReplyConnectionTracker := udpAppReplyConnectionTracker s;
     udpNetOrigConnectionTracker := udpNetOrigConnectionTracker s;
     udpNetReplyConnectionTracker := udpNetReplyConnectionTracker s;
     udpSourcePortConnectionCache := udpSourcePortConnectionCache s;
     udpNatConnectionTracker := f (udpNatConnectionTracker s);
     dnsmap := dnsmap s; events := events s |}.

Definition set_dnsmap (f : gmap Z (option nat) -> gmap Z (option nat))
    (s : State) : State :=
  {| conns := conns s; contexts := contexts s;
     udpAppOrigConnectionTracker := udpAppOrigConnectionTracker s;
     udpAppReplyConnectionTracker := udpAppReplyConnectionTracker s;
     udpNetOrigConnectionTracker := udpNetOrigConnectionTracker s;
     udpNetReplyConnectionTracker := udpNetReplyConnectionTracker s;
     udpSourcePortConnectionCache := udpSourcePortConnectionCache s;
     udpNatConnectionTracker := udpNatConnectionTracker s;
     dnsmap := f (dnsmap s); events := events s |}.

Definition add_event (e : Event) (s : State) : State :=
  {| conns := conns s; contexts := contexts s;
     udpAppOrigConnectionTracker := udpAppOrigConnectionTracker s;
     udpAppReplyConnectionTracker := udpAppReplyConnectionTracker s;
     udpNetOrigConnectionTracker := udpNetOrigConnectionTracker s;
     udpNetReplyConnectionTracker := udpNetReplyConnectionTracker s;
     udpSourcePortConnectionCache := udpSourcePortConnectionCache s;
     udpNatConnectionTracker := udpNatConnectionTracker s;
     dnsmap := dnsmap s; events := (events s ++ [e])%list |}.

(** *** Computations: a state transformer that may panic *)

Inductive Outcome (A : Type) :=
  | Returned (a : A) (s : State)
  | Panicked (s : State).
Arguments Returned {A} a s.
Arguments Panicked {A} s.

Definition M (A : Type) : Type := State -> Outcome A.

Definition ret {A} (a : A) : M A := fun s => Returned a s.

Definition bind {A B} (m : M A) (k : A -> M B) : M B :=
  fun s => match m s with
           | Returned a s' => k a s'
           | Panicked s' => Panicked s'
           end.

(** A nil pointer dereference (or any other run-time panic). *)
Definition panic {A} : M A := fun s => Panicked s.

Definition get : M State := fun s => Returned s s.

Definition modify (f : State -> State) : M unit := fun s => Returned tt (f s).

Definition emit (e : Event) : M unit := modify (add_event e).

Definition final_state {A} (o : Outcome A) : State :=
  match o with Returned _ s => s | Panicked s => s end.


Global Instance M_ret : MRet M := fun A a => ret a.
Global Instance M_bind : MBind M := fun A B k m => bind m k.

(** *** Pointers *)

(** Reading through a connection pointer; a nil pointer panics. *)
Definition getConn (conn : option nat) : M UDPConnection :=
  fun s => match conn with
           | Some a => match conns s !! a with
                       | Some c => Returned c s
                       | None => Panicked s
                       end
           | None => Panicked s
           end.

Definition setConn (conn : option nat) (c : UDPConnection) : M unit :=
  fun s => match conn with
           | Some a => Returned tt (set_conns (insert a c) s)
           | None => Panicked s
           end.

Definition getContext (context : option nat) : M PUContext :=
  fun s => match context with
           | Some a => match contexts s !! a with
                       | Some c => Returned c s
                       | None => Panicked s
                       end
           | None => Panicked s
           end.

(** [connection.NewUDPConnection]: a new object, at an address not in use. *)
Definition newConn (c : UDPConnection) : M (option nat) :=
  fun s => let a := fresh (dom (conns s)) in
           Returned (Some a) (set_conns (insert a c) s).

(** [conn.SetState], [conn.GetState], [conn.DropPackets] *)
Definition SetState (conn : option nat) (st : UDPFlowState) : M unit :=
  c ← getConn conn; setConn conn (withState c st).

Definition GetState (conn : option nat) : M UDPFlowState :=
  c ← getConn conn; ret (state c).

Definition DropPackets (conn : option nat) : M unit :=
  c ← getConn conn; setConn conn (withPacketQueue c []).

Section Datapath.

Variable L : Library.
Variable d : Datapath.

(** Modelled from the spec: payload packets arriving before the handshake
    completes are queued on the connection, in arrival order.
    [conn.QueuePackets] belongs to the absent package [connection]; it
    queues a copy of the packet made by [packet.New] and fails when the copy
    cannot be made. *)
Definition QueuePackets (conn : option nat) (p : Packet) : M Go.error :=
  c ← getConn conn;
  match New L PacketTypeApplication (Buffer p) (Mark p) with
  | inr e => ret (Some ("Unable to copy packets to queue:" +:+ e))
  | inl copyPacket =>
      setConn conn (withPacketQueue c (PacketQueue c ++ [copyPacket])%list) ;;
      ret None
  end.

(** Modelled from the spec: a rejected (accepted) flow is reported to the
    collector with the peer IDs, the policies and, for a rejection, the
    reason code. [reportUDPRejectedFlow] and [reportUDPAcceptedFlow] are
    defined in an absent file of the package. *)
Definition reportUDPRejectedFlow (p : Packet) (conn : option nat)
    (sourceID destID : string) (mode : collector.DropReason)
    (report pkt : option policy.FlowPolicy) : M unit :=
  emit (EvRejectedFlow p conn sourceID destID mode report pkt).

Definition reportUDPAcceptedFlow (p : Packet) (conn : option nat)
    (sourceID destID : string) (report pkt : option policy.FlowPolicy)
  : M unit :=
  emit (EvAcceptedFlow p conn sourceID destID report pkt).

(** [d.udpSocketWriter.WriteSocket] and
    [d.conntrackHdl.ConntrackTableUpdateMark], with the call recorded. *)
Definition writeSocket (buf : list Z) : M Go.error :=
  emit (EvWriteSocket buf) ;; ret (WriteSocket d buf).

Definition conntrackTableUpdateMark (ipSrc ipDst : string)
    (protonum srcport dstport newmark : Z) : M Go.error :=
  emit (EvConntrackTableUpdateMark ipSrc ipDst protonum srcport dstport newmark) ;;
  ret (ConntrackTableUpdateMark d ipSrc ipDst protonum srcport dstport newmark).

(** [context.SearchRcvRules] and [context.SearchTxtRules], with the call
    recorded. *)
Definition searchRcvRules (context : PUContext) (tags : policy.TagStore)
  : M (policy.FlowPolicy * policy.FlowPolicy) :=
  emit (EvSearchRcvRules context tags) ;; ret (SearchRcvRules L context tags).

Definition searchTxtRules (context : PUContext) (tags : policy.TagStore)
    (skip : bool) : M (policy.FlowPolicy * policy.FlowPolicy) :=
  emit (EvSearchTxtRules context tags skip) ;;
  ret (SearchTxtRules L context tags skip).

(** [func (d *Datapath) netSynUDPRetrieveState(p *packet.Packet)] *)
Definition netSynUDPRetrieveState (p : Packet) : M (option nat * Go.error) :=
  match contextFromIP d false (IPString L (DestinationAddress p)) (Mark p)
          (DestinationPort p) IPProtocolUDP with
  | (_, Some err) => ret (None, Some err)
  | (context, None) =>
      conn ← newConn (NewUDPConnection context); ret (conn, None)
  end.

(** [func (d *Datapath) netSynAckUDPRetrieveState(p *packet.Packet)]: a miss
    in the cache is not an error; the function returns (nil, nil). *)
Definition netSynAckUDPRetrieveState (p : Packet) : M (option nat * Go.error) :=
  s ← get;
  match udpSourcePortConnectionCache s !! SourcePortHash L p PacketTypeNetwork with
  | None => ret (None, None)
  | Some conn => ret (Some conn, None)
  end.

(** [func (d *Datapath) netUDPAckRetrieveState(p *packet.Packet)] *)
Definition netUDPAckRetrieveState (p : Packet) : M (option nat * Go.error) :=
  s ← get;
  let hash := L4FlowHash L p in
  match udpNetReplyConnectionTracker s !! hash with
  | Some conn => ret (Some conn, None)
  | None =>
      match udpNetOrigConnectionTracker s !! hash with
      | Some conn => ret (Some conn, None)
      | None => ret (None, Some "net state not found: not found")
      end
  end.

(** [func (d *Datapath) CreateUDPAuthMarker(packetType uint8) []byte] *)
Definition CreateUDPAuthMarker (packetType : Z) : list Z :=
  (Z.lor 0 packetType :: 0 ::
   firstn 18 (bytes_of_string UDPAuthMarker ++ repeat 0 18))%list.

(** [func (d *Datapath) clonePacketHeaders(p *packet.Packet)]: the headers of
    [p], fixed up for an empty payload, as a packet of their own. The first
    component is [p] after the fix-up. *)
Definition clonePacketHeaders (p : Packet) : Packet * (Packet + string) :=
  let p' := FixupIPHdrOnDataModify L p (IPTotalLength p) UDPDataPos in
  let newPacket := firstn (Z.to_nat UDPDataPos) (Buffer p') in
  (p', New L PacketTypeApplication newPacket (Mark p')).

(** [func (d *Datapath) processNetworkUDPSynPacket(context, conn, udpPacket)] *)
Definition processNetworkUDPSynPacket (context : option nat) (conn : option nat)
    (udpPacket : Packet)
  : M (option policy.FlowPolicy * option tokens.ConnectionClaims * Go.error) :=
  c ← getConn conn;
  let '(claims, err, auth) :=
    ParsePacketToken (tokenAccessor d) (Auth c) (ReadUDPToken udpPacket) in
  setConn conn (withAuth c auth) ;;
  match err with
  | Some e =>
      ctx ← getContext context;
      reportUDPRejectedFlow udpPacket conn collector.DefaultEndPoint
        (ManagementID ctx) collector.InvalidToken None None ;;
      ret (None, None,
           Some ("UDP Syn packet dropped because of invalid token: " +:+ e))
  | None =>
      match claims with
      | None =>
          ctx ← getContext context;
          reportUDPRejectedFlow udpPacket conn collector.DefaultEndPoint
            (ManagementID ctx) collector.InvalidToken None None ;;
          ret (None, None, Some "UDP Syn packet dropped because of no claims")
      | Some claims =>
          let '(txLabel, _) := policy.Get (tokens.T claims) (TransmitterLabel L) in
          let claims :=
            {| tokens.T :=
                 policy.AppendKeyValue (tokens.T claims) PortNumberLabelString
                   (Go.Itoa (DestinationPort udpPacket)) |} in
          ctx ← getContext context;
          '(report, pkt) ← searchRcvRules ctx (tokens.T claims);
          if policy.Rejected (policy.Action pkt) then
            reportUDPRejectedFlow udpPacket conn txLabel (ManagementID ctx)
              collector.PolicyDrop (Some report) (Some pkt) ;;
            ret (None, None, Some "connection rejected because of policy")
          else
            let hash := L4FlowHash L udpPacket in
            SetState conn UDPSynReceived ;;
            modify (set_udpNetOrig (insert hash (default 0%nat conn))) ;;
            modify (set_udpAppReply
                      (insert (L4ReverseFlowHash L udpPacket) (default 0%nat conn))) ;;
            c ← getConn conn;
            setConn conn (withPolicies c (Some report) (Some pkt)) ;;
            ret (Some pkt, Some claims, None)
      end
  end.

(** [func (d *Datapath) processNetworkUDPSynAckPacket(udpPacket, context, conn)] *)
Definition processNetworkUDPSynAckPacket (udpPacket : Packet)
    (context : option nat) (conn : option nat)
  : M (option policy.FlowPolicy * option tokens.ConnectionClaims * Go.error) :=
  c ← getConn conn;
  let '(claims, err, auth) :=
    ParsePacketToken (tokenAccessor d) (Auth c) (ReadUDPToken udpPacket) in
  setConn conn (withAuth c auth) ;;
  match err with
  | Some e =>
      ctx ← getContext context;
      reportUDPRejectedFlow udpPacket None collector.DefaultEndPoint
        (ManagementID ctx) collector.MissingToken None None ;;
      ret (None, None, Some ("SynAck packet dropped because of bad claims: " +:+ e))
  | None =>
      match claims with
      | None =>
          ctx ← getContext context;
          reportUDPRejectedFlow udpPacket None collector.DefaultEndPoint
            (ManagementID ctx) collector.MissingToken None None ;;
          ret (None, None, Some "SynAck packet dropped because of no claims")
      | Some claims =>
          ctx ← getContext context;
          '(report, pkt) ←
            searchTxtRules ctx (tokens.T claims) (negb (mutualAuthorization d));
          if policy.Rejected (policy.Action pkt) then
            c ← getConn conn;
            reportUDPRejectedFlow udpPacket conn (ManagementID ctx)
              (RemoteContextID (Auth c)) collector.PolicyDrop
              (Some report) (Some pkt) ;;
            ret (None, None, Some "dropping because of reject rule on transmitter")
          else
            SetState conn UDPSynAckReceived ;;
            modify (set_udpNetReply
                      (insert (L4FlowHash L udpPacket) (default 0%nat conn))) ;;
            ret (Some pkt, Some claims, None)
      end
  end.

(** [func (d *Datapath) processNetworkUDPAckPacket(udpPacket, context, conn)] *)
Definition processNetworkUDPAckPacket (udpPacket : Packet)
    (context : option nat) (conn : option nat)
  : M (option policy.FlowPolicy * option tokens.ConnectionClaims * Go.error) :=
  c ← getConn conn;
  let '(_, err, auth) :=
    ParseAckToken (tokenAccessor d) (Auth c) (ReadUDPToken udpPacket) in
  setConn conn (withAuth c auth) ;;
  match err with
  | Some e =>
      c ← getConn conn;
      ctx ← getContext context;
      reportUDPRejectedFlow udpPacket conn (RemoteContextID (Auth c))
        (ManagementID ctx) collector.PolicyDrop
        (ReportFlowPolicy c) (PacketFlowPolicy c) ;;
      ret (None, None,
           Some ("ack packet dropped because signature validation failed: " +:+ e))
  | None =>
      SetState conn UDPAckReceived ;;
      c ← getConn conn;
      (if negb (ServiceConnection c) then
         conntrackTableUpdateMark
           (IPString L (DestinationAddress udpPacket))
           (IPString L (SourceAddress udpPacket))
           (IPProto udpPacket) (DestinationPort udpPacket) (SourcePort udpPacket)
           (DefaultConnMark L) ;;
         ret tt
       else ret tt) ;;
      c ← getConn conn;
      ctx ← getContext context;
      reportUDPAcceptedFlow udpPacket conn (RemoteContextID (Auth c))
        (ManagementID ctx) (ReportFlowPolicy c) (PacketFlowPolicy c) ;;
      ret (None, None, None)
  end.

(** [func (d *Datapath) sendUDPSynAckPacket(udpPacket, context, conn)] *)
Definition sendUDPSynAckPacket (udpPacket : Packet) (context : option nat)
    (conn : option nat) : M Go.error :=
  c ← getConn conn;
  if match service d with
     | Some svc => negb (PreProcessUDPAppPacket svc udpPacket c UDPSynAckMask)
     | None => false
     end
  then ret (Some "pre service processing failed for application packet")
  else
    let udpOptions := CreateUDPAuthMarker UDPSynAckMask in
    ctx ← getContext context;
    let '(udpData, err, auth) :=
      CreateSynAckPacketToken (tokenAccessor d) ctx (Auth c) in
    setConn conn (withAuth c auth) ;;
    match err with
    | Some e => ret (Some e)
    | None =>
        let udpPacket :=
          CreateReverseFlowPacket L udpPacket (SourceAddress udpPacket)
            (SourcePort udpPacket) in
        SetState conn UDPSynAckSent ;;
        let udpPacket := UDPTokenAttach L udpPacket udpOptions udpData in
        c ← getConn conn;
        if match service d with
           | Some svc => negb (PostProcessUDPAppPacket svc udpPacket c)
           | None => false
           end
        then ret (Some "post service processing failed for application packet")
        else
          writeSocket (Buffer udpPacket) ;;
          ret None
    end.

(** The loop at the end of [sendUDPAckPacket]: "Transmit Queued Packets".
    [err] is the function's named result, overwritten by every write. *)
Fixpoint transmitQueued (c : UDPConnection) (queue : list Packet)
    (err : Go.error) : M Go.error :=
  match queue with
  | [] => ret err
  | udpPacket :: rest =>
      if match service d with
         | Some svc => negb (PostProcessUDPAppPacket svc udpPacket c)
         | None => false
         end
      then ret (Some "Encryption failed for queued application packet")
      else
        err ← writeSocket (Buffer udpPacket);
        transmitQueued c rest err
  end.

(** [func (d *Datapath) sendUDPAckPacket(udpPacket, context, conn)] *)
Definition sendUDPAckPacket (udpPacket : Packet) (context : option nat)
    (conn : option nat) : M Go.error :=
  let udpOptions := CreateUDPAuthMarker UDPAckMask in
  c ← getConn conn;
  ctx ← getContext context;
  let '(udpData, err, auth) :=
    CreateAckPacketToken (tokenAccessor d) ctx (Auth c) in
  setConn conn (withAuth c auth) ;;
  match err with
  | Some e => ret (Some e)
  | None =>
      s ← get;
      match udpNatConnectionTracker s !! SourcePortHash L udpPacket PacketTypeNetwork with
      | None => ret (Some "error getting actual destination")
      | Some destIPPort =>
          let parts := Go.Split destIPPort ":" in
          let destIP := nth 0 parts "" in
          match nth_error parts 1 with
          | None => panic
          | Some portString =>
              match Go.Atoi portString with
              | None => ret (Some "Unable to get dest port from cache")
              | Some destPort =>
                  let destPort := destPort mod 2 ^ 16 in
                  let udpPacket :=
                    CreateReverseFlowPacket L udpPacket (ParseIP L destIP) destPort in
                  let udpPacket := UDPTokenAttach L udpPacket udpOptions udpData in
                  err ← writeSocket (Buffer udpPacket);
                  SetState conn UDPAckProcessed ;;
                  c ← getConn conn;
                  err ← (if negb (ServiceConnection c) then
                            conntrackTableUpdateMark destIP
                              (IPString L (SourceAddress udpPacket))
                              (IPProto udpPacket) destPort (SourcePort udpPacket)
                              (DefaultConnMark L)
                          else ret err);
                  transmitQueued c (PacketQueue c) err
              end
          end
      end
  end.

(** [func (d *Datapath) processNetUDPPacket(udpPacket, context, conn)] *)
Definition processNetUDPPacket (udpPacket : Packet) (context : option nat)
    (conn : option nat) : M Go.error :=
  match conn with
  | None => ret None
  | Some _ =>
      let udpPacketType := GetUDPType udpPacket in
      if udpPacketType =? UDPSynMask then
        '(action, claims, err) ← processNetworkUDPSynPacket context conn udpPacket;
        match err with
        | Some e => ret (Some e)
        | None =>
            c ← getConn conn;
            if match service d with
               | Some svc => negb (PostProcessUDPNetPacket svc udpPacket action claims c)
               | None => false
               end
            then ret (Some "post service processing failed for network packet")
            else
              err ← sendUDPSynAckPacket udpPacket context conn;
              match err with
              | Some e => ret (Some e)
              | None => ret None
              end
        end
      else if udpPacketType =? UDPAckMask then
        '(action, claims, err) ← processNetworkUDPAckPacket udpPacket context conn;
        match err with
        | Some e => ret (Some e)
        | None =>
            c ← getConn conn;
            if match service d with
               | Some svc => negb (PostProcessUDPNetPacket svc udpPacket action claims c)
               | None => false
               end
            then ret (Some "post service processing failed for network packet")
            else
              SetState conn UDPAckProcessed ;;
              ret (Some "Drop udp ack (net) handshake packet as it is not intended for the application")
        end
      else if udpPacketType =? UDPSynAckMask then
        '(action, claims, err) ← processNetworkUDPSynAckPacket udpPacket context conn;
        match err with
        | Some e => ret (Some e)
        | None =>
            c ← getConn conn;
            if match service d with
               | Some svc => negb (PostProcessUDPNetPacket svc udpPacket action claims c)
               | None => false
               end
            then ret (Some "post service processing failed for network packet")
            else
              err ← sendUDPAckPacket udpPacket context conn;
              match err with
              | Some e => ret (Some e)
              | None => ret None
              end
        end
      else ret None
  end.

(** The rule [processDNSTraffic] adds for one answer and one port of the
    name's DNS ACL. *)
Definition dnsRule (t : DNSResourceRecord) (port : string) : policy.IPRule :=
  {| policy.Address := IPString L (IP t);
     policy.Port := port;
     policy.Protocol := "TCP";
     policy.Policy :=
       {| policy.Action := policy.Accept;
          policy.ObserveAction := policy.ObserveNone;
          policy.PolicyID := "default";
          policy.ServiceID := "default" |} |}.

(** The body of [for _, port := range strings.Split(val.(string), ",")]:
    an error of AddRule is printed and the loop goes on. *)
Definition addPorts (t : DNSResourceRecord) (ports : list string)
    (a : acls.ACLCache) : acls.ACLCache :=
  fold_left (fun a port => fst (acls.AddRule a (dnsRule t port))) ports a.

(** The body of [for _, t := range dns.Answers]. *)
Definition addAnswer (dnsACLs : gmap string string) (a : acls.ACLCache)
    (t : DNSResourceRecord) : acls.ACLCache :=
  if DataLength t =? 4 then
    match dnsACLs !! Name t with
    | Some val => addPorts t (Go.Split val ",") a
    | None => a
    end
  else a.

(** [func (d *Datapath) processDNSTraffic(p *packet.Packet, request bool)] *)
Definition processDNSTraffic (p : Packet) (request : bool) : M unit :=
  let answers := DecodeAnswers L (GetUDPData p) in
  if request then
    let '(context, _) :=
      contextFromIP d true (IPString L (SourceAddress p)) (Mark p)
        (SourcePort p) IPProtocolUDP in
    modify (set_dnsmap (insert (SourcePort p) context))
  else
    s ← get;
    match default None (dnsmap s !! DestinationPort p) with
    | None => ret tt
    | Some a =>
        context ← getContext (Some a);
        let acl := fold_left (addAnswer (DNSACLs context)) answers
                     (ApplicationACLs context) in
        modify (set_contexts (insert a (withApplicationACLs context acl)))
    end.

(** The outcome of the [switch] on the packet type in
    [ProcessNetworkUDPPacket]: the function returns from inside the switch,
    or goes on with the connection the switch has found. *)
Inductive SwitchResult :=
  | Return (err : Go.error)
  | Continue (conn : option nat).

(** [func (d *Datapath) ProcessNetworkUDPPacket(p *packet.Packet) (err error)] *)
Definition ProcessNetworkUDPPacket (p : Packet) : M Go.error :=
  if SourcePort p =? 53 then
    processDNSTraffic p false ;;
    ret None
  else
    let udpPacketType := GetUDPType p in
    r ← (if udpPacketType =? UDPSynMask then
           '(conn, err) ← netSynUDPRetrieveState p;
           match err with
           | Some e => ret (Return (Some e))
           | None =>
               match conn with
               | None => ret (Return (Some "Unable to create new connection"))
               | Some _ =>
                   SetState conn UDPSynReceived ;;
                   ret (Continue conn)
               end
           end
         else if udpPacketType =? UDPSynAckMask then
           '(conn, err) ← netSynAckUDPRetrieveState p;
           match err with
           | Some e =>
               match conn with
               | Some _ => DropPackets conn
               | None => ret tt
               end ;;
               ret (Return (Some e))
           | None => ret (Continue conn)
           end
         else if udpPacketType =? UDPAckMask then
           '(conn, err) ← netUDPAckRetrieveState p;
           match err with
           | Some e => ret (Return (Some e))
           | None => ret (Continue conn)
           end
         else
           '(conn, err) ← netUDPAckRetrieveState p;
           match err with
           | Some e => ret (Return (Some e))
           | None =>
               match service d with
               | Some svc =>
                   c ← getConn conn;
                   if negb (PostProcessUDPNetPacket svc p None None c)
                   then ret (Return (Some "post service processing failed for network packet"))
                   else ret (Return None)
               | None => ret (Return None)
               end
           end);
    match r with
    | Return err => ret err
    | Continue conn =>
        pre ← match service d with
              | Some svc =>
                  c ← getConn conn;
                  ret (PreProcessUDPNetPacket svc p c)
              | None => ret true
              end;
        if negb pre
        then ret (Some "pre service processing failed for network packet")
        else
          (* [conn.Context], the argument of the call, is read through
             [conn] before [processNetUDPPacket] is entered. *)
          c ← getConn conn;
          err ← processNetUDPPacket p (Context c) conn;
          match err with
          | Some e =>
              ret (Some ("packet processing failed for network packet: " +:+ e))
          | None => ret (Some "Drop net hanshake packets (udp)")
          end
    end.

(** [func (d *Datapath) appUDPRetrieveState(p *packet.Packet)] *)
Definition appUDPRetrieveState (p : Packet) : M (option nat * Go.error) :=
  s ← get;
  let hash := L4FlowHash L p in
  match udpAppReplyConnectionTracker s !! hash with
  | Some conn => ret (Some conn, None)
  | None =>
      match udpAppOrigConnectionTracker s !! hash with
      | Some conn => ret (Some conn, None)
      | None =>
          match contextFromIP d true (IPString L (SourceAddress p)) (Mark p)
                  (SourcePort p) IPProtocolUDP with
          | (_, Some _) => ret (None, Some "No context in app processing")
          | (context, None) =>
              conn ← newConn (NewUDPConnection context);
              ret (conn, None)
          end
      end
  end.

(** [func (d *Datapath) processApplicationUDPSynPacket(udpPacket, context, conn)] *)
Definition processApplicationUDPSynPacket (udpPacket : Packet)
    (context : option nat) (conn : option nat) : M Go.error :=
  c ← getConn conn;
  if match service d with
     | Some svc => negb (PreProcessUDPAppPacket svc udpPacket c UDPSynMask)
     | None => false
     end
  then ret (Some "pre service processing failed for UDP application packet")
  else
    let udpOptions := CreateUDPAuthMarker UDPSynMask in
    ctx ← getContext context;
    let '(udpData, err, auth) :=
      CreateSynPacketToken (tokenAccessor d) ctx (Auth c) in
    setConn conn (withAuth c auth) ;;
    match err with
    | Some e => ret (Some e)
    | None =>
        match clonePacketHeaders udpPacket with
        | (_, inr e) => ret (Some ("Unable to clone packet: " +:+ e))
        | (udpPacket, inl newPacket) =>
            let newPacket := UDPTokenAttach L newPacket udpOptions udpData in
            writeSocket (Buffer newPacket) ;;
            SetState conn UDPSynSend ;;
            let hash := L4FlowHash L udpPacket in
            modify (set_udpAppOrig (insert hash (default 0%nat conn))) ;;
            modify (set_udpSourcePort
                      (insert (SourcePortHash L newPacket PacketTypeApplication)
                              (default 0%nat conn))) ;;
            modify (set_udpNat
                      (insert (SourcePortHash L newPacket PacketTypeApplication)
                              (SourcePortHash L newPacket PacketTypeNetwork))) ;;
            c ← getConn conn;
            if match service d with
               | Some svc => negb (PostProcessUDPAppPacket svc newPacket c)
               | None => false
               end
            then ret (Some "post service processing failed for application packet")
            else ret None
        end
    end.

(** [func (d *Datapath) ProcessApplicationUDPPacket(p *packet.Packet) (err error)] *)
Definition ProcessApplicationUDPPacket (p : Packet) : M Go.error :=
  if DestinationPort p =? 53 then
    processDNSTraffic p true ;;
    ret None
  else
    '(conn, err) ← appUDPRetrieveState p;
    match err with
    | Some e => ret (Some ("Received packet from unenforced process: " +:+ e))
    | None =>
        st ← GetState conn;
        err ← (if negb (UDPFlowState_eqb st UDPAckProcessed)
               then QueuePackets conn p
               else ret None);
        match err with
        | Some e => ret (Some ("Unable to queue packets:" +:+ e))
        | None =>
            st ← GetState conn;
            match st with
            | UDPSynStart =>
                c ← getConn conn;
                err ← processApplicationUDPSynPacket p (Context c) conn;
                match err with
                | Some e => ret (Some ("Unable to send UDP Syn packet: " +:+ e))
                | None => ret (Some "Packets cloned. Dropping the original packet")
                end
            | UDPAckProcessed =>
                c ← getConn conn;
                if match service d with
                   | Some svc => negb (PostProcessUDPAppPacket svc p c)
                   | None => false
                   end
                then ret (Some "Encryption failed for application packet")
                else ret None
            | _ => ret (Some "Packets cloned. Dropping the original packet")
            end
        end
    end.

End Datapath.

End nfqdatapath.

(** ** Package [controller]: the trireme controller

    The second file of [utils/cgnetcls/cgnetcls.go]: the [trireme] struct and
    its methods Run, CleanUp, Enforce, UnEnforce, UpdatePolicy, UpdateSecrets,
    UpdateConfiguration, doHandleCreate, doHandleDelete and doUpdatePolicy.

    The supervisors, the enforcers, the port allocator, the collector and the
    policy objects are objects of absent packages. They are referred to by
    their address; every call that can change them is recorded, and what a
    call or a getter answers is a function of the calls made so far. *)

Module controller.

(** [constants.ModeType] and [common.PUType]: integer enumerations. *)
Definition ModeType := Z.
Definition PUType := Z.

(** The values of [ContainerRecord.Event] that the controller reports. *)
Inductive EventKind :=
  | ContainerStart | ContainerIgnored | ContainerFailed
  | ContainerDelete | ContainerUpdate.

(** [collector.ContainerRecord] *)
Record ContainerRecord := {
  ContextID : string;
  IPAddress : gmap string string;
  Tags : option (list string);
  Event : EventKind
}.

(** The calls that leave the controller. Supervisors, enforcers, runtimes
    and PU infos are named by their address. *)
Inductive Call :=
  | SupervisorRun (sup : nat)
  | EnforcerRun (enf : nat)
  | SupervisorCleanUp (sup : nat)
  | EnforcerUpdateSecrets (enf : nat) (secrets : nat)
  | SupervisorSetTargetNetworks (sup : nat) (networks : list string)
  | EnforcerSetTargetNetworks (enf : nat) (networks : list string)
  | EnforcerEnforce (enf : nat) (contextID : string) (containerInfo : nat)
  | EnforcerUnenforce (enf : nat) (contextID : string)
  | SupervisorSupervise (sup : nat) (contextID : string) (containerInfo : nat)
  | SupervisorUnsupervise (sup : nat) (contextID : string)
  | PortAllocate
  | PortRelease (port : string)
  | RuntimeSetOptions (runtime : nat) (proxyPort : string)
  | AddTransmitterLabel (contextID : string) (containerInfo : nat)
  | CollectContainerEvent (record : ContainerRecord).

(** What the absent packages answer, given the calls made so far. *)
Record World := {
  (** the error a call returns; for a call without a result, nothing reads it *)
  answer : list Call -> Call -> Go.error;
  (** [t.port.Allocate()] *)
  allocated : list Call -> string;
  (** [policy.PUInfoFromPolicyAndRuntime(contextID, policy, runtime)], and
      the field [Runtime] of the PU info it returns *)
  PUInfoFromPolicyAndRuntime : list Call -> string -> nat -> nat -> nat;
  InfoRuntime : nat -> nat;
  (** [mustEnforce(contextID, containerInfo)], a function of the package
      that is defined in an absent file *)
  mustEnforce : list Call -> string -> nat -> bool;
  (** getters of [policy.PUPolicy] and [policy.PURuntime] *)
  PolicyIPAddresses : list Call -> nat -> gmap string string;
  PolicyAnnotations : list Call -> nat -> option (list string);
  RuntimeIPAddresses : list Call -> nat -> gmap string string;
  RuntimeTags : list Call -> nat -> option (list string);
  RuntimePUType : list Call -> nat -> PUType;
  RuntimeProxyPort : list Call -> nat -> string;
  (** [common.ContainerPU] and [constants.Sidecar] *)
  ContainerPU : PUType;
  Sidecar : ModeType
}.

(** An enforcer of the map [t.enforcers]: its address, and whether its
    dynamic type is [*enforcerproxy.ProxyInfo]. *)
Record Enforcer := {
  enforcer : nat;
  isProxyInfo : bool
}.

(** The fields of [trireme] that the methods read. Go ranges over a map in
    an order it does not specify: the lists give the entries of
    [t.supervisors] and [t.enforcers] in the order of the iteration. *)
Record trireme := {
  supervisors : list (ModeType * nat);
  enforcers : list (ModeType * Enforcer);
  puTypeToEnforcerType : gmap PUType ModeType
}.

(** [m[k]] on a map of interface values: the first entry of the key, nil
    when there is none. *)
Fixpoint lookup_mode {V : Type} (k : ModeType) (m : list (ModeType * V))
  : option V :=
  match m with
  | [] => None
  | (k', v) :: rest => if k' =? k then Some v else lookup_mode k rest
  end.

(** What the methods change: the calls made so far, and the keys of
    [t.locks]. Every method that takes a PU's mutex holds it until it
    returns, so the calls of one method are not interleaved with those of
    another one on the same PU. *)
Record State := {
  trace : list Call;
  locks : gset string
}.

Definition record (c : Call) (s : State) : State :=
  {| trace := (trace s ++ [c])%list; locks := locks s |}.

Definition set_locks (f : gset string -> gset string) (s : State) : State :=
  {| trace := trace s; locks := f (locks s) |}.

Inductive Outcome (A : Type) :=
  | Returned (a : A) (s : State)
  | Panicked (s : State).
Arguments Returned {A} a s.
Arguments Panicked {A} s.

Definition M (A : Type) : Type := State -> Outcome A.

Definition ret {A} (a : A) : M A := fun s => Returned a s.

Definition bind {A B} (m : M A) (k : A -> M B) : M B :=
  fun s => match m s with
           | Returned a s' => k a s'
           | Panicked s' => Panicked s'
           end.

(** A method call on a nil interface value. *)
Definition panic {A} : M A := fun s => Panicked s.

Definition final_state {A} (o : Outcome A) : State :=
  match o with Returned _ s => s | Panicked s => s end.

Global Instance M_ret : MRet M := fun A a => ret a.
Global Instance M_bind : MBind M := fun A B k m => bind m k.

(** The calls made so far, for a getter. *)
Definition history : M (list Call) := fun s => Returned (trace s) s.

Definition modify (f : State -> State) : M unit := fun s => Returned tt (f s).

Section Controller.

Variable W : World.
Variable t : trireme.

(** A call that leaves the controller: recorded, then answered. *)
Definition call (c : Call) : M Go.error :=
  fun s => Returned (answer W (trace s) c) (record c s).

(** [defer f()]: [f] runs when the body returns and when it panics. *)
Definition defer {A} (body : M A) (f : M unit) : M A :=
  fun s => match body s with
           | Returned a s' =>
               match f s' with
               | Returned _ s'' => Returned a s''
               | Panicked s'' => Panicked s''
               end
           | Panicked s' => Panicked (final_state (f s'))
           end.

(** The loop [for _, s := range t.supervisors] of Run. *)
Fixpoint Run_supervisors (sups : list (ModeType * nat)) : M Go.error :=
  match sups with
  | [] => ret None
  | (_, s) :: rest =>
      err ← call (SupervisorRun s);
      match err with
      | Some e => ret (Some ("Error while starting supervisor " +:+ e))
      | None => Run_supervisors rest
      end
  end.

(** The loop [for _, e := range t.enforcers] of Run. *)
Fixpoint Run_enforcers (enfs : list (ModeType * Enforcer)) : M Go.error :=
  match enfs with
  | [] => ret None
  | (_, e) :: rest =>
      err ← call (EnforcerRun (enforcer e));
      match err with
      | Some e => ret (Some ("unable to start the enforcer: " +:+ e))
      | None => Run_enforcers rest
      end
  end.

(** [func (t *trireme) Run(ctx context.Context) error] *)
Definition Run : M Go.error :=
  err ← Run_supervisors (supervisors t);
  match err with
  | Some e => ret (Some e)
  | None => Run_enforcers (enforcers t)
  end.

(** [func (t *trireme) CleanUp() error] *)
Fixpoint CleanUp_loop (sups : list (ModeType * nat)) : M unit :=
  match sups with
  | [] => ret tt
  | (_, s) :: rest => call (SupervisorCleanUp s) ;; CleanUp_loop rest
  end.

Definition CleanUp : M Go.error :=
  CleanUp_loop (supervisors t) ;; ret None.

(** [func (t *trireme) UpdateSecrets(secrets secrets.Secrets) error] *)
Fixpoint UpdateSecrets_loop (enfs : list (ModeType * Enforcer)) (secrets : nat)
  : M unit :=
  match enfs with
  | [] => ret tt
  | (_, e) :: rest =>
      call (EnforcerUpdateSecrets (enforcer e) secrets) ;;
      UpdateSecrets_loop rest secrets
  end.

Definition UpdateSecrets (secrets : nat) : M Go.error :=
  UpdateSecrets_loop (enforcers t) secrets ;; ret None.

(** The two loops of UpdateConfiguration; [failure] is the flag they set. *)
Fixpoint UpdateConfiguration_supervisors (sups : list (ModeType * nat))
    (networks : list string) (failure : bool) : M bool :=
  match sups with
  | [] => ret failure
  | (_, s) :: rest =>
      err ← call (SupervisorSetTargetNetworks s networks);
      UpdateConfiguration_supervisors rest networks
        (match err with Some _ => true | None => failure end)
  end.

Fixpoint UpdateConfiguration_enforcers (enfs : list (ModeType * Enforcer))
    (networks : list string) (failure : bool) : M bool :=
  match enfs with
  | [] => ret failure
  | (_, e) :: rest =>
      err ← call (EnforcerSetTargetNetworks (enforcer e) networks);
      UpdateConfiguration_enforcers rest networks
        (match err with Some _ => true | None => failure end)
  end.

(** [func (t *trireme) UpdateConfiguration(networks []string) error] *)
Definition UpdateConfiguration (networks : list string) : M Go.error :=
  failure ← UpdateConfiguration_supervisors (supervisors t) networks false;
  failure ← UpdateConfiguration_enforcers (enforcers t) networks failure;
  if (failure : bool) then ret (Some "Configuration update failed") else ret None.

(** [t.puTypeToEnforcerType[containerInfo.Runtime.PUType()]]: a key the map
    does not have gives the zero mode. *)
Definition modeOf (runtime : nat) : M ModeType :=
  h ← history;
  ret (default 0 (puTypeToEnforcerType t !! RuntimePUType W h runtime)).

(** A method call on [t.enforcers[mode]] or [t.supervisors[mode]]: a panic
    when the map has no such entry. *)
Definition onEnforcer (runtime : nat) (c : nat -> Call) : M Go.error :=
  mode ← modeOf runtime;
  match lookup_mode mode (enforcers t) with
  | Some e => call (c (enforcer e))
  | None => panic
  end.

Definition onSupervisor (runtime : nat) (c : nat -> Call) : M Go.error :=
  mode ← modeOf runtime;
  match lookup_mode mode (supervisors t) with
  | Some s => call (c s)
  | None => panic
  end.

(** The body of doHandleCreate after the [defer]: the value of
    [logEvent.Event] on the way out, and the error. *)
Definition doHandleCreate_body (contextID : string) (containerInfo : nat)
  : M (EventKind * Go.error) :=
  call (AddTransmitterLabel contextID containerInfo) ;;
  h ← history;
  if negb (mustEnforce W h contextID containerInfo) then
    ret (ContainerIgnored, None)
  else
    err ← onEnforcer (InfoRuntime W containerInfo)
            (fun e => EnforcerEnforce e contextID containerInfo);
    match err with
    | Some e => ret (ContainerFailed, Some ("unable to setup enforcer: " +:+ e))
    | None =>
        err ← onSupervisor (InfoRuntime W containerInfo)
                (fun s => SupervisorSupervise s contextID containerInfo);
        match err with
        | Some e =>
            onEnforcer (InfoRuntime W containerInfo)
              (fun e => EnforcerUnenforce e contextID) ;;
            ret (ContainerFailed, Some ("unable to setup supervisor: " +:+ e))
        | None => ret (ContainerStart, None)
        end
    end.

(** The deferred function of doHandleCreate: it reports [logEvent] as the
    body has left it; a panic leaves it at ContainerStart. *)
Definition deferCollect (logEvent : EventKind -> ContainerRecord)
    (body : M (EventKind * Go.error)) : M Go.error :=
  fun s =>
    match body s with
    | Returned (ev, err) s' =>
        Returned err (record (CollectContainerEvent (logEvent ev)) s')
    | Panicked s' =>
        Panicked (record (CollectContainerEvent (logEvent ContainerStart)) s')
    end.

(** [func (t *trireme) doHandleCreate(contextID, policyInfo, runtimeInfo) error] *)
Definition doHandleCreate (contextID : string) (policyInfo runtimeInfo : nat)
  : M Go.error :=
  h ← history;
  let containerInfo :=
    PUInfoFromPolicyAndRuntime W h contextID policyInfo runtimeInfo in
  call PortAllocate ;;
  call (RuntimeSetOptions (InfoRuntime W containerInfo) (allocated W h)) ;;
  h ← history;
  let logEvent (ev : EventKind) :=
    {| ContextID := contextID;
       IPAddress := PolicyIPAddresses W h policyInfo;
       Tags := PolicyAnnotations W h policyInfo;
       Event := ev |} in
  deferCollect logEvent (doHandleCreate_body contextID containerInfo).

(** [func (t *trireme) doHandleDelete(contextID, policy, runtime) error] *)
Definition doHandleDelete (contextID : string) (policy runtime : nat)
  : M Go.error :=
  h ← history;
  call (CollectContainerEvent
          {| ContextID := contextID;
             IPAddress := RuntimeIPAddresses W h runtime;
             Tags := None;
             Event := ContainerDelete |}) ;;
  errS ← onSupervisor runtime (fun s => SupervisorUnsupervise s contextID);
  errE ← onEnforcer runtime (fun e => EnforcerUnenforce e contextID);
  h ← history;
  (if negb (String.eqb (RuntimeProxyPort W h runtime) "")
   then call (PortRelease (RuntimeProxyPort W h runtime)) ;; ret tt
   else ret tt) ;;
  match errS, errE with
  | None, None => ret None
  | _, _ =>
      ret (Some ("unable to delete context id " +:+ contextID +:+
                 ", supervisor " +:+ default "%!s(<nil>)" errS +:+
                 ", enforcer " +:+ default "%!s(<nil>)" errE))
  end.

(** [func (t *trireme) doUpdatePolicy(contextID, newPolicy, runtime) error] *)
Definition doUpdatePolicy (contextID : string) (newPolicy runtime : nat)
  : M Go.error :=
  h ← history;
  let containerInfo :=
    PUInfoFromPolicyAndRuntime W h contextID newPolicy runtime in
  call (AddTransmitterLabel contextID containerInfo) ;;
  h ← history;
  if negb (mustEnforce W h contextID containerInfo) then ret None
  else
    err ← onEnforcer (InfoRuntime W containerInfo)
            (fun e => EnforcerEnforce e contextID containerInfo);
    match err with
    | Some e =>
        mode ← modeOf (InfoRuntime W containerInfo);
        let isSidecar := mode =? Sidecar W in
        h ← history;
        if (RuntimePUType W h (InfoRuntime W containerInfo) =? ContainerPU W)
           && negb isSidecar
        then
          mode ← modeOf (InfoRuntime W containerInfo);
          match lookup_mode mode (enforcers t) with
          | Some {| enforcer := _; isProxyInfo := true |} =>
              lerr ← onEnforcer (InfoRuntime W containerInfo)
                       (fun e => EnforcerUnenforce e contextID);
              match lerr with
              | Some le => ret (Some le)
              | None =>
                  lerr ← onSupervisor (InfoRuntime W containerInfo)
                           (fun s => SupervisorUnsupervise s contextID);
                  match lerr with
                  | Some le => ret (Some le)
                  | None =>
                      lerr ← doHandleCreate contextID newPolicy runtime;
                      match lerr with
                      | Some _ => ret (Some e)
                      | None => ret None
                      end
                  end
              end
          | _ => ret (Some e)
          end
        else
          ret (Some ("enforcer failed to update policy for pu " +:+ contextID
                     +:+ ": " +:+ e))
    | None =>
        err ← onSupervisor (InfoRuntime W containerInfo)
                (fun s => SupervisorSupervise s contextID containerInfo);
        match err with
        | Some e =>
            onEnforcer (InfoRuntime W containerInfo)
              (fun e => EnforcerUnenforce e contextID) ;;
            ret (Some ("supervisor failed to update policy for pu " +:+
                       contextID +:+ ": " +:+ e))
        | None =>
            h ← history;
            call (CollectContainerEvent
                    {| ContextID := contextID;
                       IPAddress := RuntimeIPAddresses W h runtime;
                       Tags := RuntimeTags W h (InfoRuntime W containerInfo);
                       Event := ContainerUpdate |}) ;;
            ret None
        end
    end.

(** [func (t *trireme) Enforce(ctx, puID, policy, runtime) error]:
    LoadOrStore leaves the PU's mutex in [t.locks]. *)
Definition Enforce (puID : string) (policy runtime : nat) : M Go.error :=
  modify (set_locks (union {[ puID ]})) ;;
  doHandleCreate puID policy runtime.

(** [func (t *trireme) UnEnforce(ctx, puID, policy, runtime) error]: the
    deferred function deletes the PU's mutex from [t.locks]. *)
Definition UnEnforce (puID : string) (policy runtime : nat) : M Go.error :=
  modify (set_locks (union {[ puID ]})) ;;
  defer (doHandleDelete puID policy runtime)
        (modify (set_locks (fun l => l ∖ {[ puID ]}))).

(** [func (t *trireme) UpdatePolicy(ctx, puID, plc, runtime) error] *)
Definition UpdatePolicy (puID : string) (plc runtime : nat) : M Go.error :=
  fun s =>
    if bool_decide (puID ∈ locks s)
    then doUpdatePolicy puID plc runtime s
    else Returned None s.

End Controller.

End controller.

(** ** Package [statscollector]: collector_trireme.go

    The collector keeps pointers to the records it is given: [records] and
    [userRecords] are the memory the pointers point into, [Flows] and [Users]
    hold addresses. *)

Module statscollector.

Local Set Implicit Arguments.

(** Go's [int] on a 64-bit platform: the sum of two ints wraps around. *)
Definition wrap_int (z : Z) : Z := (z + 2 ^ 63) mod 2 ^ 64 - 2 ^ 63.

Section Collector.

(** [float64] with the three operations and the conversion that
    CollectFlowEvent uses; they are not interpreted. *)
Variable float64 : Type.
Variable float64_of_int : Z -> float64.
Variables fadd fmul fdiv : float64 -> float64 -> float64.

(** The fields of [collector.FlowRecord] and [collector.UserRecord] that the
    file does not name, as one value each. *)
Variable FlowFields : Type.
Variable UserFields : Type.

(** [collector.FlowRecord] *)
Record FlowRecord := {
  Count : Z;
  Latency : float64;
  Tags : option (list string);
  flowFields : FlowFields
}.

(** [collector.UserRecord] *)
Record UserRecord := {
  ID : string;
  userFields : UserFields
}.

(** [collector.StatsFlowHash(record)], and [collector.StatsUserHash(record)],
    which sets the ID of the record it is given: the error, and the record
    as the call leaves it. *)
Variable StatsFlowHash : FlowRecord -> string.
Variable StatsUserHash : UserRecord -> Go.error * UserRecord.

(** [collectorImpl], with the memory its pointers point into. *)
Record State := {
  records : gmap nat FlowRecord;
  userRecords : gmap nat UserRecord;
  Flows : gmap string nat;
  Users : gmap string nat;
  ProcessedUsers : gmap string bool
}.

Definition set_records (f : gmap nat FlowRecord -> gmap nat FlowRecord)
    (c : State) : State :=
  {| records := f (records c); userRecords := userRecords c; Flows := Flows c;
     Users := Users c; ProcessedUsers := ProcessedUsers c |}.


Definition set_Flows (f : gmap string nat -> gmap string nat) (c : State)
  : State :=
  {| records := records c; userRecords := userRecords c; Flows := f (Flows c);
     Users := Users c; ProcessedUsers := ProcessedUsers c |}.

Definition withCount (r : FlowRecord) (n : Z) : FlowRecord :=
  {| Count := n; Latency := Latency r; Tags := Tags r;
     flowFields := flowFields r |}.

Definition withLatency (r : FlowRecord) (l : float64) : FlowRecord :=
  {| Count := Count r; Latency := l; Tags := Tags r;
     flowFields := flowFields r |}.

(** [func (c *collectorImpl) CollectFlowEvent(record *collector.FlowRecord)];
    [None] is the panic of a nil or dangling pointer. *)
Definition CollectFlowEvent (record : nat) (c : State) : option State :=
  rec ← records c !! record;
  let hash := StatsFlowHash rec in
  let rec := if Count rec =? 0 then withCount rec 1 else rec in
  let c := set_records (insert record rec) c in
  match Flows c !! hash with
  | Some r =>
      old ← records c !! r;
      let latency :=
        fdiv (fadd (fmul (float64_of_int (Count old)) (Latency old)) (Latency rec))
             (float64_of_int (wrap_int (Count old + Count rec))) in
      let new := withCount (withLatency old latency)
                   (wrap_int (Count old + Count rec)) in
      Some (set_records (insert r new) c)
  | None =>
      (* [c.Flows[hash].Tags = record.Tags] assigns the record's tags to
         the record itself *)
      Some (set_Flows (insert hash record) c)
  end.


(** The count the collector holds for every flow hash. *)
Definition counts (c : State) : gmap string Z :=
  omap (fun a => Count <$> records c !! a) (Flows c).

(** Every flow hash has a record of its own, and the record exists. *)
Definition separate (c : State) : Prop :=
  (forall h a, Flows c !! h = Some a -> is_Some (records c !! a)) /\
  (forall h1 h2 a, Flows c !! h1 = Some a -> Flows c !! h2 = Some a -> h1 = h2).


End Collector.

End statscollector.

(** ** Package [cgnetcls]: cgnetcls.go *)

(** Functions of Go's package [strings] that the file uses. *)
Module gostrings.

(** [strings.HasPrefix(s, prefix)] *)
Fixpoint HasPrefix (s prefix : string) : bool :=
  match prefix, s with
  | EmptyString, _ => true
  | String _ _, EmptyString => false
  | String c prefix', String d s' => Ascii.eqb c d && HasPrefix s' prefix'
  end.

(** [strings.Contains(s, substr)] *)
Fixpoint Contains (s substr : string) : bool :=
  HasPrefix s substr ||
  match s with
  | EmptyString => false
  | String _ s' => Contains s' substr
  end.

End gostrings.

Module cgnetcls.

(** The calls that change the file system. *)
Inductive Call :=
  | WriteFile (filename : string) (data : string).

(** The operating system and the constants of the package that other files
    declare. What a call answers depends on the writes made so far. *)
Record OS := {
  (** [os.Stat(name)], reduced to [os.IsNotExist] of its error *)
  StatIsNotExist : list Call -> string -> bool;
  (** [ioutil.ReadFile(filename)]: the data, or an error *)
  ReadFile : list Call -> string -> string + string;
  (** the error of [ioutil.WriteFile(filename, data, perm)] *)
  WriteFileError : list Call -> string -> string -> Go.error;
  (** [filepath.Join] *)
  Join : list string -> string;
  (** the constants [procs] and [TriremeBasePath] *)
  procs : string;
  TriremeBasePath : string
}.

(** [netCls] *)
Record netCls := {
  ReleaseAgentPath : string;
  TriremePath : string
}.

(** The package variables [basePath] and [markval], and the writes made. *)
Record State := {
  basePath : string;
  markval : Z;
  written : list Call
}.

Definition write (c : Call) (st : State) : State :=
  {| basePath := basePath st; markval := markval st;
     written := (written st ++ [c])%list |}.

Section Cgnetcls.

Variable os : OS.

(** [func (s *netCls) RemoveProcess(cgroupname string, pid int) error] *)
Definition RemoveProcess (s : netCls) (cgroupname : string) (pid : Z)
    (st : State) : Go.error * State :=
  if StatIsNotExist os (written st)
       (Join os [basePath st; TriremePath s; cgroupname])
  then (Some "cannot clean up process. cgroup does not exist", st)
  else
    match ReadFile os (written st) (Join os [basePath st; procs os]) with
    | inr e => (Some ("cannot cleanup process: " +:+ e), st)
    | inl data =>
        if negb (gostrings.Contains data (Go.Itoa pid))
        then (Some "cannot cleanup process. process is not a part of this cgroup",
              st)
        else
          let filename := Join os [basePath st; procs os] in
          match WriteFileError os (written st) filename (Go.Itoa pid) with
          | Some e =>
              (Some ("cannot clean up process: " +:+ e),
               write (WriteFile filename (Go.Itoa pid)) st)
          | None => (None, write (WriteFile filename (Go.Itoa pid)) st)
          end
    end.

(** The loop of ListCgroupProcesses: the lines that are not empty. *)
Fixpoint nonEmptyLines (lines : list string) : list string :=
  match lines with
  | [] => []
  | line :: rest =>
      if (0 <? Z.of_nat (String.length line))
      then line :: nonEmptyLines rest
      else nonEmptyLines rest
  end.

(** [func (s *netCls) ListCgroupProcesses(cgroupname string) ([]string, error)] *)
Definition ListCgroupProcesses (s : netCls) (cgroupname : string) (st : State)
  : list string * Go.error :=
  if StatIsNotExist os (written st)
       (Join os [basePath st; TriremePath s; cgroupname])
  then ([], Some ("cgroup " +:+ cgroupname +:+ " does not exist"))
  else
    match ReadFile os (written st)
            (Join os [basePath st; TriremePath s; cgroupname; "cgroup.procs"]) with
    | inr e => ([], Some ("cannot read procs file: " +:+ e))
    | inl data => (nonEmptyLines (Go.Split data "010"), None)
    end.

(** [func CgroupMemberCount(cgroupName string) int] *)
Definition CgroupMemberCount (cgroupName : string) (st : State) : Z :=
  if StatIsNotExist os (written st)
       (Join os [basePath st; TriremeBasePath os; cgroupName])
  then 0
  else
    match ReadFile os (written st)
            (Join os [basePath st; TriremeBasePath os; cgroupName; "cgroup.procs"]) with
    | inr _ => 0
    | inl data => Z.of_nat (String.length data)
    end.

End Cgnetcls.

(** [func MarkVal() uint64]: [atomic.AddUint64(&markval, 1)] returns the new
    value. *)
Definition MarkVal (st : State) : Z * State :=
  let new := (markval st + 1) mod 2 ^ 64 in
  (new, {| basePath := basePath st; markval := new; written := written st |}).

(** The marks of [n] calls of MarkVal in a row. *)
Fixpoint MarkVals (n : nat) (st : State) : list Z :=
  match n with
  | O => []
  | S n' => let '(v, st') := MarkVal st in v :: MarkVals n' st'
  end.

End cgnetcls.

(** ** Concrete scenarios used by the properties below *)

(** A reject rule that is observed with Continue, and an accept rule for the
    same network and port, both entered through [AddRule]. *)
Definition observedRejectRule : policy.IPRule :=
  {| policy.Address := "10.0.0.0/8"; policy.Port := "80"; policy.Protocol := "TCP";
     policy.Policy := {| policy.Action := policy.Reject;
                         policy.ObserveAction := policy.ObserveContinue;
                         policy.PolicyID := "deny-web"; policy.ServiceID := "svc" |} |}.


Definition plainAcceptRule : policy.IPRule :=
  {| policy.Address := "10.0.0.0/8"; policy.Port := "80"; policy.Protocol := "TCP";
     policy.Policy := {| policy.Action := policy.Accept;
                         policy.ObserveAction := policy.ObserveNone;
                         policy.PolicyID := "allow-web"; policy.ServiceID := "svc" |} |}.


Definition observedRejectCache : acls.ACLCache :=
  fst (acls.AddRule (fst (acls.AddRule acls.NewACLCache observedRejectRule)) plainAcceptRule).


Definition plainRejectRule : policy.IPRule :=
  {| policy.Address := "10.0.0.0/8"; policy.Port := "80"; policy.Protocol := "TCP";
     policy.Policy := {| policy.Action := policy.Reject;
                         policy.ObserveAction := policy.ObserveNone;
                         policy.PolicyID := "deny-web"; policy.ServiceID := "svc" |} |}.


Definition plainRejectCache : acls.ACLCache :=
  fst (acls.AddRule
         (fst (acls.AddRule acls.NewACLCache plainRejectRule))
         {| policy.Address := "10.1.2.3/32"; policy.Port := "80";
            policy.Protocol := "TCP"; policy.Policy := policy.Policy plainAcceptRule |}).




(** *** A concrete datapath: simple stand-ins for the collaborators *)

Module scenario.
Import packet connection pucontext nfqdatapath.

Definition ipString (ip : list Z) : string :=
  match ip with
  | [a; b; c; d] =>
      Go.Itoa a +:+ "." +:+ Go.Itoa b +:+ "." +:+ Go.Itoa c +:+ "." +:+ Go.Itoa d
  | _ => "<nil>"
  end.

Definition parseIP (s : string) : list Z :=
  match map Go.Atoi (Go.Split s ".") with
  | [Some a; Some b; Some c; Some d] => [a; b; c; d]
  | _ => []
  end.

Definition hostPort (ip : list Z) (port : Z) : string :=
  ipString ip +:+ ":" +:+ Go.Itoa port.

Definition withBuffer (p : Packet) (buf : list Z) : Packet :=
  {| SourceAddress := SourceAddress p; DestinationAddress := DestinationAddress p;
     SourcePort := SourcePort p; DestinationPort := DestinationPort p;
     IPProto := IPProto p; IPTotalLength := Z.of_nat (length buf);
     Mark := Mark p; Buffer := buf |}.

(** The IPv4 and UDP headers, reduced to the fields the datapath reads:
    addresses at bytes 12 and 16, ports at bytes 20 and 22. *)
Definition header (src : list Z) (sport : Z) (dst : list Z) (dport : Z)
  : list Z :=
  (repeat 0 12 ++ firstn 4 (src ++ repeat 0 4) ++ firstn 4 (dst ++ repeat 0 4) ++
   [sport / 256; sport mod 256; dport / 256; dport mod 256] ++ repeat 0 4)%list.

Definition port_at (buf : list Z) (i : nat) : Z :=
  nth i buf 0 * 256 + nth (S i) buf 0.

(** [packet.New]: reads the header fields back; less than 28 bytes are no
    UDP packet. *)
Definition parsePacket (context : Z) (buf : list Z) (mark : string)
  : Packet + string :=
  if (length buf <? 28)%nat then inr "invalid packet"
  else inl {| SourceAddress := firstn 4 (skipn 12 buf);
              DestinationAddress := firstn 4 (skipn 16 buf);
              SourcePort := port_at buf 20; DestinationPort := port_at buf 22;
              IPProto := 17; IPTotalLength := Z.of_nat (length buf);
              Mark := mark; Buffer := buf |}.

Definition acceptAll : policy.FlowPolicy :=
  {| policy.Action := policy.Accept; policy.ObserveAction := policy.ObserveNone;
     policy.PolicyID := "allow"; policy.ServiceID := "svc" |}.

(** One A record for api.example.com whatever the message. *)
Definition apiAnswer : DNSResourceRecord :=
  {| Name := "api.example.com"; DataLength := 4; IP := [10; 1; 2; 3] |}.

Definition library : Library :=
  {| IPString := ipString;
     ParseIP := parseIP;
     L4FlowHash := fun p =>
       hostPort (SourceAddress p) (SourcePort p) +:+ ":" +:+
       hostPort (DestinationAddress p) (DestinationPort p);
     L4ReverseFlowHash := fun p =>
       hostPort (DestinationAddress p) (DestinationPort p) +:+ ":" +:+
       hostPort (SourceAddress p) (SourcePort p);
     SourcePortHash := fun p stage =>
       if stage =? PacketTypeNetwork
       then hostPort (DestinationAddress p) (DestinationPort p)
       else hostPort (SourceAddress p) (SourcePort p);
     UDPTokenAttach := fun p options data =>
       withBuffer p (firstn 28 (Buffer p) ++ options ++ data)%list;
     CreateReverseFlowPacket := fun p ip port =>
       {| SourceAddress := DestinationAddress p; DestinationAddress := ip;
          SourcePort := DestinationPort p; DestinationPort := port;
          IPProto := IPProto p; IPTotalLength := 28;
          Mark := Mark p;
          Buffer := header (DestinationAddress p) (DestinationPort p) ip port |};
     FixupIPHdrOnDataModify := fun p _ _ => p;
     New := parsePacket;
     SearchRcvRules := fun _ _ => (acceptAll, acceptAll);
     SearchTxtRules := fun _ _ _ => (acceptAll, acceptAll);
     DecodeAnswers := fun _ => [apiAnswer];
     TransmitterLabel := "AporetoContextID";
     DefaultConnMark := 61167 |}.

(** A token accessor that takes any non-empty token for the claims
    (app=web) and refuses the empty token. *)
Definition accessor : TokenAccessor :=
  {| CreateSynPacketToken := fun _ auth => ([1; 1], None, auth);
     CreateSynAckPacketToken := fun _ auth => ([2; 2], None, auth);
     CreateAckPacketToken := fun _ auth => ([3; 3], None, auth);
     ParsePacketToken := fun auth token =>
       match token with
       | [] => (None, Some "empty token", auth)
       | _ => (Some {| tokens.T := ["app=web"] |}, None, auth)
       end;
     ParseAckToken := fun auth token =>
       match token with
       | [] => (None, Some "empty token", auth)
       | _ => (None, None, auth)
       end |}.

Definition datapath : Datapath :=
  {| packetLogs := false;
     mutualAuthorization := true;
     service := None;
     tokenAccessor := accessor;
     WriteSocket := fun _ => None;
     ConntrackTableUpdateMark := fun _ _ _ _ _ _ => None;
     contextFromIP := fun _ _ _ _ _ => (Some 0%nat, None) |}.

(** The PU of the scenario: its DNS ACL lets it reach api.example.com on
    ports 443 and 8443. *)
Definition pu : PUContext :=
  {| managementID := "pu-1";
     DNSACLs := {[ "api.example.com" := "443,8443" ]};
     ApplicationACLs := acls.NewACLCache |}.

Definition emptyState : State :=
  {| conns := ∅; contexts := {[ 0%nat := pu ]};
     udpAppOrigConnectionTracker := ∅; udpAppReplyConnectionTracker := ∅;
     udpNetOrigConnectionTracker := ∅; udpNetReplyConnectionTracker := ∅;
     udpSourcePortConnectionCache := ∅; udpNatConnectionTracker := ∅;
     dnsmap := ∅; events := [] |}.

(** A UDP packet: the 28 header bytes and the payload. *)
Definition udpPacket (src : list Z) (sport : Z) (dst : list Z) (dport : Z)
    (payload : list Z) : Packet :=
  {| SourceAddress := src; DestinationAddress := dst;
     SourcePort := sport; DestinationPort := dport; IPProto := 17;
     IPTotalLength := 28 + Z.of_nat (length payload); Mark := "";
     Buffer := (header src sport dst dport ++ payload)%list |}.

(** A control packet: the auth marker of the given type, then the token. *)
Definition controlPacket (src : list Z) (sport : Z) (dst : list Z) (dport : Z)
    (packetType : Z) (token : list Z) : Packet :=
  udpPacket src sport dst dport (CreateUDPAuthMarker packetType ++ token)%list.

Definition client : list Z := [10; 0; 0; 1].
Definition server : list Z := [10; 0; 0; 2].

(** The client application sends two payload packets to the server. *)
Definition appData1 : Packet := udpPacket client 5000 server 9000 [104; 105].
Definition appData2 : Packet := udpPacket client 5000 server 9000 [33].

Definition afterAppData1 : State :=
  final_state (ProcessApplicationUDPPacket library datapath appData1 emptyState).

Definition afterAppData : State :=
  final_state (ProcessApplicationUDPPacket library datapath appData2 afterAppData1).


(** The client's connection after the two packets: SYN sent, both queued. *)
Definition queuedConn : UDPConnection :=
  default (NewUDPConnection None) (conns afterAppData !! 0%nat).

(** The server's SYNACK as the client's datapath receives it. *)
Definition synAck : Packet := controlPacket server 9000 client 5000 UDPSynAckMask [7].

(** A SYNACK for which no SYN was sent. *)
Definition straySynAck : Packet :=
  controlPacket server 9000 client 6000 UDPSynAckMask [7].

(** Handshake packets with an empty token, which the accessor refuses. *)
Definition badSyn : Packet := controlPacket client 5000 server 9000 UDPSynMask [].
Definition badSynAck : Packet := controlPacket server 9000 client 5000 UDPSynAckMask [].
Definition badAck : Packet := controlPacket client 5000 server 9000 UDPAckMask [].

(** The client's SYN and ACK as the server's datapath receives them. *)
Definition syn : Packet := controlPacket client 5000 server 9000 UDPSynMask [7].
Definition ack : Packet := controlPacket client 5000 server 9000 UDPAckMask [7].

(** The server's datapath once the switch of ProcessNetworkUDPPacket has
    created the connection of an arriving SYN and set it to SynReceived. *)
Definition synReceived : State :=
  set_conns
    (insert 0%nat (withState (NewUDPConnection (Some 0%nat)) UDPSynReceived))
    emptyState.

Definition afterSyn : State :=
  final_state (ProcessNetworkUDPPacket library datapath syn emptyState).

(** A DNS response to the PU's query from port 40000. *)
Definition dnsRequest : Packet := udpPacket client 40000 [10; 0; 0; 53] 53 [0].
Definition dnsResponse : Packet := udpPacket [10; 0; 0; 53] 53 client 40000 [0].

Definition afterDNSRequest : State :=
  final_state (ProcessApplicationUDPPacket library datapath dnsRequest emptyState).

End scenario.

(** *** Reference definitions the properties compare the code with *)

Module expected.
Import packet connection pucontext nfqdatapath.

(** The rules a DNS response is expected to add, in order: for every answer
    of data length 4 whose name is a key of the DNS ACLs, one rule per port
    of the comma-separated value. *)
Definition DNSRules (L : Library) (dnsACLs : gmap string string)
    (answers : list DNSResourceRecord) : list policy.IPRule :=
  flat_map
    (fun t =>
       if DataLength t =? 4 then
         match dnsACLs !! Name t with
         | Some val =>
             map (fun port =>
                    {| policy.Address := IPString L (IP t);
                       policy.Port := port;
                       policy.Protocol := "TCP";
                       policy.Policy :=
                         {| policy.Action := policy.Accept;
                            policy.ObserveAction := policy.ObserveNone;
                            policy.PolicyID := "default";
                            policy.ServiceID := "default" |} |})
                 (Go.Split val ",")
         | None => []
         end
       else [])
    answers.

(** Adding a list of rules one by one, whatever AddRule answers. *)
Definition addRules (a : acls.ACLCache) (rs : list policy.IPRule) : acls.ACLCache :=
  fold_left (fun a r => fst (acls.AddRule a r)) rs a.

(** The three kinds of handshake packet and, for each, the function that
    processes it, the parser it uses and the reason it reports when the
    token is refused. *)
Inductive Handshake := Syn | SynAck | Ack.

Definition process (L : Library) (d : Datapath) (k : Handshake)
    (udpPacket : Packet) (context conn : option nat)
  : M (option policy.FlowPolicy * option tokens.ConnectionClaims * Go.error) :=
  match k with
  | Syn => processNetworkUDPSynPacket L d context conn udpPacket
  | SynAck => processNetworkUDPSynAckPacket L d udpPacket context conn
  | Ack => processNetworkUDPAckPacket L d udpPacket context conn
  end.

(** The token is refused: the parser returns an error or, for SYN and
    SYNACK, no claims. *)
Definition tokenRefused (d : Datapath) (k : Handshake) (auth : AuthInfo)
    (udpPacket : Packet) : bool :=
  match k with
  | Syn | SynAck =>
      match ParsePacketToken (tokenAccessor d) auth (ReadUDPToken udpPacket) with
      | (_, Some _, _) => true
      | (None, None, _) => true
      | (Some _, None, _) => false
      end
  | Ack =>
      match ParseAckToken (tokenAccessor d) auth (ReadUDPToken udpPacket) with
      | (_, Some _, _) => true
      | (_, None, _) => false
      end
  end.

Definition reasonReported (k : Handshake) : collector.DropReason :=
  match k with
  | Syn => collector.InvalidToken
  | SynAck => collector.MissingToken
  | Ack => collector.PolicyDrop
  end.

Definition isRejectedFlow (e : Event) : bool :=
  match e with EvRejectedFlow _ _ _ _ _ _ _ => true | _ => false end.

Definition rejectedWith (mode : collector.DropReason) (e : Event) : Prop :=
  match e with
  | EvRejectedFlow _ _ _ _ m _ _ => m = mode
  | _ => False
  end.

Definition isControl (udpPacketType : Z) : bool :=
  (udpPacketType =? UDPSynMask) || (udpPacketType =? UDPSynAckMask) ||
  (udpPacketType =? UDPAckMask).

(** The service hook lets every queued packet through (vacuously so when no
    service is configured). *)
Definition hooksPass (d : Datapath) (queue : list Packet) : Prop :=
  forall svc q c, service d = Some svc -> In q queue ->
                  PostProcessUDPAppPacket svc q c = true.

End expected.

(** *** Proof automation for the datapath's computations *)

(** Unfolds the monadic plumbing of a goal. *)
Ltac run :=
  unfold mbind, nfqdatapath.M_bind, nfqdatapath.bind, mret, nfqdatapath.M_ret,
    nfqdatapath.ret, nfqdatapath.get, nfqdatapath.emit, nfqdatapath.modify,
    nfqdatapath.panic in *;
  cbv beta iota in *.

(** Splits on the scrutinee of a match in hypothesis [H]. *)
Ltac split_match_in H :=
  match type of H with
  | context [match ?x with _ => _ end] =>
      lazymatch x with
      | context [match _ with _ => _ end] => fail
      | _ => destruct x eqn:?
      end
  | context [if ?x then _ else _] =>
      lazymatch x with
      | context [if _ then _ else _] => fail
      | _ => destruct x eqn:?
      end
  end.

(** Reads fields of an updated state and connections just stored. *)
Ltac state_simpl :=
  cbv beta iota;
  cbn [nfqdatapath.conns nfqdatapath.contexts nfqdatapath.events
       nfqdatapath.dnsmap nfqdatapath.udpAppOrigConnectionTracker
       nfqdatapath.udpAppReplyConnectionTracker
       nfqdatapath.udpNetOrigConnectionTracker
       nfqdatapath.udpNetReplyConnectionTracker
       nfqdatapath.udpSourcePortConnectionCache
       nfqdatapath.udpNatConnectionTracker
       nfqdatapath.set_conns nfqdatapath.set_contexts nfqdatapath.add_event
       nfqdatapath.set_udpAppOrig nfqdatapath.set_udpAppReply
       nfqdatapath.set_udpNetOrig nfqdatapath.set_udpNetReply
       nfqdatapath.set_udpSourcePort nfqdatapath.set_udpNat
       nfqdatapath.set_dnsmap nfqdatapath.final_state];
  rewrite ?lookup_insert_eq;
  cbv beta iota.

(** *** The verdicts of the optional service hooks *)

Module hooks.
Import packet connection nfqdatapath.

Definition netPost (d : Datapath) (p : Packet) (action : option policy.FlowPolicy)
    (claims : option tokens.ConnectionClaims) (c : UDPConnection) : bool :=
  match service d with
  | Some svc => PostProcessUDPNetPacket svc p action claims c
  | None => true
  end.

Definition appPost (d : Datapath) (p : Packet) (c : UDPConnection) : bool :=
  match service d with
  | Some svc => PostProcessUDPAppPacket svc p c
  | None => true
  end.

(** Every hook of the service, if there is one, lets every packet through. *)
Definition allPass (d : Datapath) : Prop :=
  forall svc, service d = Some svc ->
    (forall p c m, PreProcessUDPAppPacket svc p c m = true) /\
    (forall p c, PostProcessUDPAppPacket svc p c = true) /\
    (forall p c, PreProcessUDPNetPacket svc p c = true) /\
    (forall p action claims c, PostProcessUDPNetPacket svc p action claims c = true).

End hooks.

(** *** Components of the state that a computation leaves alone *)

Module frame.
Import nfqdatapath.

(** The computation [m] leaves the component [f] of the state as it is,
    whether it returns or panics. *)
Definition keeps {X A : Type} (f : State -> X) (m : M A) : Prop :=
  forall s, f (final_state (m s)) = f s.

(** A component that no update of a connection and no event changes. *)
Definition table {X : Type} (f : State -> X) : Prop :=
  (forall g s, f (set_conns g s) = f s) /\
  (forall e s, f (add_event e s) = f s).

End frame.

(** *** More stand-ins for the collaborators of the datapath *)

Module cases.
Import packet connection pucontext nfqdatapath.

Definition rejectAll : policy.FlowPolicy :=
  {| policy.Action := policy.Reject; policy.ObserveAction := policy.ObserveNone;
     policy.PolicyID := "deny"; policy.ServiceID := "svc" |}.

(** The library of the scenario, with policies that reject every peer. *)
Definition strictLibrary : Library :=
  {| IPString := IPString scenario.library;
     ParseIP := ParseIP scenario.library;
     L4FlowHash := L4FlowHash scenario.library;
     L4ReverseFlowHash := L4ReverseFlowHash scenario.library;
     SourcePortHash := SourcePortHash scenario.library;
     UDPTokenAttach := UDPTokenAttach scenario.library;
     CreateReverseFlowPacket := CreateReverseFlowPacket scenario.library;
     FixupIPHdrOnDataModify := FixupIPHdrOnDataModify scenario.library;
     New := New scenario.library;
     SearchRcvRules := fun _ _ => (rejectAll, rejectAll);
     SearchTxtRules := fun _ _ _ => (rejectAll, rejectAll);
     DecodeAnswers := DecodeAnswers scenario.library;
     TransmitterLabel := TransmitterLabel scenario.library;
     DefaultConnMark := DefaultConnMark scenario.library |}.

(** A service whose hooks let everything through. *)
Definition passAll : Service :=
  {| PreProcessUDPAppPacket := fun _ _ _ => true;
     PostProcessUDPAppPacket := fun _ _ => true;
     PreProcessUDPNetPacket := fun _ _ => true;
     PostProcessUDPNetPacket := fun _ _ _ _ => true |}.

(** The datapath of the scenario with that service, a socket that refuses
    every write and a conntrack table that refuses every update. *)
Definition lossy : Datapath :=
  {| packetLogs := false;
     mutualAuthorization := true;
     service := Some passAll;
     tokenAccessor := scenario.accessor;
     WriteSocket := fun _ => Some "operation not permitted";
     ConntrackTableUpdateMark := fun _ _ _ _ _ _ => Some "no such flow";
     contextFromIP := fun _ _ _ _ _ => (Some 0%nat, None) |}.

(** A datapath that knows no PU. *)
Definition unenforced : Datapath :=
  {| packetLogs := false;
     mutualAuthorization := true;
     service := None;
     tokenAccessor := scenario.accessor;
     WriteSocket := fun _ => None;
     ConntrackTableUpdateMark := fun _ _ _ _ _ _ => None;
     contextFromIP := fun _ _ _ _ _ => (None, Some "no PU for this address") |}.

(** The client's datapath when the handshake of the scenario is over. *)
Definition established : State :=
  final_state
    (ProcessNetworkUDPPacket scenario.library scenario.datapath scenario.synAck
       scenario.afterAppData).

(** The client's connection then. *)
Definition establishedConn : UDPConnection :=
  default (NewUDPConnection None) (conns established !! 0%nat).

(** The server's connection when it has answered the SYN of the scenario. *)
Definition answeredConn : UDPConnection :=
  default (NewUDPConnection None) (conns scenario.afterSyn !! 0%nat).

(** A payload packet of the server's application, back to the client. *)
Definition reply : Packet :=
  scenario.udpPacket scenario.server 9000 scenario.client 5000 [111; 107].

(** The headers of the client's first payload packet, as a packet. *)
Definition headers : Packet :=
  scenario.udpPacket scenario.client 5000 scenario.server 9000 [].

End cases.

(** *** The controller: reference definitions and a small world *)

Module expected_controller.
Import controller.

(** The errors a sequence of calls returns when they are made in a row after
    the calls [h]. *)
Fixpoint answers (W : World) (h : list Call) (calls : list Call)
  : list Go.error :=
  match calls with
  | [] => []
  | c :: rest => answer W h c :: answers W (h ++ [c])%list rest
  end.

(** The calls of UpdateConfiguration: every supervisor, then every enforcer. *)
Definition configurationCalls (t : trireme) (networks : list string)
  : list Call :=
  (map (fun '(_, s) => SupervisorSetTargetNetworks s networks) (supervisors t) ++
   map (fun '(_, e) => EnforcerSetTargetNetworks (enforcer e) networks)
     (enforcers t))%list.

(** The calls of Run when nothing fails. *)
Definition runCalls (t : trireme) : list Call :=
  (map (fun '(_, s) => SupervisorRun s) (supervisors t) ++
   map (fun '(_, e) => EnforcerRun (enforcer e)) (enforcers t))%list.

Definition isCollect (c : Call) : bool :=
  match c with CollectContainerEvent _ => true | _ => false end.

(** A world in which the supervisor refuses every PU, and a controller with
    one supervisor (at address 10) and one enforcer (at address 20). The PU
    info is at address 3, its runtime at address 2. *)
Definition fullWorld : World :=
  {| answer := fun _ c =>
       match c with
       | SupervisorSupervise _ _ _ => Some "no room"
       | _ => None
       end;
     allocated := fun _ => "5000";
     PUInfoFromPolicyAndRuntime := fun _ _ _ _ => 3%nat;
     InfoRuntime := fun _ => 2%nat;
     mustEnforce := fun _ _ _ => true;
     PolicyIPAddresses := fun _ _ => ∅;
     PolicyAnnotations := fun _ _ => None;
     RuntimeIPAddresses := fun _ _ => ∅;
     RuntimeTags := fun _ _ => None;
     RuntimePUType := fun _ _ => 1;
     RuntimeProxyPort := fun _ _ => "5000";
     ContainerPU := 0;
     Sidecar := 2 |}.

(** The same world with a supervisor that accepts every PU. *)
Definition quietWorld : World :=
  {| answer := fun _ _ => None;
     allocated := allocated fullWorld;
     PUInfoFromPolicyAndRuntime := PUInfoFromPolicyAndRuntime fullWorld;
     InfoRuntime := InfoRuntime fullWorld;
     mustEnforce := mustEnforce fullWorld;
     PolicyIPAddresses := PolicyIPAddresses fullWorld;
     PolicyAnnotations := PolicyAnnotations fullWorld;
     RuntimeIPAddresses := RuntimeIPAddresses fullWorld;
     RuntimeTags := RuntimeTags fullWorld;
     RuntimePUType := RuntimePUType fullWorld;
     RuntimeProxyPort := RuntimeProxyPort fullWorld;
     ContainerPU := ContainerPU fullWorld;
     Sidecar := Sidecar fullWorld |}.

Definition oneOfEach : trireme :=
  {| supervisors := [(0, 10%nat)];
     enforcers := [(0, {| enforcer := 20%nat; isProxyInfo := false |})];
     puTypeToEnforcerType := ∅ |}.

Definition idle : State := {| trace := []; locks := ∅ |}.

End expected_controller.

(** *** The statistics collector: a small instance *)

Module expected_collector.
Import statscollector.

(** Flow records without latency arithmetic, all of one flow. *)
Definition flow (n : Z) : FlowRecord unit unit :=
  {| Count := n; Latency := tt; Tags := None; flowFields := tt |}.

(** A collector that holds the record at address 0, with a count of 3, and
    has been handed the record at address 1, which has no count. *)
Definition oneFlow : State unit unit unit :=
  {| records := {[ 0%nat := flow 3; 1%nat := flow 0 ]};
     userRecords := {[ 0%nat := {| ID := ""; userFields := tt |} ]};
     Flows := {[ "flow" := 0%nat ]};
     Users := ∅;
     ProcessedUsers := ∅ |}.

End expected_collector.

(** *** cgroups: the text of a procs file and a small file system *)

Module expected_cgnetcls.
Import cgnetcls.

(** The text of a procs file: one line per entry. *)
Fixpoint procsFile (pids : list string) : string :=
  match pids with
  | [] => ""
  | pid :: rest => pid +:+ String "010" (procsFile rest)
  end.

(** A file system in which every cgroup exists and every procs file lists
    the processes 123 and 4567. *)
Definition someOS : OS :=
  {| StatIsNotExist := fun _ _ => false;
     ReadFile := fun _ _ => inl (procsFile ["123"; "4567"]);
     WriteFileError := fun _ _ _ => None;
     Join := fun elems => fold_right (fun e acc => e +:+ "/" +:+ acc) "" elems;
     procs := "cgroup.procs";
     TriremeBasePath := "trireme" |}.

Definition someController : netCls :=
  {| ReleaseAgentPath := ""; TriremePath := "trireme" |}.

Definition start : State :=
  {| basePath := "/sys/fs/cgroup/net_cls"; markval := 100; written := [] |}.

End expected_cgnetcls.

(** *** The ACL cache: a rule that is refused *)

Module expected_acls.

Definition badRule : policy.IPRule :=
  {| policy.Address := "not an address"; policy.Port := "80";
     policy.Protocol := "TCP"; policy.Policy := policy.Policy plainAcceptRule |}.

End expected_acls.

(** *** Proof automation for the datapath and controller properties *)

(** Splits on whether the datapath has a service; with one, [Hpass] gives
    the verdicts of its hooks. *)
Ltac hooks_pass Hpass :=
  match goal with
  | |- context [nfqdatapath.service ?d] =>
      let svc := fresh "svc" in
      let Hsvc := fresh "Hsvc" in
      destruct (nfqdatapath.service d) as [svc|] eqn:Hsvc;
      [ let H1 := fresh "Hpre" in
        let H2 := fresh "Hpost" in
        let H3 := fresh "Hnpre" in
        let H4 := fresh "Hnpost" in
        destruct (Hpass svc Hsvc) as (H1 & H2 & H3 & H4);
        rewrite ?H1, ?H2, ?H3, ?H4; cbn [negb]
      | ]
  end.

(** Reads fields of a connection just built. *)
Ltac conn_simpl :=
  cbn [connection.state connection.Context connection.Auth
       connection.PacketQueue connection.ReportFlowPolicy
       connection.PacketFlowPolicy connection.ServiceConnection
       connection.withState connection.withAuth connection.withPacketQueue
       connection.withPolicies connection.NewUDPConnection
       connection.UDPFlowState_eqb negb].

Ltac sym := repeat first [progress state_simpl | progress conn_simpl].

(** Uses the verdicts of hooks that let everything through. *)
Ltac hooks_rw :=
  repeat match goal with
  | H : forall p c m, nfqdatapath.PreProcessUDPAppPacket _ p c m = true |- _ =>
      rewrite H
  | H : forall p c, nfqdatapath.PostProcessUDPAppPacket _ p c = true |- _ =>
      rewrite H
  | H : forall p c, nfqdatapath.PreProcessUDPNetPacket _ p c = true |- _ =>
      rewrite H
  | H : forall p action claims c,
          nfqdatapath.PostProcessUDPNetPacket _ p action claims c = true |- _ =>
      rewrite H
  end;
  cbn [negb].

Ltac symh := repeat first [progress sym | progress hooks_rw].

(** Unfolds the functions of the datapath down to the primitive steps. *)
Ltac unfold_datapath :=
  unfold nfqdatapath.ProcessNetworkUDPPacket,
    nfqdatapath.ProcessApplicationUDPPacket, nfqdatapath.processDNSTraffic,
    nfqdatapath.processNetUDPPacket, nfqdatapath.netSynUDPRetrieveState,
    nfqdatapath.netSynAckUDPRetrieveState, nfqdatapath.netUDPAckRetrieveState,
    nfqdatapath.appUDPRetrieveState,
    nfqdatapath.processNetworkUDPSynPacket,
    nfqdatapath.processNetworkUDPSynAckPacket,
    nfqdatapath.processNetworkUDPAckPacket,
    nfqdatapath.processApplicationUDPSynPacket,
    nfqdatapath.sendUDPSynAckPacket, nfqdatapath.sendUDPAckPacket,
    nfqdatapath.QueuePackets, nfqdatapath.reportUDPRejectedFlow,
    nfqdatapath.reportUDPAcceptedFlow, nfqdatapath.writeSocket,
    nfqdatapath.conntrackTableUpdateMark, nfqdatapath.searchRcvRules,
    nfqdatapath.searchTxtRules, nfqdatapath.SetState, nfqdatapath.GetState,
    nfqdatapath.DropPackets.

(** Unfolds the monadic plumbing of the controller. *)
Ltac crun :=
  unfold mbind, controller.M_bind, controller.bind, mret, controller.M_ret,
    controller.ret, controller.history, controller.modify, controller.panic,
    controller.call in *;
  cbv beta iota in *.

(** One step of the controller: reads the state just built. *)
Ltac cstep :=
  cbv beta iota;
  cbn [controller.trace controller.record controller.locks
       controller.set_locks controller.final_state];
  rewrite <- ?app_assoc; cbn [app].

(** Splits on every case distinction of the goal. *)
Ltac cases :=
  repeat match goal with
  | |- context [match ?x with _ => _ end] =>
      lazymatch x with
      | context [match _ with _ => _ end] => fail
      | _ => destruct x eqn:?
      end
  end.

(** * Properties *)

(** ** Sanity checks of the embedded library functions *)

Example Itoa_0 : Go.Itoa 0 = "0".
Proof. reflexivity. Qed.

Example Itoa_443 : Go.Itoa 443 = "443".
Proof. reflexivity. Qed.

Example Itoa_65535 : Go.Itoa 65535 = "65535".
Proof. reflexivity. Qed.

Example Atoi_port : Go.Atoi "8080" = Some 8080.
Proof. reflexivity. Qed.

Example Atoi_bad : Go.Atoi "80a" = None /\ Go.Atoi "" = None.
Proof. split; reflexivity. Qed.

Example Split_hostport : Go.Split "10.1.2.3:443" ":" = ["10.1.2.3"; "443"].
Proof. reflexivity. Qed.

Example Split_none : Go.Split "443" "," = ["443"].
Proof. reflexivity. Qed.


Example AppendKeyValue_port :
  policy.AppendKeyValue ["app=web"] "@port" (Go.Itoa 53) = ["app=web"; "@port=53"].
Proof. reflexivity. Qed.

Example SplitTag_kv : policy.SplitTag "domain=com.example.web" = Some ("domain", "com.example.web").
Proof. reflexivity. Qed.

Example SplitTag_id : policy.SplitTag "1" = None.
Proof. reflexivity. Qed.


Example parseCIDR_net : acls.parseCIDR "10.0.0.0/8" = Some (8, 167772160).
Proof. reflexivity. Qed.

Example parseCIDR_host : acls.parseCIDR "10.1.2.3" = Some (32, 167838211).
Proof. reflexivity. Qed.

Example parsePorts_range : acls.parsePorts "80:90" = Some (80, 90).
Proof. reflexivity. Qed.

Example parsePorts_bad : acls.parsePorts "" = None.
Proof. reflexivity. Qed.

(** Tiers are kept with the longest mask first. *)
Example reverseSort_masks :
  map acls.mask
    (acls.reverseSort
       [ {| acls.mask := acls.mask_of_len 8; acls.rules := ∅ |};
         {| acls.mask := acls.mask_of_len 24; acls.rules := ∅ |};
         {| acls.mask := acls.mask_of_len 16; acls.rules := ∅ |} ])
  = [acls.mask_of_len 24; acls.mask_of_len 16; acls.mask_of_len 8].
Proof. reflexivity. Qed.

Example CreateUDPAuthMarker_syn :
  nfqdatapath.CreateUDPAuthMarker packet.UDPSynMask
  = (64 :: 0 :: packet.bytes_of_string packet.UDPAuthMarker)%list /\
  length (nfqdatapath.CreateUDPAuthMarker packet.UDPSynMask) = 20%nat.
Proof. split; reflexivity. Qed.

(** ** The ACL cache *)

Section ACLLookup.
Import policy acls.

Lemma portActionList_lookup_no_entry (l : portActionList) port r :
  (forall pa, In pa l -> port_in pa port = false) ->
  portActionList_lookup l port r = (r, None, Go.errors_New "No match").
Proof.
  induction l as [|pa l IH]; intros Hno; simpl; [reflexivity|].
  rewrite (Hno pa) by (left; reflexivity).
  apply IH. intros pa' Hin. apply Hno. right; exact Hin.
Qed.

Lemma getMatchingAction_no_entry (a : acl) ip port r :
  (forall pa, ~ entry_matches a ip port pa) ->
  getMatchingAction a ip port r = (r, None, Go.errors_New "No match").
Proof.
  induction a as [|pr a IH]; intros Hno; cbn [getMatchingAction]; [reflexivity|].
  assert (Hrest : forall pa, ~ entry_matches a ip port pa).
  { intros pa (pr' & l & Hin & Hl & Hpa & Hp). apply (Hno pa).
    exists pr', l. repeat split; auto. right; exact Hin. }
  destruct (rules pr !! Z.land ip (mask pr)) as [l|] eqn:Hl; [|apply IH, Hrest].
  rewrite portActionList_lookup_no_entry; [apply IH, Hrest|].
  intros pa Hin. destruct (port_in pa port) eqn:Hp; [|reflexivity].
  exfalso. apply (Hno pa). exists pr, l. repeat split; auto. left; reflexivity.
Qed.

(** A successful lookup in a port list hands out the policy of an entry of
    that list whose range holds the port and which is not Observe-Continue. *)
Lemma portActionList_lookup_sound (l : portActionList) port r report packet :
  portActionList_lookup l port r = (report, packet, None) ->
  exists pa, packet = Some (pa_policy pa) /\ In pa l /\ port_in pa port = true /\
             IsObserveContinue (ObserveAction (pa_policy pa)) = false.
Proof.
  revert r. induction l as [|pa l IH]; intros r H; simpl in H; [discriminate|].
  destruct (port_in pa port) eqn:Hp.
  - destruct (ObserveAction (pa_policy pa)) eqn:Ho.
    + inversion H; subst. exists pa. rewrite Ho. repeat split; auto. left; reflexivity.
    + apply IH in H. destruct H as (pa' & ? & ? & ? & ?).
      exists pa'. repeat split; auto. right; assumption.
    + inversion H; subst. exists pa. rewrite Ho. repeat split; auto. left; reflexivity.
  - apply IH in H. destruct H as (pa' & ? & ? & ? & ?).
    exists pa'. repeat split; auto. right; assumption.
Qed.

(** An entry that is no observe entry and holds the port stops the scan. *)
Lemma portActionList_lookup_complete (l : portActionList) port r pa :
  In pa l -> port_in pa port = true ->
  Observed (ObserveAction (pa_policy pa)) = false ->
  exists report packet, portActionList_lookup l port r = (report, packet, None).
Proof.
  revert r. induction l as [|pa0 l IH]; intros r Hin Hp Hobs; [destruct Hin|].
  simpl. destruct Hin as [->|Hin].
  - rewrite Hp. destruct (ObserveAction (pa_policy pa)); try discriminate.
    eauto.
  - destruct (port_in pa0 port); [|apply IH; auto].
    destruct (ObserveAction (pa_policy pa0)); eauto.
Qed.

Lemma getMatchingAction_sound (a : acl) ip port r report packet :
  getMatchingAction a ip port r = (report, packet, None) ->
  exists pa, packet = Some (pa_policy pa) /\ entry_matches a ip port pa /\
             IsObserveContinue (ObserveAction (pa_policy pa)) = false.
Proof.
  revert r. induction a as [|pr a IH]; intros r H; cbn [getMatchingAction] in H;
    [discriminate|].
  assert (Hrest : forall r', getMatchingAction a ip port r' = (report, packet, None) ->
            exists pa, packet = Some (pa_policy pa) /\
                       entry_matches (pr :: a) ip port pa /\
                       IsObserveContinue (ObserveAction (pa_policy pa)) = false).
  { intros r' H'. apply IH in H'. destruct H' as (pa & ? & (pr' & l' & ? & ? & ? & ?) & ?).
    exists pa. repeat split; auto. exists pr', l'. repeat split; auto. right; assumption. }
  destruct (rules pr !! Z.land ip (mask pr)) as [l|] eqn:Hl; [|eapply Hrest; eauto].
  destruct (portActionList_lookup l port r) as [[rep pk] [e|]] eqn:Hlk.
  - eapply Hrest; eauto.
  - inversion H; subst. apply portActionList_lookup_sound in Hlk.
    destruct Hlk as (pa & ? & ? & ? & ?). exists pa. repeat split; auto.
    exists pr, l. repeat split; auto. left; reflexivity.
Qed.

Lemma getMatchingAction_complete (a : acl) ip port r pa :
  entry_matches a ip port pa ->
  Observed (ObserveAction (pa_policy pa)) = false ->
  exists report packet, getMatchingAction a ip port r = (report, packet, None).
Proof.
  revert r. induction a as [|pr a IH]; intros r (pr' & l' & Hin & Hl' & Hpa & Hp) Hobs.
  { destruct Hin. }
  cbn [getMatchingAction]. destruct Hin as [<-|Hin].
  - destruct (portActionList_lookup_complete l' port r pa Hpa Hp Hobs) as (rep & pk & Hlk).
    exists rep, pk. rewrite Hl', Hlk. reflexivity.
  - assert (Hm : entry_matches a ip port pa) by (exists pr', l'; auto).
    destruct (rules pr !! Z.land ip (mask pr)) as [l|]; [|apply IH; auto].
    destruct (portActionList_lookup l port r) as [[rep pk] [e|]]; [apply IH; auto|eauto].
Qed.

(** The tiers are tried in the order reject, accept, observe, and the first
    tier whose lookup succeeds decides. *)
Lemma GetMatchingAction_reject_tier (c : ACLCache) ip port report packet :
  getMatchingAction (reject c) ip port None = (report, packet, None) ->
  GetMatchingAction c ip port = (report, packet, None).
Proof. intros H. unfold GetMatchingAction. rewrite H. reflexivity. Qed.

Lemma GetMatchingAction_accept_tier (c : ACLCache) ip port r1 p1 e1 report packet :
  getMatchingAction (reject c) ip port None = (r1, p1, Some e1) ->
  getMatchingAction (accept c) ip port r1 = (report, packet, None) ->
  GetMatchingAction c ip port = (report, packet, None).
Proof. intros H1 H2. unfold GetMatchingAction. rewrite H1, H2. reflexivity. Qed.

Lemma GetMatchingAction_observe_tier (c : ACLCache) ip port r1 p1 e1 r2 p2 e2 report packet :
  getMatchingAction (reject c) ip port None = (r1, p1, Some e1) ->
  getMatchingAction (accept c) ip port r1 = (r2, p2, Some e2) ->
  getMatchingAction (observe c) ip port r2 = (report, packet, None) ->
  GetMatchingAction c ip port = (report, packet, None).
Proof. intros H1 H2 H3. unfold GetMatchingAction. rewrite H1, H2, H3. reflexivity. Qed.

End ACLLookup.

(** C1, as stated, fails: a reject-tier entry matches 10.1.2.3:80, yet the
    packet policy returned is the accept-tier entry's. The reject entry is
    observed with Continue, so it only becomes the report policy and the
    evaluation goes on to the accept tier. *)
Lemma GetMatchingAction_observed_reject_overridden :
  let ip := 10 * 2 ^ 24 + 1 * 2 ^ 16 + 2 * 2 ^ 8 + 3 in
  let pa := {| acls.min_port := 80; acls.max_port := 80;
               acls.pa_policy := policy.Policy observedRejectRule |} in
  acls.entry_matches (acls.reject observedRejectCache) ip 80 pa /\
  acls.GetMatchingAction observedRejectCache ip 80 =
    (Some (policy.Policy observedRejectRule),
     Some (policy.Policy plainAcceptRule), None) /\
  policy.Policy plainAcceptRule <> acls.pa_policy pa.
Proof.
  cbv zeta. split; [|split].
  - eexists _, _. split; [left; reflexivity|].
    split; [vm_compute; reflexivity|]. split; [left; reflexivity|reflexivity].
  - vm_compute. reflexivity.
  - discriminate.
Qed.

(** C1 (amended): when a reject-tier entry that is not an observe entry
    matches (ip, port), GetMatchingAction returns without error the policy of
    a reject-tier entry matching (ip, port) as the packet policy, and this is
    so whatever the accept and observe tiers hold. *)
Theorem GetMatchingAction_reject_entry_wins
    (c : acls.ACLCache) (ip port : Z) (pa : acls.portAction) :
  acls.entry_matches (acls.reject c) ip port pa ->
  policy.Observed (policy.ObserveAction (acls.pa_policy pa)) = false ->
  exists report pa',
    acls.entry_matches (acls.reject c) ip port pa' /\
    policy.IsObserveContinue (policy.ObserveAction (acls.pa_policy pa')) = false /\
    acls.GetMatchingAction c ip port = (report, Some (acls.pa_policy pa'), None) /\
    forall acc obs,
      acls.GetMatchingAction
        {| acls.reject := acls.reject c; acls.accept := acc; acls.observe := obs |}
        ip port = (report, Some (acls.pa_policy pa'), None).
Proof.
  intros Hm Hobs.
  destruct (getMatchingAction_complete _ ip port None pa Hm Hobs) as (report & packet & Hlk).
  destruct (getMatchingAction_sound _ _ _ _ _ _ Hlk) as (pa' & -> & Hm' & Hc).
  exists report, pa'. repeat split; auto.
  - apply GetMatchingAction_reject_tier; exact Hlk.
  - intros acc obs. apply GetMatchingAction_reject_tier; exact Hlk.
Qed.

Lemma GetMatchingAction_reject_entry_wins_witness :
  exists report pa',
    acls.entry_matches (acls.reject plainRejectCache) 167838211 80 pa' /\
    policy.IsObserveContinue (policy.ObserveAction (acls.pa_policy pa')) = false /\
    acls.GetMatchingAction plainRejectCache 167838211 80 =
      (report, Some (acls.pa_policy pa'), None) /\
    forall acc obs,
      acls.GetMatchingAction
        {| acls.reject := acls.reject plainRejectCache;
           acls.accept := acc; acls.observe := obs |}
        167838211 80 = (report, Some (acls.pa_policy pa'), None).
Proof.
  apply (GetMatchingAction_reject_entry_wins plainRejectCache 167838211 80
           {| acls.min_port := 80; acls.max_port := 80;
              acls.pa_policy := policy.Policy plainRejectRule |}).
  - eexists _, _. split; [left; reflexivity|].
    split; [vm_compute; reflexivity|]. split; [left; reflexivity|reflexivity].
  - reflexivity.
Defined.

(** The prefix length does not matter: the reject rule is a /8, the accept
    rule a /32 for the very address, and the reject rule decides. *)
Lemma GetMatchingAction_reject_beats_longer_accept :
  acls.GetMatchingAction plainRejectCache 167838211 80
  = (Some (policy.Policy plainRejectRule), Some (policy.Policy plainRejectRule), None) /\
  map acls.mask (acls.accept plainRejectCache) = [acls.mask_of_len 32] /\
  map acls.mask (acls.reject plainRejectCache) = [acls.mask_of_len 8].
Proof. repeat split; vm_compute; reflexivity. Qed.

(** C8: when no entry of any of the three tiers matches (ip, port),
    GetMatchingAction returns an error together with the catch-all policy
    (Reject, "default", "default") as report policy and as packet policy. *)
Theorem GetMatchingAction_no_entry_catch_all (c : acls.ACLCache) (ip port : Z) :
  (forall pa, ~ acls.entry_matches (acls.reject c) ip port pa) ->
  (forall pa, ~ acls.entry_matches (acls.accept c) ip port pa) ->
  (forall pa, ~ acls.entry_matches (acls.observe c) ip port pa) ->
  exists msg,
    acls.GetMatchingAction c ip port =
      (Some acls.catchAllPolicy, Some acls.catchAllPolicy, Some msg) /\
    acls.catchAllPolicy =
      {| policy.Action := policy.Reject; policy.ObserveAction := policy.ObserveNone;
         policy.PolicyID := "default"; policy.ServiceID := "default" |}.
Proof.
  intros Hr Ha Ho. exists "no match". split; [|reflexivity].
  unfold acls.GetMatchingAction.
  rewrite (getMatchingAction_no_entry _ ip port None Hr). cbn.
  rewrite (getMatchingAction_no_entry _ ip port None Ha). cbn.
  rewrite (getMatchingAction_no_entry _ ip port None Ho). reflexivity.
Qed.

Lemma GetMatchingAction_no_entry_catch_all_witness :
  exists msg,
    acls.GetMatchingAction plainRejectCache (192 * 2 ^ 24 + 168 * 2 ^ 16 + 1) 80 =
      (Some acls.catchAllPolicy, Some acls.catchAllPolicy, Some msg) /\
    acls.catchAllPolicy =
      {| policy.Action := policy.Reject; policy.ObserveAction := policy.ObserveNone;
         policy.PolicyID := "default"; policy.ServiceID := "default" |}.
Proof.
  apply (GetMatchingAction_no_entry_catch_all plainRejectCache
           (192 * 2 ^ 24 + 168 * 2 ^ 16 + 1) 80).
  - intros pa (pr & l & Hin & Hl & _).
    destruct Hin as [<-|[]]. vm_compute in Hl. discriminate.
  - intros pa (pr & l & Hin & Hl & _).
    destruct Hin as [<-|[]]. vm_compute in Hl. discriminate.
  - intros pa (pr & l & Hin & _). destruct Hin.
Defined.

(** ** The policy database against its test suite *)

(** Every assertion of TestFuncAddPolicy holds of the modelled database. *)
Lemma TestFuncAddPolicy_passes : forallb id lookup_test.TestFuncAddPolicy = true.
Proof. vm_compute. reflexivity. Qed.

(** Every assertion of TestFuncSearch holds of the modelled database. *)
Lemma TestFuncSearch_passes : forallb id lookup_test.TestFuncSearch = true.
Proof. vm_compute. reflexivity. Qed.

Lemma TestFuncSearch_indexes :
  lookup_test.index7 = 7 /\ lookup_test.index8 = 8.
Proof. split; vm_compute; reflexivity. Qed.

(** Each of the two selectors on "domain" matches the claims
    (domain=com.example.web): in a database that holds nothing else it is
    found. *)
Lemma Search_domain_selectors_alone :
  lookup.Search (fst (lookup.AddPolicy lookup.NewPolicyDB lookup_test.policyDomainParent))
                lookup_test.tagsMatchingCompleteValue
  = (1, Some lookup_test.acceptPolicy) /\
  lookup.Search (fst (lookup.AddPolicy lookup.NewPolicyDB lookup_test.policyDomainFull))
                lookup_test.tagsMatchingCompleteValue
  = (1, Some lookup_test.acceptPolicy).
Proof. split; vm_compute; reflexivity. Qed.

(** Two scenarios of the spec: (app=web and env=demo, then dc exists) finds
    the first selector for the claims (app=web, env=demo, dc=east); a single
    selector (lang is not java) finds nothing for (lang=java, env=demo,
    app=db). *)
Lemma Search_spec_scenarios :
  lookup.Search
    (fst (lookup_test.addAll [lookup_test.appEqWebAndenvEqDemo; lookup_test.dcTagExists]))
    (lookup_test.tagsOf [("app", "web"); ("env", "demo"); ("dc", "east")])
  = (1, Some lookup_test.acceptPolicy) /\
  lookup.Search
    (fst (lookup_test.addAll [lookup_test.policylangNotJava]))
    (lookup_test.tagsOf [("lang", "java"); ("env", "demo"); ("app", "db")])
  = (-1, None).
Proof. split; vm_compute; reflexivity. Qed.



(** The mechanism behind it, for any database: a single claim k=v whose
    exact value leads to a selector with one clause finds that selector,
    whatever prefixes of the key the database holds and whichever selectors
    they belong to. *)
Lemma Search_exact_value_first (m : lookup.PolicyDB) (k v : string)
    (values : gmap string (list Z)) (i : Z) (rest : list Z)
    (p : lookup.ForwardingPolicy) :
  policy.SplitTag (k +:+ "=" +:+ v) = Some (k, v) ->
  lookup.equalIDMapTable m !! (k +:+ "=" +:+ v) = None ->
  lookup.notStarTable m !! k = None ->
  lookup.equalMapTable m !! k = Some values ->
  values !! v = Some (i :: rest) ->
  lookup.policies m !! i = Some p ->
  lookup.count p = 1 ->
  lookup.Search m (policy.AppendKeyValue policy.NewTagStore k v)
  = (lookup.index p, Some (lookup.actions p)).
Proof.
  intros Hsplit Hid Hstar Hkey Hval Hpol Hcount.
  unfold lookup.Search, lookup.disabled, policy.AppendKeyValue, policy.NewTagStore.
  cbn [app flat_map lookup.searchTags]. rewrite Hsplit, Hstar.
  cbv [default from_option id]. cbn [app].
  unfold lookup.searchTag. rewrite Hid.
  cbv [default from_option id]. cbn [lookup.searchInMapTable].
  rewrite Hsplit, Hkey. cbv [default from_option id]. rewrite Hval.
  cbn [lookup.searchInMapTable lookup.member existsb orb lookup.hits lookup.seen].
  rewrite lookup_empty. cbv [default from_option id]. rewrite Hpol, Hcount.
  reflexivity.
Qed.

(** ** The UDP datapath *)

Section MonadLaws.
Import nfqdatapath.

Lemma getConn_Some a c s :
  conns s !! a = Some c -> getConn (Some a) s = Returned c s.
Proof. intros H. unfold getConn. rewrite H. reflexivity. Qed.



End MonadLaws.


(** *** DNS responses *)

Section DNS.
Import packet connection pucontext nfqdatapath.
Variable L : Library.
Variable d : Datapath.

Lemma addPorts_addRules t ports a :
  addPorts L t ports a = expected.addRules a (map (dnsRule L t) ports).
Proof.
  revert a. induction ports as [|port ports IH]; intros a; [reflexivity|].
  cbn. apply IH.
Qed.

Lemma addRules_app a rs1 rs2 :
  expected.addRules a (rs1 ++ rs2) =
  expected.addRules (expected.addRules a rs1) rs2.
Proof. unfold expected.addRules. apply fold_left_app. Qed.

Lemma addAnswers_addRules dnsACLs answers a :
  fold_left (addAnswer L dnsACLs) answers a =
  expected.addRules a (expected.DNSRules L dnsACLs answers).
Proof.
  revert a. induction answers as [|t answers IH]; intros a; [reflexivity|].
  cbn [fold_left expected.DNSRules flat_map]. rewrite addRules_app, IH.
  f_equal. unfold addAnswer.
  destruct (DataLength t =? 4); [|reflexivity].
  destruct (dnsACLs !! Name t); [|reflexivity].
  apply addPorts_addRules.
Qed.

End DNS.

(** The rules expected of a DNS response are exactly those of the claim: one
    for each answer of data length 4 with an ACL for its name, and each port
    of that ACL. *)
Lemma DNSRules_spec (L : nfqdatapath.Library) dnsACLs answers r :
  In r (expected.DNSRules L dnsACLs answers) <->
  exists t val port,
    In t answers /\ nfqdatapath.DataLength t = 4 /\
    dnsACLs !! nfqdatapath.Name t = Some val /\
    In port (Go.Split val ",") /\
    r = {| policy.Address := nfqdatapath.IPString L (nfqdatapath.IP t);
           policy.Port := port;
           policy.Protocol := "TCP";
           policy.Policy :=
             {| policy.Action := policy.Accept;
                policy.ObserveAction := policy.ObserveNone;
                policy.PolicyID := "default";
                policy.ServiceID := "default" |} |}.
Proof.
  unfold expected.DNSRules. rewrite in_flat_map. split.
  - intros (t & Hin & Hr).
    destruct (nfqdatapath.DataLength t =? 4) eqn:Hlen; [|destruct Hr].
    destruct (dnsACLs !! nfqdatapath.Name t) as [val|] eqn:Hval; [|destruct Hr].
    apply in_map_iff in Hr. destruct Hr as (port & <- & Hport).
    exists t, val, port. repeat split; auto. lia.
  - intros (t & val & port & Hin & Hlen & Hval & Hport & ->).
    exists t. split; [exact Hin|].
    rewrite Hlen, Hval. cbn. apply in_map_iff. exists port. auto.
Qed.

(** C9: on a DNS response (a network packet from port 53) whose destination
    port has a cached PU context, the context's ApplicationACLs receive, by
    one call of AddRule each and in order, exactly the rules
    (address = answer IP, port, "TCP", Accept, no observe action,
    "default", "default") for every answer of data length 4 whose name is a
    key of the context's DNSACLs and every port of the comma-separated value;
    the packet is let through and nothing else changes. *)
Theorem ProcessNetworkUDPPacket_dns_response_adds_rules
    (L : nfqdatapath.Library) (d : nfqdatapath.Datapath)
    (p : packet.Packet) (s : nfqdatapath.State) (a : nat)
    (context : pucontext.PUContext) :
  packet.SourcePort p = 53 ->
  nfqdatapath.dnsmap s !! packet.DestinationPort p = Some (Some a) ->
  nfqdatapath.contexts s !! a = Some context ->
  exists s',
    nfqdatapath.ProcessNetworkUDPPacket L d p s = nfqdatapath.Returned None s' /\
    nfqdatapath.contexts s' =
      <[ a := pucontext.withApplicationACLs context
                (expected.addRules (pucontext.ApplicationACLs context)
                   (expected.DNSRules L (pucontext.DNSACLs context)
                      (nfqdatapath.DecodeAnswers L (packet.GetUDPData p)))) ]>
        (nfqdatapath.contexts s) /\
    nfqdatapath.conns s' = nfqdatapath.conns s /\
    nfqdatapath.tables s' = nfqdatapath.tables s /\
    nfqdatapath.dnsmap s' = nfqdatapath.dnsmap s /\
    nfqdatapath.events s' = nfqdatapath.events s.
Proof.
  intros Hport Hmap Hctx.
  unfold nfqdatapath.ProcessNetworkUDPPacket, nfqdatapath.processDNSTraffic.
  rewrite Hport. cbn [Z.eqb Pos.eqb]. run. rewrite Hmap.
  cbv [default from_option id]. cbv beta iota.
  unfold nfqdatapath.getContext. rewrite Hctx.
  eexists. split; [reflexivity|]. cbn.
  rewrite addAnswers_addRules. repeat split; reflexivity.
Qed.

Lemma ProcessNetworkUDPPacket_dns_response_adds_rules_witness :
  exists s',
    nfqdatapath.ProcessNetworkUDPPacket scenario.library scenario.datapath
      scenario.dnsResponse scenario.afterDNSRequest = nfqdatapath.Returned None s' /\
    nfqdatapath.contexts s' =
      <[ 0%nat := pucontext.withApplicationACLs scenario.pu
                (expected.addRules (pucontext.ApplicationACLs scenario.pu)
                   (expected.DNSRules scenario.library (pucontext.DNSACLs scenario.pu)
                      (nfqdatapath.DecodeAnswers scenario.library
                         (packet.GetUDPData scenario.dnsResponse)))) ]>
        (nfqdatapath.contexts scenario.afterDNSRequest) /\
    nfqdatapath.conns s' = nfqdatapath.conns scenario.afterDNSRequest /\
    nfqdatapath.tables s' = nfqdatapath.tables scenario.afterDNSRequest /\
    nfqdatapath.dnsmap s' = nfqdatapath.dnsmap scenario.afterDNSRequest /\
    nfqdatapath.events s' = nfqdatapath.events scenario.afterDNSRequest.
Proof.
  apply (ProcessNetworkUDPPacket_dns_response_adds_rules
           scenario.library scenario.datapath scenario.dnsResponse
           scenario.afterDNSRequest 0%nat scenario.pu).
  - reflexivity.
  - vm_compute. reflexivity.
  - vm_compute. reflexivity.
Defined.

(** The spec's DNS scenario: after the response, a lookup of 10.1.2.3:443 in
    the PU's application ACLs is decided by the accept tier. *)
Lemma dns_expansion_scenario :
  expected.DNSRules scenario.library (pucontext.DNSACLs scenario.pu)
    [scenario.apiAnswer]
  = [ nfqdatapath.dnsRule scenario.library scenario.apiAnswer "443";
      nfqdatapath.dnsRule scenario.library scenario.apiAnswer "8443" ] /\
  acls.GetMatchingAction
    (expected.addRules acls.NewACLCache
       (expected.DNSRules scenario.library (pucontext.DNSACLs scenario.pu)
          [scenario.apiAnswer]))
    (10 * 2 ^ 24 + 1 * 2 ^ 16 + 2 * 2 ^ 8 + 3) 443
  = (Some (policy.Policy (nfqdatapath.dnsRule scenario.library scenario.apiAnswer "443")),
     Some (policy.Policy (nfqdatapath.dnsRule scenario.library scenario.apiAnswer "443")),
     None).
Proof. split; vm_compute; reflexivity. Qed.

(** *** Sending the ACK and flushing the queue *)

Section SendAck.
Import packet connection pucontext nfqdatapath.
Variable L : Library.
Variable d : Datapath.


End SendAck.



(** In the scenario the two queued payload packets leave after the mark
    update, first queued first. *)
Lemma sendUDPAckPacket_scenario :
  skipn 1 (nfqdatapath.events
    (nfqdatapath.final_state
       (nfqdatapath.sendUDPAckPacket scenario.library scenario.datapath
          scenario.synAck (Some 0%nat) (Some 0%nat) scenario.afterAppData)))
  = [ nfqdatapath.EvWriteSocket
        (scenario.header scenario.client 5000 scenario.server 9000 ++
         nfqdatapath.CreateUDPAuthMarker packet.UDPAckMask ++ [3; 3]);
      nfqdatapath.EvConntrackTableUpdateMark "10.0.0.2" "10.0.0.1" 17 9000 5000 61167;
      nfqdatapath.EvWriteSocket (packet.Buffer scenario.appData1);
      nfqdatapath.EvWriteSocket (packet.Buffer scenario.appData2) ]%list.
Proof. vm_compute. reflexivity. Qed.

(** *** Network packets: the handshake is never delivered *)

Section Network.
Import packet connection pucontext nfqdatapath.
Variable L : Library.
Variable d : Datapath.

(** [processNetUDPPacket] is prepared for a nil connection: it returns nil. *)
Lemma processNetUDPPacket_nil_conn udpPacket context s :
  processNetUDPPacket L d udpPacket context None s = Returned None s.
Proof. reflexivity. Qed.

(** A SYNACK packet with no connection under its source-port hash: the
    lookup returns (nil, nil), and reading [conn.Context] for the call of
    [processNetUDPPacket] (or of the service's pre-processing hook) panics. *)
Lemma ProcessNetworkUDPPacket_synack_miss_panics p s :
  SourcePort p <> 53 ->
  GetUDPType p = UDPSynAckMask ->
  udpSourcePortConnectionCache s !! SourcePortHash L p PacketTypeNetwork = None ->
  ProcessNetworkUDPPacket L d p s = Panicked s.
Proof.
  intros Hport Htype Hmiss. unfold ProcessNetworkUDPPacket.
  apply Z.eqb_neq in Hport. rewrite Hport, Htype. cbn [Z.eqb Pos.eqb UDPSynAckMask UDPSynMask].
  unfold netSynAckUDPRetrieveState. run. rewrite Hmiss. cbv beta iota.
  destruct (service d); reflexivity.
Qed.

End Network.

(** C4 (the code at the failing input): a SYNACK for which no SYN was sent
    makes ProcessNetworkUDPPacket panic; the state is the one it started in. *)
Lemma ProcessNetworkUDPPacket_stray_synack_panics :
  packet.GetUDPType scenario.straySynAck = packet.UDPSynAckMask /\
  nfqdatapath.udpSourcePortConnectionCache scenario.afterAppData
    !! nfqdatapath.SourcePortHash scenario.library scenario.straySynAck
         packet.PacketTypeNetwork = None /\
  nfqdatapath.ProcessNetworkUDPPacket scenario.library scenario.datapath
    scenario.straySynAck scenario.afterAppData
  = nfqdatapath.Panicked scenario.afterAppData.
Proof. repeat split; vm_compute; reflexivity. Qed.

(** C6: a network UDP packet that is a control packet (SYN, SYNACK or ACK)
    and does not come from port 53 is never let through: whenever
    ProcessNetworkUDPPacket returns, it returns an error, also when the
    handshake step has succeeded. *)
Theorem ProcessNetworkUDPPacket_control_never_delivered
    (L : nfqdatapath.Library) (d : nfqdatapath.Datapath)
    (p : packet.Packet) (s : nfqdatapath.State)
    (err : Go.error) (s' : nfqdatapath.State) :
  packet.SourcePort p <> 53 ->
  expected.isControl (packet.GetUDPType p) = true ->
  nfqdatapath.ProcessNetworkUDPPacket L d p s = nfqdatapath.Returned err s' ->
  err <> None.
Proof.
  intros Hport Hctl H. unfold nfqdatapath.ProcessNetworkUDPPacket in H.
  apply Z.eqb_neq in Hport. rewrite Hport in H.
  unfold expected.isControl in Hctl.
  unfold nfqdatapath.netSynUDPRetrieveState, nfqdatapath.netSynAckUDPRetrieveState,
    nfqdatapath.netUDPAckRetrieveState, nfqdatapath.newConn, nfqdatapath.SetState,
    nfqdatapath.DropPackets in H.
  run.
  destruct (packet.GetUDPType p =? packet.UDPSynMask) eqn:Hsyn;
    [|destruct (packet.GetUDPType p =? packet.UDPSynAckMask) eqn:Hsynack;
      [|destruct (packet.GetUDPType p =? packet.UDPAckMask) eqn:Hack;
        [|discriminate Hctl]]];
    repeat split_match_in H; inversion H; subst; discriminate.
Qed.

(** The witness is the ACK that completes the handshake on the server: the
    step succeeds (the flow is reported as accepted and the connection
    reaches AckProcessed), and the packet is dropped all the same. *)
Lemma ProcessNetworkUDPPacket_control_never_delivered_witness :
  exists err s',
    nfqdatapath.ProcessNetworkUDPPacket scenario.library scenario.datapath
      scenario.ack scenario.afterSyn = nfqdatapath.Returned err s' /\
    (connection.state <$> nfqdatapath.conns s' !! 0%nat)
      = Some connection.UDPAckProcessed /\
    err <> None.
Proof.
  eexists _, _. split; [vm_compute; reflexivity|]. split; [vm_compute; reflexivity|].
  eapply (ProcessNetworkUDPPacket_control_never_delivered
            scenario.library scenario.datapath scenario.ack scenario.afterSyn).
  - vm_compute. discriminate.
  - vm_compute. reflexivity.
  - vm_compute. reflexivity.
Defined.

(** *** Handshake packets whose token is refused; the port claim *)

(** C5, as stated, fails for SYNACK and for ACK: the token of the SYNACK (of
    the ACK) is refused, one rejected-flow report is emitted, and its reason
    is MissingToken (PolicyDrop), not InvalidToken. *)
Lemma refused_synack_reports_MissingToken :
  expected.tokenRefused scenario.datapath expected.SynAck
    (connection.Auth scenario.queuedConn) scenario.badSynAck = true /\
  (exists p conn src dst report pkt,
     skipn (length (nfqdatapath.events scenario.afterAppData))
       (nfqdatapath.events
          (nfqdatapath.final_state
             (expected.process scenario.library scenario.datapath expected.SynAck
                scenario.badSynAck (Some 0%nat) (Some 0%nat) scenario.afterAppData)))
     = [nfqdatapath.EvRejectedFlow p conn src dst collector.MissingToken report pkt]) /\
  (exists p conn src dst report pkt,
     skipn (length (nfqdatapath.events scenario.afterSyn))
       (nfqdatapath.events
          (nfqdatapath.final_state
             (expected.process scenario.library scenario.datapath expected.Ack
                scenario.badAck (Some 0%nat) (Some 0%nat) scenario.afterSyn)))
     = [nfqdatapath.EvRejectedFlow p conn src dst collector.PolicyDrop report pkt]) /\
  collector.MissingToken <> collector.InvalidToken /\
  collector.PolicyDrop <> collector.InvalidToken.
Proof.
  split; [vm_compute; reflexivity|].
  split; [do 6 eexists; vm_compute; reflexivity|].
  split; [do 6 eexists; vm_compute; reflexivity|].
  split; discriminate.
Qed.

(** C5 (amended): for every handshake packet (SYN, SYNACK or ACK) whose token
    is refused (the parser returns an error or, for SYN and SYNACK, nil
    claims) the processing function returns an error and emits exactly one
    rejected-flow report and nothing else; the reason of the report is
    InvalidToken for a SYN, MissingToken for a SYNACK and PolicyDrop for an
    ACK. *)
Theorem refused_token_one_report
    (L : nfqdatapath.Library) (d : nfqdatapath.Datapath)
    (k : expected.Handshake) (udpPacket : packet.Packet)
    (a ca : nat) (c : connection.UDPConnection) (ctx : pucontext.PUContext)
    (s : nfqdatapath.State) :
  nfqdatapath.conns s !! a = Some c ->
  nfqdatapath.contexts s !! ca = Some ctx ->
  expected.tokenRefused d k (connection.Auth c) udpPacket = true ->
  exists msg s' ev,
    expected.process L d k udpPacket (Some ca) (Some a) s
      = nfqdatapath.Returned (None, None, Some msg) s' /\
    nfqdatapath.events s' = (nfqdatapath.events s ++ [ev])%list /\
    expected.isRejectedFlow ev = true /\
    expected.rejectedWith (expected.reasonReported k) ev.
Proof.
  intros Hc Hctx Href.
  destruct k; cbn [expected.process expected.tokenRefused expected.reasonReported] in *.
  - unfold nfqdatapath.processNetworkUDPSynPacket. run.
    rewrite (getConn_Some _ _ _ Hc).
    destruct (nfqdatapath.ParsePacketToken _ _ _) as [[claims err] auth].
    unfold nfqdatapath.setConn, nfqdatapath.getContext,
      nfqdatapath.reportUDPRejectedFlow. run.
    destruct err as [e|]; [|destruct claims; [discriminate|]];
      state_simpl; rewrite Hctx;
      do 3 eexists; (split; [reflexivity|]); cbn;
      (split; [reflexivity|split; reflexivity]).
  - unfold nfqdatapath.processNetworkUDPSynAckPacket. run.
    rewrite (getConn_Some _ _ _ Hc).
    destruct (nfqdatapath.ParsePacketToken _ _ _) as [[claims err] auth].
    unfold nfqdatapath.setConn, nfqdatapath.getContext,
      nfqdatapath.reportUDPRejectedFlow. run.
    destruct err as [e|]; [|destruct claims; [discriminate|]];
      state_simpl; rewrite Hctx;
      do 3 eexists; (split; [reflexivity|]); cbn;
      (split; [reflexivity|split; reflexivity]).
  - unfold nfqdatapath.processNetworkUDPAckPacket. run.
    rewrite (getConn_Some _ _ _ Hc).
    destruct (nfqdatapath.ParseAckToken _ _ _) as [[claims err] auth].
    unfold nfqdatapath.setConn, nfqdatapath.getConn, nfqdatapath.getContext,
      nfqdatapath.reportUDPRejectedFlow. run.
    destruct err as [e|]; [|discriminate].
    do 2 state_simpl. rewrite Hctx.
    do 3 eexists; (split; [reflexivity|]); cbn;
      (split; [reflexivity|split; reflexivity]).
Qed.

Lemma refused_token_one_report_witness :
  exists msg s' ev,
    expected.process scenario.library scenario.datapath expected.Syn
      scenario.badSyn (Some 0%nat) (Some 0%nat) scenario.synReceived
      = nfqdatapath.Returned (None, None, Some msg) s' /\
    nfqdatapath.events s' = (nfqdatapath.events scenario.synReceived ++ [ev])%list /\
    expected.isRejectedFlow ev = true /\
    expected.rejectedWith (expected.reasonReported expected.Syn) ev.
Proof.
  apply (refused_token_one_report scenario.library scenario.datapath expected.Syn
           scenario.badSyn 0%nat 0%nat
           (connection.withState (connection.NewUDPConnection (Some 0%nat))
              connection.UDPSynReceived)
           scenario.pu scenario.synReceived).
  - vm_compute. reflexivity.
  - vm_compute. reflexivity.
  - vm_compute. reflexivity.
Defined.

(** C7: when the token of a network SYN parses to claims, the receive rules
    are searched exactly once, and the tag store handed to SearchRcvRules is
    the parsed one with the claim "@port" = decimal destination port appended
    at its end. *)
Theorem processNetworkUDPSynPacket_port_claim
    (L : nfqdatapath.Library) (d : nfqdatapath.Datapath)
    (udpPacket : packet.Packet) (a ca : nat)
    (c : connection.UDPConnection) (ctx : pucontext.PUContext)
    (claims : tokens.ConnectionClaims) (auth : connection.AuthInfo)
    (s : nfqdatapath.State) :
  nfqdatapath.conns s !! a = Some c ->
  nfqdatapath.contexts s !! ca = Some ctx ->
  nfqdatapath.ParsePacketToken (nfqdatapath.tokenAccessor d) (connection.Auth c)
    (packet.ReadUDPToken udpPacket) = (Some claims, None, auth) ->
  exists rest,
    nfqdatapath.events
      (nfqdatapath.final_state
         (nfqdatapath.processNetworkUDPSynPacket L d (Some ca) (Some a) udpPacket s))
    = (nfqdatapath.events s ++
       nfqdatapath.EvSearchRcvRules ctx
         (tokens.T claims ++
          ["@port=" +:+ Go.Itoa (packet.DestinationPort udpPacket)]) :: rest)%list /\
    Forall (fun e => match e with
                     | nfqdatapath.EvSearchRcvRules _ _ => False
                     | _ => True
                     end) rest.
Proof.
  intros Hc Hctx Hparse.
  unfold nfqdatapath.processNetworkUDPSynPacket. run.
  rewrite (getConn_Some _ _ _ Hc), Hparse.
  unfold nfqdatapath.setConn, nfqdatapath.getContext, nfqdatapath.searchRcvRules,
    nfqdatapath.reportUDPRejectedFlow, nfqdatapath.SetState, nfqdatapath.getConn,
    nfqdatapath.setConn.
  run.
  destruct (policy.Get _ _) as [txLabel ok].
  state_simpl. rewrite Hctx. state_simpl.
  destruct (nfqdatapath.SearchRcvRules L ctx _) as [report pkt].
  destruct (policy.Rejected (policy.Action pkt)).
  - eexists. cbn. rewrite <- app_assoc. split; [reflexivity|].
    repeat constructor.
  - repeat state_simpl.
    exists []. cbn. split; [reflexivity|constructor].
Qed.

Lemma processNetworkUDPSynPacket_port_claim_witness :
  exists rest,
    nfqdatapath.events
      (nfqdatapath.final_state
         (nfqdatapath.processNetworkUDPSynPacket scenario.library scenario.datapath
            (Some 0%nat) (Some 0%nat) scenario.syn scenario.synReceived))
    = (nfqdatapath.events scenario.synReceived ++
       nfqdatapath.EvSearchRcvRules scenario.pu
         (tokens.T {| tokens.T := ["app=web"] |} ++
          ["@port=" +:+ Go.Itoa (packet.DestinationPort scenario.syn)]) :: rest)%list /\
    Forall (fun e => match e with
                     | nfqdatapath.EvSearchRcvRules _ _ => False
                     | _ => True
                     end) rest.
Proof.
  apply (processNetworkUDPSynPacket_port_claim scenario.library scenario.datapath
           scenario.syn 0%nat 0%nat
           (connection.withState (connection.NewUDPConnection (Some 0%nat))
              connection.UDPSynReceived)
           scenario.pu {| tokens.T := ["app=web"] |} connection.emptyAuth
           scenario.synReceived).
  - vm_compute. reflexivity.
  - vm_compute. reflexivity.
  - vm_compute. reflexivity.
Defined.

(** In the scenario the search sees (app=web) and (@port=9000). *)
Lemma processNetworkUDPSynPacket_scenario :
  firstn 1 (nfqdatapath.events scenario.afterSyn)
  = [nfqdatapath.EvSearchRcvRules scenario.pu ["app=web"; "@port=9000"]].
Proof. vm_compute. reflexivity. Qed.

(** *** Application packets: let through or queued *)

Section Application.
Import packet connection pucontext nfqdatapath.
Variable L : Library.
Variable d : Datapath.




End Application.



(** In the scenario, the first packet of the flow starts the handshake: it
    is queued, the SYN is written, and the packet itself is dropped. *)
Lemma ProcessApplicationUDPPacket_scenario :
  match nfqdatapath.ProcessApplicationUDPPacket scenario.library scenario.datapath
          scenario.appData1 scenario.emptyState with
  | nfqdatapath.Returned err s' =>
      (err, connection.PacketQueue <$> nfqdatapath.conns s' !! 0%nat,
       connection.state <$> nfqdatapath.conns s' !! 0%nat)
  | nfqdatapath.Panicked _ => (None, None, None)
  end
  = (Some "Packets cloned. Dropping the original packet",
     Some [scenario.appData1], Some connection.UDPSynSend).
Proof. vm_compute. reflexivity. Qed.
(** ** The UDP datapath: handshake, delivery and rejection paths *)

Section DatapathCoverage.
Import packet connection pucontext nfqdatapath.

Lemma isControl_false t :
  expected.isControl t = false ->
  (t =? packet.UDPSynMask) = false /\ (t =? packet.UDPSynAckMask) = false /\
  (t =? packet.UDPAckMask) = false.
Proof.
  unfold expected.isControl. intros H.
  apply orb_false_iff in H as [H H3]. apply orb_false_iff in H as [H1 H2]. auto.
Qed.

Lemma allPass_lossy : hooks.allPass cases.lossy.
Proof.
  intros svc Hsvc. injection Hsvc as <-. repeat split.
Qed.

Lemma allPass_scenario : hooks.allPass scenario.datapath.
Proof. intros svc Hsvc. discriminate Hsvc. Qed.

(** X1: a network packet that is no handshake packet and does not come from
    port 53 is delivered to the application (nil is returned) as soon as its
    flow hash has a connection in the network reply tracker or, failing that,
    in the network origin tracker, whatever the state of that connection is;
    only the post-processing hook of a configured service can refuse it.
    The datapath's state is left as it is. *)
Theorem data_packet_of_known_flow_delivered
    (L : Library) (d : Datapath) (p : Packet) (s : State) (a : nat)
    (c : UDPConnection) :
  SourcePort p <> 53 ->
  expected.isControl (GetUDPType p) = false ->
  (udpNetReplyConnectionTracker s !! L4FlowHash L p = Some a \/
   udpNetReplyConnectionTracker s !! L4FlowHash L p = None /\
   udpNetOrigConnectionTracker s !! L4FlowHash L p = Some a) ->
  conns s !! a = Some c ->
  ProcessNetworkUDPPacket L d p s =
    Returned (if hooks.netPost d p None None c then None
              else Some "post service processing failed for network packet") s.
Proof.
  intros Hport Hctl Hfind Hc.
  apply isControl_false in Hctl as (H1 & H2 & H3).
  apply Z.eqb_neq in Hport.
  unfold ProcessNetworkUDPPacket. rewrite Hport, H1, H2, H3.
  unfold netUDPAckRetrieveState, hooks.netPost. run. cbv zeta.
  assert (Hget : getConn (Some a) s = Returned c s) by (apply getConn_Some, Hc).
  destruct Hfind as [-> | [-> ->]]; cbv beta iota;
    (destruct (service d) as [svc|]; [|reflexivity]);
    rewrite Hget; destruct (PostProcessUDPNetPacket svc p None None c); reflexivity.
Qed.

(** The witness: a payload packet reaches the server while its connection is
    still in state SynAckSent, and is delivered. *)
Lemma data_packet_of_known_flow_delivered_witness :
  ProcessNetworkUDPPacket scenario.library scenario.datapath scenario.appData1
    scenario.afterSyn =
    Returned (if hooks.netPost scenario.datapath scenario.appData1 None None
                   cases.answeredConn
              then None
              else Some "post service processing failed for network packet")
             scenario.afterSyn.
Proof.
  apply (data_packet_of_known_flow_delivered scenario.library scenario.datapath
           scenario.appData1 scenario.afterSyn 0%nat cases.answeredConn).
  - vm_compute. discriminate.
  - vm_compute. reflexivity.
  - right. split; vm_compute; reflexivity.
  - vm_compute. reflexivity.
Defined.

(** X2: a network packet that is neither a SYN nor a SYNACK and does not
    come from port 53, and whose flow hash is in neither network tracker, is
    dropped: an error is returned, nothing is reported or sent, and the
    state is left as it is. *)
Theorem packet_of_unknown_flow_dropped
    (L : Library) (d : Datapath) (p : Packet) (s : State) :
  SourcePort p <> 53 ->
  GetUDPType p <> UDPSynMask ->
  GetUDPType p <> UDPSynAckMask ->
  udpNetReplyConnectionTracker s !! L4FlowHash L p = None ->
  udpNetOrigConnectionTracker s !! L4FlowHash L p = None ->
  exists e, ProcessNetworkUDPPacket L d p s = Returned (Some e) s.
Proof.
  intros Hport H1 H2 Hr Ho.
  apply Z.eqb_neq in Hport, H1, H2.
  unfold ProcessNetworkUDPPacket. rewrite Hport, H1, H2.
  unfold netUDPAckRetrieveState. run.
  destruct (GetUDPType p =? UDPAckMask); cbv beta iota zeta; rewrite Hr, Ho;
    eexists; reflexivity.
Qed.

(** The witness: an ACK of a flow the datapath has never seen. *)
Lemma packet_of_unknown_flow_dropped_witness :
  exists e,
    ProcessNetworkUDPPacket scenario.library scenario.datapath scenario.ack
      scenario.emptyState = Returned (Some e) scenario.emptyState.
Proof.
  apply (packet_of_unknown_flow_dropped scenario.library scenario.datapath
           scenario.ack scenario.emptyState).
  - vm_compute. discriminate.
  - vm_compute. discriminate.
  - vm_compute. discriminate.
  - vm_compute. reflexivity.
  - vm_compute. reflexivity.
Defined.

(** X3: an application packet of a flow that is in neither application
    tracker, from an address for which contextFromIP fails, is refused with
    an error; no connection is created, nothing is queued or sent. *)
Theorem app_packet_without_context_refused
    (L : Library) (d : Datapath) (p : Packet) (s : State)
    (context : option nat) (err : string) :
  DestinationPort p <> 53 ->
  udpAppReplyConnectionTracker s !! L4FlowHash L p = None ->
  udpAppOrigConnectionTracker s !! L4FlowHash L p = None ->
  contextFromIP d true (IPString L (SourceAddress p)) (Mark p) (SourcePort p)
    IPProtocolUDP = (context, Some err) ->
  exists e, ProcessApplicationUDPPacket L d p s = Returned (Some e) s.
Proof.
  intros Hport Hr Ho Hctx. apply Z.eqb_neq in Hport.
  unfold ProcessApplicationUDPPacket, appUDPRetrieveState. rewrite Hport.
  run. cbv zeta. rewrite Hr, Ho, Hctx. eexists. reflexivity.
Qed.

(** The witness: a datapath that knows no PU. *)
Lemma app_packet_without_context_refused_witness :
  exists e,
    ProcessApplicationUDPPacket scenario.library cases.unenforced
      scenario.appData1 scenario.emptyState = Returned (Some e) scenario.emptyState.
Proof.
  apply (app_packet_without_context_refused scenario.library cases.unenforced
           scenario.appData1 scenario.emptyState None "no PU for this address").
  - vm_compute. discriminate.
  - vm_compute. reflexivity.
  - vm_compute. reflexivity.
  - reflexivity.
Defined.

(** X4: an application packet whose connection is in state AckProcessed is
    let through (nil is returned) without being queued: the state of the
    datapath is left as it is, and only the post-processing hook of a
    configured service can refuse the packet. *)
Theorem authorized_app_packet_passes
    (L : Library) (d : Datapath) (p : Packet) (s : State) (a : nat)
    (c : UDPConnection) :
  DestinationPort p <> 53 ->
  (udpAppReplyConnectionTracker s !! L4FlowHash L p = Some a \/
   udpAppReplyConnectionTracker s !! L4FlowHash L p = None /\
   udpAppOrigConnectionTracker s !! L4FlowHash L p = Some a) ->
  conns s !! a = Some c ->
  state c = UDPAckProcessed ->
  ProcessApplicationUDPPacket L d p s =
    Returned (if hooks.appPost d p c then None
              else Some "Encryption failed for application packet") s.
Proof.
  intros Hport Hfind Hc Hst. apply Z.eqb_neq in Hport.
  unfold ProcessApplicationUDPPacket, appUDPRetrieveState, GetState, hooks.appPost.
  rewrite Hport. run. cbv zeta.
  assert (Hget : getConn (Some a) s = Returned c s) by (apply getConn_Some, Hc).
  destruct Hfind as [-> | [-> ->]]; cbv beta iota; rewrite !Hget, Hst;
    cbn [UDPFlowState_eqb negb]; cbv beta iota; rewrite !Hget, Hst;
    cbv beta iota; rewrite Hget;
    (destruct (service d) as [svc|]; [|reflexivity]);
    destruct (PostProcessUDPAppPacket svc p c); reflexivity.
Qed.

(** The witness: the client's next payload packet once the handshake of the
    scenario is over. *)
Lemma authorized_app_packet_passes_witness :
  ProcessApplicationUDPPacket scenario.library scenario.datapath
    scenario.appData2 cases.established =
    Returned (if hooks.appPost scenario.datapath scenario.appData2
                   cases.establishedConn
              then None
              else Some "Encryption failed for application packet")
             cases.established.
Proof.
  apply (authorized_app_packet_passes scenario.library scenario.datapath
           scenario.appData2 cases.established 0%nat cases.establishedConn).
  - vm_compute. discriminate.
  - right. split; vm_compute; reflexivity.
  - vm_compute. reflexivity.
  - vm_compute. reflexivity.
Defined.

(** X5: the first application packet of an unknown flow starts the
    handshake. A new connection is created with a copy of the packet as its
    only queued packet; the SYN (the packet's headers, the SYN marker and the
    token) is written to the socket, once; the connection ends in state
    SynSend and is registered in the application origin tracker under the
    flow hash, and in the source port cache and the NAT tracker under the
    SYN's source port hash. The packet itself is dropped (an error is
    returned), also when the write fails. *)
Theorem first_app_packet_starts_handshake
    (L : Library) (d : Datapath) (p p' : Packet) (s : State)
    (ctxa : nat) (ctx : PUContext) (copy newPacket : Packet)
    (udpData : list Z) (auth : AuthInfo) :
  DestinationPort p <> 53 ->
  udpAppReplyConnectionTracker s !! L4FlowHash L p = None ->
  udpAppOrigConnectionTracker s !! L4FlowHash L p = None ->
  contextFromIP d true (IPString L (SourceAddress p)) (Mark p) (SourcePort p)
    IPProtocolUDP = (Some ctxa, None) ->
  contexts s !! ctxa = Some ctx ->
  New L PacketTypeApplication (Buffer p) (Mark p) = inl copy ->
  CreateSynPacketToken (tokenAccessor d) ctx emptyAuth = (udpData, None, auth) ->
  clonePacketHeaders L p = (p', inl newPacket) ->
  hooks.allPass d ->
  let a := fresh (dom (conns s)) in
  let syn := UDPTokenAttach L newPacket (CreateUDPAuthMarker UDPSynMask) udpData in
  exists e s',
    ProcessApplicationUDPPacket L d p s = Returned (Some e) s' /\
    conns s' =
      <[ a := {| state := UDPSynSend; Context := Some ctxa; Auth := auth;
                 PacketQueue := [copy]; ReportFlowPolicy := None;
                 PacketFlowPolicy := None; ServiceConnection := false |} ]>
        (conns s) /\
    udpAppOrigConnectionTracker s' =
      <[ L4FlowHash L p' := a ]> (udpAppOrigConnectionTracker s) /\
    udpSourcePortConnectionCache s' =
      <[ SourcePortHash L syn PacketTypeApplication := a ]>
        (udpSourcePortConnectionCache s) /\
    udpNatConnectionTracker s' =
      <[ SourcePortHash L syn PacketTypeApplication :=
           SourcePortHash L syn PacketTypeNetwork ]>
        (udpNatConnectionTracker s) /\
    events s' = (events s ++ [EvWriteSocket (Buffer syn)])%list.
Proof.
  intros Hport Hr Ho Hctx Hc Hcopy Htok Hclone Hpass a syn.
  apply Z.eqb_neq in Hport.
  unfold ProcessApplicationUDPPacket, appUDPRetrieveState, GetState,
    QueuePackets, processApplicationUDPSynPacket, newConn, SetState,
    writeSocket.
  rewrite Hport. run. cbv zeta. rewrite Hr, Ho, Hctx. cbv beta iota.
  unfold getConn, setConn, getContext. repeat state_simpl.
  conn_simpl. rewrite Hcopy. repeat state_simpl. conn_simpl.
  repeat state_simpl. cbn [app].
  hooks_pass Hpass; sym; rewrite Hc; sym; rewrite Htok, Hclone; sym;
    hooks_rw; sym; (eexists _, _; split; [reflexivity|]); sym;
    cbv [default from_option id]; rewrite !insert_insert_eq;
    repeat split; reflexivity.
Qed.

(** The witness: the first payload packet of the scenario, on a datapath
    whose socket refuses every write. *)
Lemma first_app_packet_starts_handshake_witness :
  let a := fresh (dom (conns scenario.emptyState)) in
  let syn := UDPTokenAttach scenario.library cases.headers
               (CreateUDPAuthMarker UDPSynMask) [1; 1] in
  exists e s',
    ProcessApplicationUDPPacket scenario.library cases.lossy scenario.appData1
      scenario.emptyState = Returned (Some e) s' /\
    conns s' =
      <[ a := {| state := UDPSynSend; Context := Some 0%nat; Auth := emptyAuth;
                 PacketQueue := [scenario.appData1]; ReportFlowPolicy := None;
                 PacketFlowPolicy := None; ServiceConnection := false |} ]>
        (conns scenario.emptyState) /\
    udpAppOrigConnectionTracker s' =
      <[ L4FlowHash scenario.library scenario.appData1 := a ]>
        (udpAppOrigConnectionTracker scenario.emptyState) /\
    udpSourcePortConnectionCache s' =
      <[ SourcePortHash scenario.library syn PacketTypeApplication := a ]>
        (udpSourcePortConnectionCache scenario.emptyState) /\
    udpNatConnectionTracker s' =
      <[ SourcePortHash scenario.library syn PacketTypeApplication :=
           SourcePortHash scenario.library syn PacketTypeNetwork ]>
        (udpNatConnectionTracker scenario.emptyState) /\
    events s' = (events scenario.emptyState ++ [EvWriteSocket (Buffer syn)])%list.
Proof.
  apply (first_app_packet_starts_handshake scenario.library cases.lossy
           scenario.appData1 scenario.appData1 scenario.emptyState 0%nat
           scenario.pu scenario.appData1 cases.headers [1; 1] emptyAuth).
  - vm_compute. discriminate.
  - vm_compute. reflexivity.
  - vm_compute. reflexivity.
  - reflexivity.
  - vm_compute. reflexivity.
  - vm_compute. reflexivity.
  - reflexivity.
  - vm_compute. reflexivity.
  - exact allPass_lossy.
Defined.

(** X6: the second application packet of a flow finds the connection that
    the first one has registered: it is queued behind the first, no second
    SYN is written, and the tables are left as the first packet has set
    them. *)
Theorem second_app_packet_joins_the_queue
    (L : Library) (d : Datapath) (p1 p1' p2 : Packet) (s : State)
    (ctxa : nat) (ctx : PUContext) (copy1 copy2 newPacket : Packet)
    (udpData : list Z) (auth : AuthInfo) :
  DestinationPort p1 <> 53 ->
  DestinationPort p2 <> 53 ->
  udpAppReplyConnectionTracker s !! L4FlowHash L p1 = None ->
  udpAppOrigConnectionTracker s !! L4FlowHash L p1 = None ->
  contextFromIP d true (IPString L (SourceAddress p1)) (Mark p1) (SourcePort p1)
    IPProtocolUDP = (Some ctxa, None) ->
  contexts s !! ctxa = Some ctx ->
  CreateSynPacketToken (tokenAccessor d) ctx emptyAuth = (udpData, None, auth) ->
  clonePacketHeaders L p1 = (p1', inl newPacket) ->
  New L PacketTypeApplication (Buffer p1) (Mark p1) = inl copy1 ->
  New L PacketTypeApplication (Buffer p2) (Mark p2) = inl copy2 ->
  L4FlowHash L p1' = L4FlowHash L p1 ->
  L4FlowHash L p2 = L4FlowHash L p1 ->
  hooks.allPass d ->
  let a := fresh (dom (conns s)) in
  let syn := UDPTokenAttach L newPacket (CreateUDPAuthMarker UDPSynMask) udpData in
  exists e1 s1 e2 s2,
    ProcessApplicationUDPPacket L d p1 s = Returned (Some e1) s1 /\
    ProcessApplicationUDPPacket L d p2 s1 = Returned (Some e2) s2 /\
    conns s2 =
      <[ a := {| state := UDPSynSend; Context := Some ctxa; Auth := auth;
                 PacketQueue := [copy1; copy2]; ReportFlowPolicy := None;
                 PacketFlowPolicy := None; ServiceConnection := false |} ]>
        (conns s) /\
    tables s2 = tables s1 /\
    events s2 = (events s ++ [EvWriteSocket (Buffer syn)])%list.
Proof.
  intros Hport1 Hport2 Hr Ho Hctx Hc Htok Hclone Hcopy1 Hcopy2 Hh1 Hh2 Hpass a syn.
  apply Z.eqb_neq in Hport1, Hport2.
  unfold ProcessApplicationUDPPacket, appUDPRetrieveState, GetState,
    QueuePackets, processApplicationUDPSynPacket, newConn, SetState,
    writeSocket.
  rewrite Hport1, Hport2. run. cbv zeta. rewrite Hh2, Hr, Ho, Hctx. cbv beta iota.
  unfold getConn, setConn, getContext. sym. rewrite Hcopy1. sym. cbn [app].
  hooks_pass Hpass; sym; rewrite Hc; sym; rewrite Htok, Hclone; sym;
    hooks_rw; sym; (eexists _, _, _, _; split; [reflexivity|]); sym;
    rewrite Hr, Hh1; sym; cbv [default from_option id]; sym;
    rewrite Hcopy2; sym; cbn [app];
    (split; [reflexivity|]); sym; rewrite !insert_insert_eq;
    repeat split; reflexivity.
Qed.

(** The witness: the two payload packets of the scenario. *)
Lemma second_app_packet_joins_the_queue_witness :
  let a := fresh (dom (conns scenario.emptyState)) in
  let syn := UDPTokenAttach scenario.library cases.headers
               (CreateUDPAuthMarker UDPSynMask) [1; 1] in
  exists e1 s1 e2 s2,
    ProcessApplicationUDPPacket scenario.library scenario.datapath
      scenario.appData1 scenario.emptyState = Returned (Some e1) s1 /\
    ProcessApplicationUDPPacket scenario.library scenario.datapath
      scenario.appData2 s1 = Returned (Some e2) s2 /\
    conns s2 =
      <[ a := {| state := UDPSynSend; Context := Some 0%nat; Auth := emptyAuth;
                 PacketQueue := [scenario.appData1; scenario.appData2];
                 ReportFlowPolicy := None; PacketFlowPolicy := None;
                 ServiceConnection := false |} ]>
        (conns scenario.emptyState) /\
    tables s2 = tables s1 /\
    events s2 = (events scenario.emptyState ++ [EvWriteSocket (Buffer syn)])%list.
Proof.
  apply (second_app_packet_joins_the_queue scenario.library scenario.datapath
           scenario.appData1 scenario.appData1 scenario.appData2
           scenario.emptyState 0%nat scenario.pu scenario.appData1
           scenario.appData2 cases.headers [1; 1] emptyAuth).
  - vm_compute. discriminate.
  - vm_compute. discriminate.
  - vm_compute. reflexivity.
  - vm_compute. reflexivity.
  - reflexivity.
  - vm_compute. reflexivity.
  - reflexivity.
  - vm_compute. reflexivity.
  - vm_compute. reflexivity.
  - vm_compute. reflexivity.
  - reflexivity.
  - vm_compute. reflexivity.
  - exact allPass_scenario.
Defined.

(** X7: a SYN whose claims the receive policy rejects is answered by one
    PolicyDrop report, with the transmitter label of the claims as source
    and the policies found; no SYNACK is written and no connection table is
    changed. The policy is searched with the claims extended by the
    destination port label. *)
Theorem syn_rejected_by_policy
    (L : Library) (d : Datapath) (p : Packet) (s : State)
    (ctxa : nat) (ctx : PUContext) (claims : tokens.ConnectionClaims)
    (auth : AuthInfo) (report pkt : policy.FlowPolicy) :
  SourcePort p <> 53 ->
  GetUDPType p = UDPSynMask ->
  contextFromIP d false (IPString L (DestinationAddress p)) (Mark p)
    (DestinationPort p) IPProtocolUDP = (Some ctxa, None) ->
  contexts s !! ctxa = Some ctx ->
  ParsePacketToken (tokenAccessor d) emptyAuth (ReadUDPToken p) =
    (Some claims, None, auth) ->
  let tags := policy.AppendKeyValue (tokens.T claims) PortNumberLabelString
                (Go.Itoa (DestinationPort p)) in
  SearchRcvRules L ctx tags = (report, pkt) ->
  policy.Rejected (policy.Action pkt) = true ->
  hooks.allPass d ->
  exists e s',
    ProcessNetworkUDPPacket L d p s = Returned (Some e) s' /\
    tables s' = tables s /\
    events s' =
      (events s ++
       [EvSearchRcvRules ctx tags;
        EvRejectedFlow p (Some (fresh (dom (conns s))))
          (fst (policy.Get (tokens.T claims) (TransmitterLabel L)))
          (ManagementID ctx) collector.PolicyDrop (Some report) (Some pkt)])%list.
Proof.
  intros Hport Htype Hctx Hc Htok tags Hsearch Hrej Hpass.
  apply Z.eqb_neq in Hport.
  unfold ProcessNetworkUDPPacket, netSynUDPRetrieveState, processNetUDPPacket,
    processNetworkUDPSynPacket, newConn, SetState, reportUDPRejectedFlow,
    searchRcvRules.
  rewrite Hport, Htype. cbn [Z.eqb Pos.eqb UDPSynMask]. run. cbv zeta.
  rewrite Hctx. unfold getConn, setConn, getContext. sym.
  hooks_pass Hpass; sym; hooks_rw; sym; rewrite Htok; sym;
    destruct (policy.Get (tokens.T claims) (TransmitterLabel L)) as [txLabel ok];
    sym; rewrite Hc; sym; cbn [tokens.T]; fold tags; rewrite Hsearch; sym; rewrite Hrej; sym;
    (eexists _, _; split; [reflexivity|]); sym;
    (split; [reflexivity|]); rewrite <- app_assoc; reflexivity.
Qed.

(** The witness: the SYN of the scenario under policies that reject every
    peer. *)
Lemma syn_rejected_by_policy_witness :
  let tags := policy.AppendKeyValue ["app=web"] PortNumberLabelString
                (Go.Itoa (DestinationPort scenario.syn)) in
  exists e s',
    ProcessNetworkUDPPacket cases.strictLibrary scenario.datapath scenario.syn
      scenario.emptyState = Returned (Some e) s' /\
    tables s' = tables scenario.emptyState /\
    events s' =
      (events scenario.emptyState ++
       [EvSearchRcvRules scenario.pu tags;
        EvRejectedFlow scenario.syn
          (Some (fresh (dom (conns scenario.emptyState))))
          (fst (policy.Get ["app=web"] (TransmitterLabel cases.strictLibrary)))
          (ManagementID scenario.pu) collector.PolicyDrop
          (Some cases.rejectAll) (Some cases.rejectAll)])%list.
Proof.
  apply (syn_rejected_by_policy cases.strictLibrary scenario.datapath
           scenario.syn scenario.emptyState 0%nat scenario.pu
           {| tokens.T := ["app=web"] |} emptyAuth cases.rejectAll cases.rejectAll).
  - vm_compute. discriminate.
  - vm_compute. reflexivity.
  - reflexivity.
  - vm_compute. reflexivity.
  - vm_compute. reflexivity.
  - reflexivity.
  - reflexivity.
  - exact allPass_scenario.
Defined.

(** X8: a SYN with a valid token that the receive policy accepts creates a
    connection that ends in state SynAckSent, holds the policies found, and
    is registered in the network origin tracker under the flow hash and in
    the application reply tracker under the reverse flow hash; the SYNACK
    is written once, and the SYN is not delivered (an error is returned).
    This is so whatever the socket write returns. *)
Theorem syn_accepted_registers_connection
    (L : Library) (d : Datapath) (p : Packet) (s : State)
    (ctxa : nat) (ctx : PUContext) (claims : tokens.ConnectionClaims)
    (auth auth' : AuthInfo) (report pkt : policy.FlowPolicy)
    (udpData : list Z) :
  SourcePort p <> 53 ->
  GetUDPType p = UDPSynMask ->
  contextFromIP d false (IPString L (DestinationAddress p)) (Mark p)
    (DestinationPort p) IPProtocolUDP = (Some ctxa, None) ->
  contexts s !! ctxa = Some ctx ->
  ParsePacketToken (tokenAccessor d) emptyAuth (ReadUDPToken p) =
    (Some claims, None, auth) ->
  let tags := policy.AppendKeyValue (tokens.T claims) PortNumberLabelString
                (Go.Itoa (DestinationPort p)) in
  SearchRcvRules L ctx tags = (report, pkt) ->
  policy.Rejected (policy.Action pkt) = false ->
  CreateSynAckPacketToken (tokenAccessor d) ctx auth = (udpData, None, auth') ->
  hooks.allPass d ->
  let a := fresh (dom (conns s)) in
  let synAck :=
    UDPTokenAttach L
      (CreateReverseFlowPacket L p (SourceAddress p) (SourcePort p))
      (CreateUDPAuthMarker UDPSynAckMask) udpData in
  exists e s',
    ProcessNetworkUDPPacket L d p s = Returned (Some e) s' /\
    conns s' =
      <[ a := {| state := UDPSynAckSent; Context := Some ctxa; Auth := auth';
                 PacketQueue := []; ReportFlowPolicy := Some report;
                 PacketFlowPolicy := Some pkt; ServiceConnection := false |} ]>
        (conns s) /\
    udpNetOrigConnectionTracker s' =
      <[ L4FlowHash L p := a ]> (udpNetOrigConnectionTracker s) /\
    udpAppReplyConnectionTracker s' =
      <[ L4ReverseFlowHash L p := a ]> (udpAppReplyConnectionTracker s) /\
    udpNetReplyConnectionTracker s' = udpNetReplyConnectionTracker s /\
    udpAppOrigConnectionTracker s' = udpAppOrigConnectionTracker s /\
    udpSourcePortConnectionCache s' = udpSourcePortConnectionCache s /\
    udpNatConnectionTracker s' = udpNatConnectionTracker s /\
    events s' =
      (events s ++ [EvSearchRcvRules ctx tags; EvWriteSocket (Buffer synAck)])%list.
Proof.
  intros Hport Htype Hctx Hc Htok tags Hsearch Hrej Htok' Hpass a synAck.
  apply Z.eqb_neq in Hport.
  unfold ProcessNetworkUDPPacket, netSynUDPRetrieveState, processNetUDPPacket,
    processNetworkUDPSynPacket, sendUDPSynAckPacket, newConn, SetState,
    reportUDPRejectedFlow, searchRcvRules, writeSocket.
  rewrite Hport, Htype. cbn [Z.eqb Pos.eqb UDPSynMask]. run. cbv zeta.
  rewrite Hctx. unfold getConn, setConn, getContext. sym.
  hooks_pass Hpass; sym; hooks_rw; sym; rewrite Htok; sym;
    destruct (policy.Get (tokens.T claims) (TransmitterLabel L)) as [txLabel ok];
    sym; rewrite Hc; sym; cbn [tokens.T]; fold tags; rewrite Hsearch; sym;
    rewrite Hrej; symh; rewrite Hc; symh; rewrite Htok'; symh;
    (eexists _, _; split; [reflexivity|]); sym;
    cbv [default from_option id]; rewrite !insert_insert_eq, <- app_assoc;
    repeat split; reflexivity.
Qed.

(** The witness: the SYN of the scenario, on a datapath whose socket refuses
    every write. *)
Lemma syn_accepted_registers_connection_witness :
  let tags := policy.AppendKeyValue ["app=web"] PortNumberLabelString
                (Go.Itoa (DestinationPort scenario.syn)) in
  let a := fresh (dom (conns scenario.emptyState)) in
  let synAck :=
    UDPTokenAttach scenario.library
      (CreateReverseFlowPacket scenario.library scenario.syn
         (SourceAddress scenario.syn) (SourcePort scenario.syn))
      (CreateUDPAuthMarker UDPSynAckMask) [2; 2] in
  exists e s',
    ProcessNetworkUDPPacket scenario.library cases.lossy scenario.syn
      scenario.emptyState = Returned (Some e) s' /\
    conns s' =
      <[ a := {| state := UDPSynAckSent; Context := Some 0%nat; Auth := emptyAuth;
                 PacketQueue := []; ReportFlowPolicy := Some scenario.acceptAll;
                 PacketFlowPolicy := Some scenario.acceptAll;
                 ServiceConnection := false |} ]>
        (conns scenario.emptyState) /\
    udpNetOrigConnectionTracker s' =
      <[ L4FlowHash scenario.library scenario.syn := a ]>
        (udpNetOrigConnectionTracker scenario.emptyState) /\
    udpAppReplyConnectionTracker s' =
      <[ L4ReverseFlowHash scenario.library scenario.syn := a ]>
        (udpAppReplyConnectionTracker scenario.emptyState) /\
    udpNetReplyConnectionTracker s' =
      udpNetReplyConnectionTracker scenario.emptyState /\
    udpAppOrigConnectionTracker s' =
      udpAppOrigConnectionTracker scenario.emptyState /\
    udpSourcePortConnectionCache s' =
      udpSourcePortConnectionCache scenario.emptyState /\
    udpNatConnectionTracker s' = udpNatConnectionTracker scenario.emptyState /\
    events s' =
      (events scenario.emptyState ++
       [EvSearchRcvRules scenario.pu tags; EvWriteSocket (Buffer synAck)])%list.
Proof.
  apply (syn_accepted_registers_connection scenario.library cases.lossy
           scenario.syn scenario.emptyState 0%nat scenario.pu
           {| tokens.T := ["app=web"] |} emptyAuth emptyAuth
           scenario.acceptAll scenario.acceptAll [2; 2]).
  - vm_compute. discriminate.
  - vm_compute. reflexivity.
  - reflexivity.
  - vm_compute. reflexivity.
  - vm_compute. reflexivity.
  - reflexivity.
  - reflexivity.
  - reflexivity.
  - exact allPass_lossy.
Defined.

(** X9: an ACK with a valid token puts the connection of its flow into
    state AckProcessed, whatever state the connection was in: the conntrack
    mark is updated (unless the connection is a service connection), then
    the accepted flow is reported once with the policies recorded on the
    connection; the tables are not changed, the result of the conntrack
    update is ignored, and the ACK is not delivered. *)
Theorem ack_completes_handshake_in_any_state
    (L : Library) (d : Datapath) (p : Packet) (s : State) (a ctxa : nat)
    (c : UDPConnection) (ctx : PUContext)
    (claims : option tokens.ConnectionClaims) (auth : AuthInfo) :
  SourcePort p <> 53 ->
  GetUDPType p = UDPAckMask ->
  (udpNetReplyConnectionTracker s !! L4FlowHash L p = Some a \/
   udpNetReplyConnectionTracker s !! L4FlowHash L p = None /\
   udpNetOrigConnectionTracker s !! L4FlowHash L p = Some a) ->
  conns s !! a = Some c ->
  Context c = Some ctxa ->
  contexts s !! ctxa = Some ctx ->
  ParseAckToken (tokenAccessor d) (Auth c) (ReadUDPToken p) = (claims, None, auth) ->
  hooks.allPass d ->
  exists e s',
    ProcessNetworkUDPPacket L d p s = Returned (Some e) s' /\
    conns s' = <[ a := withState (withAuth c auth) UDPAckProcessed ]> (conns s) /\
    tables s' = tables s /\
    events s' =
      (events s ++
       (if ServiceConnection c then []
        else [EvConntrackTableUpdateMark
                (IPString L (DestinationAddress p)) (IPString L (SourceAddress p))
                (IPProto p) (DestinationPort p) (SourcePort p)
                (DefaultConnMark L)]) ++
       [EvAcceptedFlow p (Some a) (RemoteContextID auth) (ManagementID ctx)
          (ReportFlowPolicy c) (PacketFlowPolicy c)])%list.
Proof.
  intros Hport Htype Hfind Hconn Hcc Hc Htok Hpass.
  apply Z.eqb_neq in Hport.
  unfold ProcessNetworkUDPPacket, netUDPAckRetrieveState, processNetUDPPacket,
    processNetworkUDPAckPacket, SetState, reportUDPAcceptedFlow,
    conntrackTableUpdateMark.
  rewrite Hport, Htype. cbn [Z.eqb Pos.eqb UDPSynMask UDPSynAckMask UDPAckMask].
  run. cbv zeta. unfold getConn, setConn, getContext.
  destruct Hfind as [-> | [-> ->]]; sym;
    (hooks_pass Hpass; sym; rewrite Hconn; sym; hooks_rw; sym;
     rewrite ?Hconn; sym; rewrite Htok; sym; rewrite ?Hcc;
     destruct (ServiceConnection c) eqn:Hsc; sym; rewrite ?Hsc; sym;
     rewrite Hc; sym; hooks_rw; sym;
     (eexists _, _; split; [reflexivity|]); sym;
     rewrite !insert_insert_eq, <- ?app_assoc; repeat split; reflexivity).
Qed.

(** The witness: the ACK of the scenario, on a datapath whose conntrack table
    refuses the update. *)
Lemma ack_completes_handshake_in_any_state_witness :
  exists e s',
    ProcessNetworkUDPPacket scenario.library cases.lossy scenario.ack
      scenario.afterSyn = Returned (Some e) s' /\
    conns s' =
      <[ 0%nat := withState (withAuth cases.answeredConn emptyAuth) UDPAckProcessed ]>
        (conns scenario.afterSyn) /\
    tables s' = tables scenario.afterSyn /\
    events s' =
      (events scenario.afterSyn ++
       (if ServiceConnection cases.answeredConn then []
        else [EvConntrackTableUpdateMark
                (IPString scenario.library (DestinationAddress scenario.ack))
                (IPString scenario.library (SourceAddress scenario.ack))
                (IPProto scenario.ack) (DestinationPort scenario.ack)
                (SourcePort scenario.ack) (DefaultConnMark scenario.library)]) ++
       [EvAcceptedFlow scenario.ack (Some 0%nat) (RemoteContextID emptyAuth)
          (ManagementID scenario.pu) (ReportFlowPolicy cases.answeredConn)
          (PacketFlowPolicy cases.answeredConn)])%list.
Proof.
  apply (ack_completes_handshake_in_any_state scenario.library cases.lossy
           scenario.ack scenario.afterSyn 0%nat 0%nat cases.answeredConn
           scenario.pu None emptyAuth).
  - vm_compute. discriminate.
  - vm_compute. reflexivity.
  - right. split; vm_compute; reflexivity.
  - vm_compute. reflexivity.
  - vm_compute. reflexivity.
  - vm_compute. reflexivity.
  - vm_compute. reflexivity.
  - exact allPass_lossy.
Defined.

(** X10: a SYNACK that the transmit policy rejects is answered by one
    PolicyDrop report; no ACK is written, no conntrack mark is set, no table
    is changed, and the connection keeps its state and its queued packets
    (only its Auth is what the token parser has left). *)
Theorem synack_rejected_by_policy
    (L : Library) (d : Datapath) (p : Packet) (s : State) (a ctxa : nat)
    (c : UDPConnection) (ctx : PUContext) (claims : tokens.ConnectionClaims)
    (auth : AuthInfo) (report pkt : policy.FlowPolicy) :
  SourcePort p <> 53 ->
  GetUDPType p = UDPSynAckMask ->
  udpSourcePortConnectionCache s !! SourcePortHash L p PacketTypeNetwork = Some a ->
  conns s !! a = Some c ->
  Context c = Some ctxa ->
  contexts s !! ctxa = Some ctx ->
  ParsePacketToken (tokenAccessor d) (Auth c) (ReadUDPToken p) =
    (Some claims, None, auth) ->
  SearchTxtRules L ctx (tokens.T claims) (negb (mutualAuthorization d)) =
    (report, pkt) ->
  policy.Rejected (policy.Action pkt) = true ->
  hooks.allPass d ->
  exists e s',
    ProcessNetworkUDPPacket L d p s = Returned (Some e) s' /\
    conns s' = <[ a := withAuth c auth ]> (conns s) /\
    tables s' = tables s /\
    events s' =
      (events s ++
       [EvSearchTxtRules ctx (tokens.T claims) (negb (mutualAuthorization d));
        EvRejectedFlow p (Some a) (ManagementID ctx) (RemoteContextID auth)
          collector.PolicyDrop (Some report) (Some pkt)])%list.
Proof.
  intros Hport Htype Hfind Hconn Hcc Hc Htok Hsearch Hrej Hpass.
  apply Z.eqb_neq in Hport.
  unfold ProcessNetworkUDPPacket, netSynAckUDPRetrieveState, processNetUDPPacket,
    processNetworkUDPSynAckPacket, SetState, reportUDPRejectedFlow,
    searchTxtRules.
  rewrite Hport, Htype. cbn [Z.eqb Pos.eqb UDPSynMask UDPSynAckMask UDPAckMask].
  run. cbv zeta. unfold getConn, setConn, getContext. rewrite Hfind. symh.
  hooks_pass Hpass; symh; rewrite Hconn; symh; rewrite ?Hconn; symh;
    rewrite Htok; symh; rewrite Hcc, Hc; symh; rewrite Hsearch; symh;
    rewrite Hrej; symh;
    (eexists _, _; split; [reflexivity|]); symh;
    rewrite <- ?app_assoc; repeat split; reflexivity.
Qed.

(** The witness: the SYNACK of the scenario under policies that reject every
    peer; the two queued packets stay queued. *)
Lemma synack_rejected_by_policy_witness :
  exists e s',
    ProcessNetworkUDPPacket cases.strictLibrary scenario.datapath scenario.synAck
      scenario.afterAppData = Returned (Some e) s' /\
    conns s' = <[ 0%nat := withAuth scenario.queuedConn emptyAuth ]>
                 (conns scenario.afterAppData) /\
    tables s' = tables scenario.afterAppData /\
    events s' =
      (events scenario.afterAppData ++
       [EvSearchTxtRules scenario.pu ["app=web"]
          (negb (mutualAuthorization scenario.datapath));
        EvRejectedFlow scenario.synAck (Some 0%nat) (ManagementID scenario.pu)
          (RemoteContextID emptyAuth) collector.PolicyDrop
          (Some cases.rejectAll) (Some cases.rejectAll)])%list.
Proof.
  apply (synack_rejected_by_policy cases.strictLibrary scenario.datapath
           scenario.synAck scenario.afterAppData 0%nat 0%nat scenario.queuedConn
           scenario.pu {| tokens.T := ["app=web"] |} emptyAuth
           cases.rejectAll cases.rejectAll).
  - vm_compute. discriminate.
  - vm_compute. reflexivity.
  - vm_compute. reflexivity.
  - vm_compute. reflexivity.
  - vm_compute. reflexivity.
  - vm_compute. reflexivity.
  - vm_compute. reflexivity.
  - reflexivity.
  - reflexivity.
  - exact allPass_scenario.
Defined.

(** X11: a DNS request of a PU followed by the response to the port it was
    sent from. The request (application packet to port 53) is let through
    and records the PU's context under its source port, also when
    contextFromIP reports an error beside the context; the response (network
    packet from port 53) is let through and adds the rules of its answers to
    the ApplicationACLs of that context. Connections, tables and events are
    not touched. *)
Theorem dns_request_then_response
    (L : Library) (d : Datapath) (req resp : Packet) (s : State) (a : nat)
    (err : Go.error) (context : PUContext) :
  DestinationPort req = 53 ->
  SourcePort resp = 53 ->
  DestinationPort resp = SourcePort req ->
  contextFromIP d true (IPString L (SourceAddress req)) (Mark req)
    (SourcePort req) IPProtocolUDP = (Some a, err) ->
  contexts s !! a = Some context ->
  exists s1 s2,
    ProcessApplicationUDPPacket L d req s = Returned None s1 /\
    dnsmap s1 = <[ SourcePort req := Some a ]> (dnsmap s) /\
    ProcessNetworkUDPPacket L d resp s1 = Returned None s2 /\
    contexts s2 =
      <[ a := withApplicationACLs context
                (expected.addRules (ApplicationACLs context)
                   (expected.DNSRules L (DNSACLs context)
                      (DecodeAnswers L (GetUDPData resp)))) ]>
        (contexts s) /\
    conns s2 = conns s /\
    tables s2 = tables s /\
    events s2 = events s.
Proof.
  intros Hreq Hresp Hport Hctx Hc.
  unfold ProcessApplicationUDPPacket, ProcessNetworkUDPPacket, processDNSTraffic.
  rewrite Hreq, Hresp, Hport. cbn [Z.eqb Pos.eqb]. run. rewrite Hctx.
  eexists _, _. split; [reflexivity|]. symh. split; [reflexivity|].
  cbv [default from_option id]. unfold getContext. symh. rewrite Hc. symh.
  split; [reflexivity|]. symh. rewrite addAnswers_addRules.
  repeat split; reflexivity.
Qed.

(** The witness: the DNS exchange of the scenario. *)
Lemma dns_request_then_response_witness :
  exists s1 s2,
    ProcessApplicationUDPPacket scenario.library scenario.datapath
      scenario.dnsRequest scenario.emptyState = Returned None s1 /\
    dnsmap s1 = <[ SourcePort scenario.dnsRequest := Some 0%nat ]>
                  (dnsmap scenario.emptyState) /\
    ProcessNetworkUDPPacket scenario.library scenario.datapath
      scenario.dnsResponse s1 = Returned None s2 /\
    contexts s2 =
      <[ 0%nat := withApplicationACLs scenario.pu
                (expected.addRules (ApplicationACLs scenario.pu)
                   (expected.DNSRules scenario.library (DNSACLs scenario.pu)
                      (DecodeAnswers scenario.library
                         (GetUDPData scenario.dnsResponse)))) ]>
        (contexts scenario.emptyState) /\
    conns s2 = conns scenario.emptyState /\
    tables s2 = tables scenario.emptyState /\
    events s2 = events scenario.emptyState.
Proof.
  apply (dns_request_then_response scenario.library scenario.datapath
           scenario.dnsRequest scenario.dnsResponse scenario.emptyState 0%nat
           None scenario.pu).
  - reflexivity.
  - reflexivity.
  - reflexivity.
  - reflexivity.
  - vm_compute. reflexivity.
Defined.

(** The flush loop returns the result of its last write when the hook lets
    every packet through, and changes no connection. *)
Lemma transmitQueued_result (d : Datapath) c queue err s :
  expected.hooksPass d queue ->
  exists s',
    transmitQueued d c queue err s =
      Returned (from_option (fun q => WriteSocket d (Buffer q)) err (last queue)) s' /\
    conns s' = conns s.
Proof.
  revert err s. induction queue as [|q queue IH]; intros err s Hpass.
  - eexists. split; reflexivity.
  - cbn [transmitQueued].
    assert (Hq : match service d with
                 | Some svc => negb (PostProcessUDPAppPacket svc q c)
                 | None => false
                 end = false).
    { destruct (service d) as [svc|] eqn:Hsvc; [|reflexivity].
      rewrite (Hpass svc q c Hsvc) by (left; reflexivity). reflexivity. }
    rewrite Hq. unfold writeSocket. run.
    destruct (IH (WriteSocket d (Buffer q))
                 (add_event (EvWriteSocket (Buffer q)) s)) as (s' & Heq & Hconns).
    { intros svc q' c' Hsvc Hin. apply (Hpass svc q' c' Hsvc). right. exact Hin. }
    exists s'. rewrite Heq. split; [|exact Hconns].
    rewrite last_cons. destruct (last queue); reflexivity.
Qed.

(** X12: once the ACK token is made and the NAT entry of the flow is read,
    sendUDPAckPacket ends with the connection in state AckProcessed and
    with its packet queue as it was (the queue is sent, not emptied). What
    it returns is the result of the last call it has made: of the write of
    the last queued packet, or, with nothing queued, of the conntrack update
    (of the write of the ACK, for a service connection). *)
Theorem sendUDPAckPacket_returns_last_error
    (L : Library) (d : Datapath) (p : Packet) (s : State) (a ctxa : nat)
    (c : UDPConnection) (ctx : PUContext) (udpData : list Z) (auth : AuthInfo)
    (destIPPort destIP portString : string) (rest : list string) (destPort : Z) :
  conns s !! a = Some c ->
  contexts s !! ctxa = Some ctx ->
  CreateAckPacketToken (tokenAccessor d) ctx (Auth c) = (udpData, None, auth) ->
  udpNatConnectionTracker s !! SourcePortHash L p PacketTypeNetwork =
    Some destIPPort ->
  Go.Split destIPPort ":" = destIP :: portString :: rest ->
  Go.Atoi portString = Some destPort ->
  expected.hooksPass d (PacketQueue c) ->
  let port := destPort mod 2 ^ 16 in
  let ack :=
    UDPTokenAttach L (CreateReverseFlowPacket L p (ParseIP L destIP) port)
      (CreateUDPAuthMarker UDPAckMask) udpData in
  exists s',
    sendUDPAckPacket L d p (Some ctxa) (Some a) s =
      Returned
        (match last (PacketQueue c) with
         | Some q => WriteSocket d (Buffer q)
         | None =>
             if ServiceConnection c then WriteSocket d (Buffer ack)
             else ConntrackTableUpdateMark d destIP
                    (IPString L (SourceAddress ack)) (IPProto ack) port
                    (SourcePort ack) (DefaultConnMark L)
         end) s' /\
    conns s' = <[ a := withState (withAuth c auth) UDPAckProcessed ]> (conns s).
Proof.
  intros Hconn Hc Htok Hnat Hsplit Hatoi Hpass port ack.
  unfold sendUDPAckPacket. run.
  unfold getConn, setConn, getContext, writeSocket, SetState,
    conntrackTableUpdateMark. run.
  unfold getConn, setConn. rewrite Hconn, Hc. symh. rewrite Htok. symh.
  rewrite Hnat. symh. rewrite Hsplit. cbn [nth nth_error]. rewrite Hatoi. symh.
  fold port. fold ack.
  destruct (ServiceConnection c) eqn:Hsc; symh;
    match goal with
    | |- context [transmitQueued d ?c' ?q ?e ?s0] =>
        destruct (transmitQueued_result d c' q e s0 Hpass) as (s' & -> & Hconns)
    end;
    exists s'; (split; [|rewrite Hconns; symh; rewrite !insert_insert_eq; reflexivity]);
    destruct (last (PacketQueue c)); reflexivity.
Qed.

(** The witness: the queue of the scenario on a socket that refuses every
    write; the error returned is that of the last queued packet. *)
Lemma sendUDPAckPacket_returns_last_error_witness :
  let port := 9000 mod 2 ^ 16 in
  let ack :=
    UDPTokenAttach scenario.library
      (CreateReverseFlowPacket scenario.library scenario.synAck
         (ParseIP scenario.library "10.0.0.2") port)
      (CreateUDPAuthMarker UDPAckMask) [3; 3] in
  exists s',
    sendUDPAckPacket scenario.library cases.lossy scenario.synAck (Some 0%nat)
      (Some 0%nat) scenario.afterAppData =
      Returned
        (match last (PacketQueue scenario.queuedConn) with
         | Some q => WriteSocket cases.lossy (Buffer q)
         | None =>
             if ServiceConnection scenario.queuedConn
             then WriteSocket cases.lossy (Buffer ack)
             else ConntrackTableUpdateMark cases.lossy "10.0.0.2"
                    (IPString scenario.library (SourceAddress ack)) (IPProto ack)
                    port (SourcePort ack) (DefaultConnMark scenario.library)
         end) s' /\
    conns s' =
      <[ 0%nat := withState (withAuth scenario.queuedConn emptyAuth) UDPAckProcessed ]>
        (conns scenario.afterAppData).
Proof.
  apply (sendUDPAckPacket_returns_last_error scenario.library cases.lossy
           scenario.synAck scenario.afterAppData 0%nat 0%nat scenario.queuedConn
           scenario.pu [3; 3] emptyAuth "10.0.0.2:9000" "10.0.0.2" "9000" [] 9000).
  - vm_compute. reflexivity.
  - vm_compute. reflexivity.
  - vm_compute. reflexivity.
  - vm_compute. reflexivity.
  - vm_compute. reflexivity.
  - vm_compute. reflexivity.
  - intros svc q c Hsvc Hin. injection Hsvc as <-. reflexivity.
Defined.

(** X13: the initiator's side of a whole handshake. The first application
    packet of a flow sends the SYN; the SYNACK that comes back to the SYN's
    source port finds the connection, and with a valid token and an accepting
    policy the ACK is written, the conntrack mark is set and the queued
    packet is sent, in this order; from then on an application packet of the
    flow is let through unchanged. *)
Theorem client_handshake_completes
    (L : Library) (d : Datapath) (p p' q r : Packet) (s : State)
    (ctxa : nat) (ctx : PUContext) (copy newPacket : Packet)
    (synData ackData : list Z) (auth1 auth2 auth3 : AuthInfo)
    (claims : tokens.ConnectionClaims) (report pkt : policy.FlowPolicy)
    (destIP portString : string) (rest : list string) (destPort : Z) :
  (* the first payload packet p of a flow the datapath does not know *)
  DestinationPort p <> 53 ->
  udpAppReplyConnectionTracker s !! L4FlowHash L p = None ->
  udpAppOrigConnectionTracker s !! L4FlowHash L p = None ->
  contextFromIP d true (IPString L (SourceAddress p)) (Mark p) (SourcePort p)
    IPProtocolUDP = (Some ctxa, None) ->
  contexts s !! ctxa = Some ctx ->
  New L PacketTypeApplication (Buffer p) (Mark p) = inl copy ->
  CreateSynPacketToken (tokenAccessor d) ctx emptyAuth = (synData, None, auth1) ->
  clonePacketHeaders L p = (p', inl newPacket) ->
  L4FlowHash L p' = L4FlowHash L p ->
  let syn := UDPTokenAttach L newPacket (CreateUDPAuthMarker UDPSynMask) synData in
  (* the peer's SYNACK q, sent to the address the SYN came from *)
  SourcePort q <> 53 ->
  GetUDPType q = UDPSynAckMask ->
  SourcePortHash L q PacketTypeNetwork = SourcePortHash L syn PacketTypeApplication ->
  ParsePacketToken (tokenAccessor d) auth1 (ReadUDPToken q) =
    (Some claims, None, auth2) ->
  SearchTxtRules L ctx (tokens.T claims) (negb (mutualAuthorization d)) =
    (report, pkt) ->
  policy.Rejected (policy.Action pkt) = false ->
  CreateAckPacketToken (tokenAccessor d) ctx auth2 = (ackData, None, auth3) ->
  Go.Split (SourcePortHash L syn PacketTypeNetwork) ":" =
    destIP :: portString :: rest ->
  Go.Atoi portString = Some destPort ->
  (* a later payload packet r of the same flow *)
  DestinationPort r <> 53 ->
  L4FlowHash L r = L4FlowHash L p ->
  hooks.allPass d ->
  let a := fresh (dom (conns s)) in
  let port := destPort mod 2 ^ 16 in
  let ack :=
    UDPTokenAttach L (CreateReverseFlowPacket L q (ParseIP L destIP) port)
      (CreateUDPAuthMarker UDPAckMask) ackData in
  exists e1 s1 e2 s2,
    ProcessApplicationUDPPacket L d p s = Returned (Some e1) s1 /\
    ProcessNetworkUDPPacket L d q s1 = Returned (Some e2) s2 /\
    ProcessApplicationUDPPacket L d r s2 = Returned None s2 /\
    conns s2 =
      <[ a := {| state := UDPAckProcessed; Context := Some ctxa; Auth := auth3;
                 PacketQueue := [copy]; ReportFlowPolicy := None;
                 PacketFlowPolicy := None; ServiceConnection := false |} ]>
        (conns s) /\
    udpNetReplyConnectionTracker s2 =
      <[ L4FlowHash L q := a ]> (udpNetReplyConnectionTracker s) /\
    events s2 =
      (events s ++
       [EvWriteSocket (Buffer syn);
        EvSearchTxtRules ctx (tokens.T claims) (negb (mutualAuthorization d));
        EvWriteSocket (Buffer ack);
        EvConntrackTableUpdateMark destIP (IPString L (SourceAddress ack))
          (IPProto ack) port (SourcePort ack) (DefaultConnMark L);
        EvWriteSocket (Buffer copy)])%list.
Proof.
  intros Hport Hr Ho Hctx Hc Hcopy Htok1 Hclone Hh syn
         Hqport Hqtype Hqhash Htok2 Hsearch Hrej Htok3 Hsplit Hatoi
         Hrport Hrhash Hpass a port ack.
  apply Z.eqb_neq in Hport, Hqport, Hrport.
  unfold ProcessApplicationUDPPacket, appUDPRetrieveState, GetState,
    QueuePackets, processApplicationUDPSynPacket, newConn, SetState,
    writeSocket.
  unfold ProcessNetworkUDPPacket, netSynAckUDPRetrieveState, processNetUDPPacket,
    processNetworkUDPSynAckPacket, sendUDPAckPacket, SetState,
    reportUDPRejectedFlow, searchTxtRules, writeSocket, conntrackTableUpdateMark.
  rewrite Hport, Hqport, Hrport, Hqtype, Hrhash.
  cbn [Z.eqb Pos.eqb UDPSynMask UDPSynAckMask UDPAckMask].
  run. cbv zeta. rewrite Hr, Ho, Hctx. cbv beta iota.
  unfold getConn, setConn, getContext. symh. rewrite Hcopy. symh. cbn [app].
  destruct (WriteSocket d (Buffer copy)) as [we|] eqn:Hw.
  all: hooks_pass Hpass; symh; rewrite Hc; symh; rewrite Htok1, Hclone; symh;
    (eexists _, _, _, _; split; [reflexivity|]); symh;
    fold syn; rewrite Hqhash; symh; cbv [default from_option id]; symh;
    rewrite Htok2; symh; rewrite Hc; symh; rewrite Hsearch; symh;
    rewrite Hrej; symh; rewrite ?Hc; symh; rewrite Htok3; symh.
  all: rewrite Hsplit; cbn [nth nth_error]; rewrite Hatoi; symh.
  all: fold port; fold ack; cbn [transmitQueued]; rewrite Hsvc; symh; unfold writeSocket; run; symh.
  all: rewrite Hw; symh.
  all: (split; [reflexivity|]); symh; rewrite Hh, Hr; symh.
  all: (split; [reflexivity|]); rewrite !insert_insert_eq, <- ?app_assoc.
  all: repeat split; reflexivity.
Qed.

(** The witness: the client of the scenario. *)
Lemma client_handshake_completes_witness :
  let syn := UDPTokenAttach scenario.library cases.headers
               (CreateUDPAuthMarker UDPSynMask) [1; 1] in
  let a := fresh (dom (conns scenario.emptyState)) in
  let port := 9000 mod 2 ^ 16 in
  let ack :=
    UDPTokenAttach scenario.library
      (CreateReverseFlowPacket scenario.library scenario.synAck
         (ParseIP scenario.library "10.0.0.2") port)
      (CreateUDPAuthMarker UDPAckMask) [3; 3] in
  exists e1 s1 e2 s2,
    ProcessApplicationUDPPacket scenario.library scenario.datapath
      scenario.appData1 scenario.emptyState = Returned (Some e1) s1 /\
    ProcessNetworkUDPPacket scenario.library scenario.datapath scenario.synAck s1
      = Returned (Some e2) s2 /\
    ProcessApplicationUDPPacket scenario.library scenario.datapath
      scenario.appData2 s2 = Returned None s2 /\
    conns s2 =
      <[ a := {| state := UDPAckProcessed; Context := Some 0%nat;
                 Auth := emptyAuth; PacketQueue := [scenario.appData1];
                 ReportFlowPolicy := None; PacketFlowPolicy := None;
                 ServiceConnection := false |} ]>
        (conns scenario.emptyState) /\
    udpNetReplyConnectionTracker s2 =
      <[ L4FlowHash scenario.library scenario.synAck := a ]>
        (udpNetReplyConnectionTracker scenario.emptyState) /\
    events s2 =
      (events scenario.emptyState ++
       [EvWriteSocket (Buffer syn);
        EvSearchTxtRules scenario.pu ["app=web"]
          (negb (mutualAuthorization scenario.datapath));
        EvWriteSocket (Buffer ack);
        EvConntrackTableUpdateMark "10.0.0.2"
          (IPString scenario.library (SourceAddress ack))
          (IPProto ack) port (SourcePort ack) (DefaultConnMark scenario.library);
        EvWriteSocket (Buffer scenario.appData1)])%list.
Proof.
  apply (client_handshake_completes scenario.library scenario.datapath
           scenario.appData1 scenario.appData1 scenario.synAck scenario.appData2
           scenario.emptyState 0%nat scenario.pu scenario.appData1 cases.headers
           [1; 1] [3; 3] emptyAuth emptyAuth emptyAuth
           {| tokens.T := ["app=web"] |} scenario.acceptAll scenario.acceptAll
           "10.0.0.2" "9000" [] 9000).
  - vm_compute. discriminate.
  - vm_compute. reflexivity.
  - vm_compute. reflexivity.
  - reflexivity.
  - vm_compute. reflexivity.
  - vm_compute. reflexivity.
  - reflexivity.
  - vm_compute. reflexivity.
  - reflexivity.
  - vm_compute. discriminate.
  - vm_compute. reflexivity.
  - vm_compute. reflexivity.
  - vm_compute. reflexivity.
  - reflexivity.
  - reflexivity.
  - reflexivity.
  - vm_compute. reflexivity.
  - vm_compute. reflexivity.
  - vm_compute. discriminate.
  - vm_compute. reflexivity.
  - exact allPass_scenario.
Defined.

(** X14: the responder's side of a whole handshake. A SYN that is accepted
    is answered by a SYNACK; the ACK of the same flow finds the connection
    the SYN has registered, sets the conntrack mark and reports the accepted
    flow with the policies found for the SYN; from then on payload packets
    of the flow are delivered, and the local application's packets in the
    other direction are let through. *)
Theorem server_handshake_completes
    (L : Library) (d : Datapath) (p q r t : Packet) (s : State)
    (ctxa : nat) (ctx : PUContext) (claims : tokens.ConnectionClaims)
    (ackClaims : option tokens.ConnectionClaims)
    (auth1 auth2 auth3 : AuthInfo) (report pkt : policy.FlowPolicy)
    (udpData : list Z) :
  (* the SYN p of a new flow *)
  SourcePort p <> 53 ->
  GetUDPType p = UDPSynMask ->
  contextFromIP d false (IPString L (DestinationAddress p)) (Mark p)
    (DestinationPort p) IPProtocolUDP = (Some ctxa, None) ->
  contexts s !! ctxa = Some ctx ->
  ParsePacketToken (tokenAccessor d) emptyAuth (ReadUDPToken p) =
    (Some claims, None, auth1) ->
  let tags := policy.AppendKeyValue (tokens.T claims) PortNumberLabelString
                (Go.Itoa (DestinationPort p)) in
  SearchRcvRules L ctx tags = (report, pkt) ->
  policy.Rejected (policy.Action pkt) = false ->
  CreateSynAckPacketToken (tokenAccessor d) ctx auth1 = (udpData, None, auth2) ->
  udpNetReplyConnectionTracker s !! L4FlowHash L p = None ->
  (* the ACK q of the same flow *)
  SourcePort q <> 53 ->
  GetUDPType q = UDPAckMask ->
  L4FlowHash L q = L4FlowHash L p ->
  ParseAckToken (tokenAccessor d) auth2 (ReadUDPToken q) = (ackClaims, None, auth3) ->
  (* a payload packet r of the flow, and a payload packet t of the local
     application in the other direction *)
  SourcePort r <> 53 ->
  expected.isControl (GetUDPType r) = false ->
  L4FlowHash L r = L4FlowHash L p ->
  DestinationPort t <> 53 ->
  L4FlowHash L t = L4ReverseFlowHash L p ->
  hooks.allPass d ->
  let a := fresh (dom (conns s)) in
  let synAck :=
    UDPTokenAttach L
      (CreateReverseFlowPacket L p (SourceAddress p) (SourcePort p))
      (CreateUDPAuthMarker UDPSynAckMask) udpData in
  exists e1 s1 e2 s2,
    ProcessNetworkUDPPacket L d p s = Returned (Some e1) s1 /\
    ProcessNetworkUDPPacket L d q s1 = Returned (Some e2) s2 /\
    ProcessNetworkUDPPacket L d r s2 = Returned None s2 /\
    ProcessApplicationUDPPacket L d t s2 = Returned None s2 /\
    conns s2 =
      <[ a := {| state := UDPAckProcessed; Context := Some ctxa; Auth := auth3;
                 PacketQueue := []; ReportFlowPolicy := Some report;
                 PacketFlowPolicy := Some pkt; ServiceConnection := false |} ]>
        (conns s) /\
    events s2 =
      (events s ++
       [EvSearchRcvRules ctx tags;
        EvWriteSocket (Buffer synAck);
        EvConntrackTableUpdateMark
          (IPString L (DestinationAddress q)) (IPString L (SourceAddress q))
          (IPProto q) (DestinationPort q) (SourcePort q) (DefaultConnMark L);
        EvAcceptedFlow q (Some a) (RemoteContextID auth3) (ManagementID ctx)
          (Some report) (Some pkt)])%list.
Proof.
  intros Hport Htype Hctx Hc Htok1 tags Hsearch Hrej Htok2 Hnr
         Hqport Hqtype Hqhash Htok3 Hrport Hrctl Hrhash Htport Hthash Hpass
         a synAck.
  apply isControl_false in Hrctl as (Hr1 & Hr2 & Hr3).
  apply Z.eqb_neq in Hport, Hqport, Hrport, Htport.
  unfold ProcessApplicationUDPPacket, appUDPRetrieveState, GetState.
  unfold ProcessNetworkUDPPacket, netSynUDPRetrieveState, netUDPAckRetrieveState,
    processNetUDPPacket, processNetworkUDPSynPacket, processNetworkUDPAckPacket,
    sendUDPSynAckPacket, newConn, SetState, reportUDPRejectedFlow,
    reportUDPAcceptedFlow, searchRcvRules, writeSocket, conntrackTableUpdateMark.
  rewrite Hport, Hqport, Hrport, Htport, Htype, Hqtype, Hr1, Hr2, Hr3,
    Hqhash, Hrhash, Hthash.
  cbn [Z.eqb Pos.eqb UDPSynMask UDPSynAckMask UDPAckMask].
  run. cbv zeta. rewrite Hctx. unfold getConn, setConn, getContext. symh.
  hooks_pass Hpass; symh; rewrite Htok1; symh;
    destruct (policy.Get (tokens.T claims) (TransmitterLabel L)) as [txLabel ok];
    symh; rewrite Hc; symh; cbn [tokens.T]; fold tags; rewrite Hsearch; symh;
    rewrite Hrej; symh; rewrite Hc; symh; rewrite Htok2; symh;
    (eexists _, _, _, _; split; [reflexivity|]); symh;
    rewrite Hnr; symh; cbv [default from_option id]; symh;
    rewrite Htok3; symh; rewrite ?Hc; symh;
    (split; [reflexivity|]); symh; rewrite Hnr; symh;
    (split; [reflexivity|]); symh;
    (split; [reflexivity|]);
    rewrite !insert_insert_eq, <- ?app_assoc; repeat split; reflexivity.
Qed.

(** The witness: the server of the scenario. *)
Lemma server_handshake_completes_witness :
  let tags := policy.AppendKeyValue ["app=web"] PortNumberLabelString
                (Go.Itoa (DestinationPort scenario.syn)) in
  let a := fresh (dom (conns scenario.emptyState)) in
  let synAck :=
    UDPTokenAttach scenario.library
      (CreateReverseFlowPacket scenario.library scenario.syn
         (SourceAddress scenario.syn) (SourcePort scenario.syn))
      (CreateUDPAuthMarker UDPSynAckMask) [2; 2] in
  exists e1 s1 e2 s2,
    ProcessNetworkUDPPacket scenario.library scenario.datapath scenario.syn
      scenario.emptyState = Returned (Some e1) s1 /\
    ProcessNetworkUDPPacket scenario.library scenario.datapath scenario.ack s1
      = Returned (Some e2) s2 /\
    ProcessNetworkUDPPacket scenario.library scenario.datapath scenario.appData1 s2
      = Returned None s2 /\
    ProcessApplicationUDPPacket scenario.library scenario.datapath cases.reply s2
      = Returned None s2 /\
    conns s2 =
      <[ a := {| state := UDPAckProcessed; Context := Some 0%nat;
                 Auth := emptyAuth; PacketQueue := [];
                 ReportFlowPolicy := Some scenario.acceptAll;
                 PacketFlowPolicy := Some scenario.acceptAll;
                 ServiceConnection := false |} ]>
        (conns scenario.emptyState) /\
    events s2 =
      (events scenario.emptyState ++
       [EvSearchRcvRules scenario.pu tags;
        EvWriteSocket (Buffer synAck);
        EvConntrackTableUpdateMark
          (IPString scenario.library (DestinationAddress scenario.ack))
          (IPString scenario.library (SourceAddress scenario.ack))
          (IPProto scenario.ack) (DestinationPort scenario.ack)
          (SourcePort scenario.ack) (DefaultConnMark scenario.library);
        EvAcceptedFlow scenario.ack (Some a) (RemoteContextID emptyAuth)
          (ManagementID scenario.pu) (Some scenario.acceptAll)
          (Some scenario.acceptAll)])%list.
Proof.
  apply (server_handshake_completes scenario.library scenario.datapath
           scenario.syn scenario.ack scenario.appData1 cases.reply
           scenario.emptyState 0%nat scenario.pu {| tokens.T := ["app=web"] |}
           None emptyAuth emptyAuth emptyAuth scenario.acceptAll
           scenario.acceptAll [2; 2]).
  - vm_compute. discriminate.
  - vm_compute. reflexivity.
  - reflexivity.
  - vm_compute. reflexivity.
  - vm_compute. reflexivity.
  - reflexivity.
  - reflexivity.
  - reflexivity.
  - vm_compute. reflexivity.
  - vm_compute. discriminate.
  - vm_compute. reflexivity.
  - vm_compute. reflexivity.
  - vm_compute. reflexivity.
  - vm_compute. discriminate.
  - vm_compute. reflexivity.
  - vm_compute. reflexivity.
  - vm_compute. discriminate.
  - vm_compute. reflexivity.
  - exact allPass_scenario.
Defined.

End DatapathCoverage.
(** ** The UDP datapath: what a packet leaves alone *)

Section Frame.
Import packet connection pucontext nfqdatapath.
Context {X : Type} (f : State -> X).

Lemma keeps_ret {A} (a : A) : frame.keeps f (mret a).
Proof. intros s. reflexivity. Qed.

Lemma keeps_bind {A B} (m : M A) (k : A -> M B) :
  frame.keeps f m -> (forall a, frame.keeps f (k a)) -> frame.keeps f (m ≫= k).
Proof.
  intros Hm Hk s. unfold mbind, M_bind, bind. specialize (Hm s).
  destruct (m s) as [a s1|s1]; cbn in *; [|exact Hm].
  rewrite (Hk a s1). exact Hm.
Qed.

Lemma keeps_panic {A} : frame.keeps f (@panic A).
Proof. intros s. reflexivity. Qed.

Lemma keeps_get : frame.keeps f get.
Proof. intros s. reflexivity. Qed.

Lemma keeps_modify g : (forall s, f (g s) = f s) -> frame.keeps f (modify g).
Proof. intros H s. apply H. Qed.

Lemma keeps_getConn conn : frame.keeps f (getConn conn).
Proof.
  intros s. unfold getConn. destruct conn as [a|]; [|reflexivity].
  destruct (conns s !! a); reflexivity.
Qed.

Lemma keeps_getContext context : frame.keeps f (getContext context).
Proof.
  intros s. unfold getContext. destruct context as [a|]; [|reflexivity].
  destruct (contexts s !! a); reflexivity.
Qed.

Hypothesis Hf : frame.table f.

Lemma keeps_setConn conn c : frame.keeps f (setConn conn c).
Proof. intros s. destruct conn as [a|]; cbn; [apply Hf|reflexivity]. Qed.

Lemma keeps_newConn c : frame.keeps f (newConn c).
Proof. intros s. cbn. apply Hf. Qed.

Lemma keeps_emit e : frame.keeps f (emit e).
Proof. intros s. cbn. apply Hf. Qed.

End Frame.

Section FrameLoop.
Import packet connection pucontext nfqdatapath.
Context {X : Type} (f : State -> X) (Hf : frame.table f).
Variable d : Datapath.

Lemma keeps_transmitQueued c queue err :
  frame.keeps f (transmitQueued d c queue err).
Proof.
  revert err. induction queue as [|q queue IH]; intros err; cbn [transmitQueued].
  - apply keeps_ret.
  - destruct (match service d with
              | Some svc => negb (PostProcessUDPAppPacket svc q c)
              | None => false
              end); [apply keeps_ret|].
    apply keeps_bind; [|intros e; apply IH].
    unfold writeSocket. apply keeps_bind; [apply (keeps_emit _ Hf)|].
    intros _. apply keeps_ret.
Qed.

End FrameLoop.


Create HintDb keeps discriminated.
#[export] Hint Resolve keeps_ret keeps_bind keeps_panic keeps_get keeps_getConn
  keeps_getContext keeps_setConn keeps_newConn keeps_emit keeps_transmitQueued
  : keeps.
#[export] Hint Extern 1 (frame.keeps _ (nfqdatapath.modify _)) =>
  apply keeps_modify; intros ?; reflexivity : keeps.
#[export] Hint Extern 1 (frame.keeps _ (nfqdatapath.ret _)) =>
  apply keeps_ret : keeps.
#[export] Hint Extern 2 (frame.keeps _ _) =>
  match goal with
  | |- frame.keeps _ (match ?x with _ => _ end) => destruct x
  end : keeps.

Section FrameTheorems.
Import packet connection pucontext nfqdatapath.

(** X15: whatever the packet and however the function ends,
    ProcessNetworkUDPPacket changes none of the tables that the application
    side fills: the application origin tracker, the source port cache and
    the NAT tracker are left as they are, and so is the DNS map. *)
Theorem network_packets_keep_application_tables
    (L : Library) (d : Datapath) (p : Packet) (s : State) :
  let s' := final_state (ProcessNetworkUDPPacket L d p s) in
  udpAppOrigConnectionTracker s' = udpAppOrigConnectionTracker s /\
  udpSourcePortConnectionCache s' = udpSourcePortConnectionCache s /\
  udpNatConnectionTracker s' = udpNatConnectionTracker s /\
  dnsmap s' = dnsmap s.
Proof.
  cbv zeta.
  assert (H1 : frame.keeps udpAppOrigConnectionTracker (ProcessNetworkUDPPacket L d p)).
  { assert (Hf : frame.table udpAppOrigConnectionTracker) by (split; reflexivity).
    unfold_datapath. auto 200 with keeps. }
  assert (H2 : frame.keeps udpSourcePortConnectionCache (ProcessNetworkUDPPacket L d p)).
  { assert (Hf : frame.table udpSourcePortConnectionCache) by (split; reflexivity).
    unfold_datapath. auto 200 with keeps. }
  assert (H3 : frame.keeps udpNatConnectionTracker (ProcessNetworkUDPPacket L d p)).
  { assert (Hf : frame.table udpNatConnectionTracker) by (split; reflexivity).
    unfold_datapath. auto 200 with keeps. }
  assert (H4 : frame.keeps dnsmap (ProcessNetworkUDPPacket L d p)).
  { assert (Hf : frame.table dnsmap) by (split; reflexivity).
    unfold_datapath. auto 200 with keeps. }
  repeat split; [apply H1|apply H2|apply H3|apply H4].
Qed.

(** X16: whatever the packet and however the function ends,
    ProcessApplicationUDPPacket changes none of the tables that the network
    side fills: the network origin tracker, the network reply tracker and
    the application reply tracker are left as they are, and so are the PU
    contexts. *)
Theorem application_packets_keep_network_tables
    (L : Library) (d : Datapath) (p : Packet) (s : State) :
  let s' := final_state (ProcessApplicationUDPPacket L d p s) in
  udpNetOrigConnectionTracker s' = udpNetOrigConnectionTracker s /\
  udpNetReplyConnectionTracker s' = udpNetReplyConnectionTracker s /\
  udpAppReplyConnectionTracker s' = udpAppReplyConnectionTracker s /\
  contexts s' = contexts s.
Proof.
  cbv zeta.
  assert (H1 : frame.keeps udpNetOrigConnectionTracker (ProcessApplicationUDPPacket L d p)).
  { assert (Hf : frame.table udpNetOrigConnectionTracker) by (split; reflexivity).
    unfold_datapath. auto 200 with keeps. }
  assert (H2 : frame.keeps udpNetReplyConnectionTracker (ProcessApplicationUDPPacket L d p)).
  { assert (Hf : frame.table udpNetReplyConnectionTracker) by (split; reflexivity).
    unfold_datapath. auto 200 with keeps. }
  assert (H3 : frame.keeps udpAppReplyConnectionTracker (ProcessApplicationUDPPacket L d p)).
  { assert (Hf : frame.table udpAppReplyConnectionTracker) by (split; reflexivity).
    unfold_datapath. auto 200 with keeps. }
  assert (H4 : frame.keeps contexts (ProcessApplicationUDPPacket L d p)).
  { assert (Hf : frame.table contexts) by (split; reflexivity).
    unfold_datapath. auto 200 with keeps. }
  repeat split; [apply H1|apply H2|apply H3|apply H4].
Qed.

(** X17: only a DNS response changes a PU context: a network packet that
    does not come from port 53 leaves every PU context, and with it every
    PU's ApplicationACLs, as it is, however its processing ends. *)
Theorem only_dns_responses_change_contexts
    (L : Library) (d : Datapath) (p : Packet) (s : State) :
  SourcePort p <> 53 ->
  contexts (final_state (ProcessNetworkUDPPacket L d p s)) = contexts s.
Proof.
  intros Hport. apply Z.eqb_neq in Hport.
  assert (H : frame.keeps contexts (ProcessNetworkUDPPacket L d p)).
  { assert (Hf : frame.table contexts) by (split; reflexivity).
    unfold ProcessNetworkUDPPacket. rewrite Hport.
    unfold_datapath. auto 200 with keeps. }
  apply H.
Qed.

(** The witness: the SYN of the scenario. *)
Lemma only_dns_responses_change_contexts_witness :
  contexts
    (final_state
       (ProcessNetworkUDPPacket scenario.library scenario.datapath scenario.syn
          scenario.emptyState)) = contexts scenario.emptyState.
Proof.
  apply (only_dns_responses_change_contexts scenario.library scenario.datapath
           scenario.syn scenario.emptyState).
  vm_compute. discriminate.
Defined.

End FrameTheorems.
(** ** The controller *)

Section ControllerLoops.
Import controller expected_controller.
Variable W : World.

Lemma UpdateConfiguration_supervisors_spec sups networks failure s :
  let calls := map (fun '(_, s) => SupervisorSetTargetNetworks s networks) sups in
  UpdateConfiguration_supervisors W sups networks failure s =
    Returned (failure || existsb (fun e => bool_decide (e <> None))
                           (answers W (trace s) calls))
             {| trace := (trace s ++ calls)%list; locks := locks s |}.
Proof.
  revert failure s. induction sups as [|[m sup] sups IH]; intros failure s; cbn.
  - rewrite orb_false_r, app_nil_r. destruct s; reflexivity.
  - crun. rewrite IH. cbn [trace locks record]. rewrite <- app_assoc. cbn [app].
    f_equal. destruct (answer W (trace s) _); cbn; [|reflexivity].
    rewrite orb_true_r. reflexivity.
Qed.

Lemma UpdateConfiguration_enforcers_spec enfs networks failure s :
  let calls :=
    map (fun '(_, e) => EnforcerSetTargetNetworks (enforcer e) networks) enfs in
  UpdateConfiguration_enforcers W enfs networks failure s =
    Returned (failure || existsb (fun e => bool_decide (e <> None))
                           (answers W (trace s) calls))
             {| trace := (trace s ++ calls)%list; locks := locks s |}.
Proof.
  revert failure s. induction enfs as [|[m enf] enfs IH]; intros failure s; cbn.
  - rewrite orb_false_r, app_nil_r. destruct s; reflexivity.
  - crun. rewrite IH. cbn [trace locks record]. rewrite <- app_assoc. cbn [app].
    f_equal. destruct (answer W (trace s) _); cbn; [|reflexivity].
    rewrite orb_true_r. reflexivity.
Qed.

Lemma answers_app h calls1 calls2 :
  answers W h (calls1 ++ calls2) =
  (answers W h calls1 ++ answers W (h ++ calls1) calls2)%list.
Proof.
  revert h. induction calls1 as [|c calls1 IH]; intros h; cbn.
  - rewrite app_nil_r. reflexivity.
  - rewrite IH, <- app_assoc. reflexivity.
Qed.

End ControllerLoops.

(** X19: UpdateConfiguration calls SetTargetNetworks on every supervisor and
    then on every enforcer, once each, whether or not an earlier one has
    failed; it returns an error exactly when one of these calls has returned
    one. *)
Theorem UpdateConfiguration_tries_every_one
    (W : controller.World) (t : controller.trireme) (networks : list string)
    (s : controller.State) :
  let calls := expected_controller.configurationCalls t networks in
  controller.UpdateConfiguration W t networks s =
    controller.Returned
      (if existsb (fun e => bool_decide (e <> None))
            (expected_controller.answers W (controller.trace s) calls)
       then Some "Configuration update failed" else None)
      {| controller.trace := (controller.trace s ++ calls)%list;
         controller.locks := controller.locks s |}.
Proof.
  cbv zeta. unfold controller.UpdateConfiguration, expected_controller.configurationCalls.
  crun. rewrite UpdateConfiguration_supervisors_spec. cbv zeta.
  rewrite UpdateConfiguration_enforcers_spec. cbv zeta.
  cbn [controller.trace controller.locks orb].
  rewrite answers_app, existsb_app, <- app_assoc.
  destruct (existsb _ _ || existsb _ _); reflexivity.
Qed.

Section ControllerRun.
Import controller expected_controller.
Variable W : World.

Lemma Run_supervisors_spec sups s :
  let calls := map (fun '(_, s) => SupervisorRun s) sups in
  match Run_supervisors W sups s with
  | Returned None s' =>
      trace s' = (trace s ++ calls)%list /\ locks s' = locks s /\
      Forall (fun e => e = None) (answers W (trace s) calls)
  | Returned (Some _) s' =>
      exists pre c rest,
        calls = (pre ++ c :: rest)%list /\
        trace s' = (trace s ++ pre ++ [c])%list /\
        answer W (trace s ++ pre) c <> None /\
        Forall (fun e => e = None) (answers W (trace s) pre)
  | Panicked _ => False
  end.
Proof.
  revert s. induction sups as [|[m sup] sups IH]; intros s; cbn.
  - rewrite app_nil_r. auto.
  - crun. destruct (answer W (trace s) (SupervisorRun sup)) as [e|] eqn:Hans.
    + exists [], (SupervisorRun sup), (map (fun '(_, s) => SupervisorRun s) sups).
      cbn. rewrite app_nil_r. repeat split; auto. congruence.
    + specialize (IH (record (SupervisorRun sup) s)). cbv zeta in IH.
      destruct (Run_supervisors W sups _) as [[e|] s'|s']; [| |exact IH].
      * destruct IH as (pre & c & rest & Hcalls & Htr & Hfail & Hok).
        exists (SupervisorRun sup :: pre), c, rest. cbn in *.
        rewrite Hcalls, Htr, <- !app_assoc. repeat split; auto.
        rewrite <- app_assoc in Hfail. exact Hfail.
      * destruct IH as (Htr & Hl & Hok). cbn in *.
        rewrite Htr, <- app_assoc. repeat split; auto.
Qed.

Lemma Run_enforcers_spec enfs s :
  let calls := map (fun '(_, e) => EnforcerRun (enforcer e)) enfs in
  match Run_enforcers W enfs s with
  | Returned None s' =>
      trace s' = (trace s ++ calls)%list /\ locks s' = locks s /\
      Forall (fun e => e = None) (answers W (trace s) calls)
  | Returned (Some _) s' =>
      exists pre c rest,
        calls = (pre ++ c :: rest)%list /\
        trace s' = (trace s ++ pre ++ [c])%list /\
        answer W (trace s ++ pre) c <> None /\
        Forall (fun e => e = None) (answers W (trace s) pre)
  | Panicked _ => False
  end.
Proof.
  revert s. induction enfs as [|[m enf] enfs IH]; intros s; cbn.
  - rewrite app_nil_r. auto.
  - crun. destruct (answer W (trace s) (EnforcerRun (enforcer enf))) as [e|] eqn:Hans.
    + exists [], (EnforcerRun (enforcer enf)),
        (map (fun '(_, e) => EnforcerRun (enforcer e)) enfs).
      cbn. rewrite app_nil_r. repeat split; auto. congruence.
    + specialize (IH (record (EnforcerRun (enforcer enf)) s)). cbv zeta in IH.
      destruct (Run_enforcers W enfs _) as [[e|] s'|s']; [| |exact IH].
      * destruct IH as (pre & c & rest & Hcalls & Htr & Hfail & Hok).
        exists (EnforcerRun (enforcer enf) :: pre), c, rest. cbn in *.
        rewrite Hcalls, Htr, <- !app_assoc. repeat split; auto.
        rewrite <- app_assoc in Hfail. exact Hfail.
      * destruct IH as (Htr & Hl & Hok). cbn in *.
        rewrite Htr, <- app_assoc. repeat split; auto.
Qed.

End ControllerRun.

(** X20: Run starts the supervisors and then the enforcers, one call each,
    and stops at the first call that fails: it returns nil only when every
    one has been started, and after a failure nothing further is started (no
    enforcer at all when a supervisor fails). It never panics. *)
Theorem Run_stops_at_first_failure
    (W : controller.World) (t : controller.trireme) (s : controller.State) :
  match controller.Run W t s with
  | controller.Returned None s' =>
      controller.trace s' =
        (controller.trace s ++ expected_controller.runCalls t)%list /\
      Forall (fun e => e = None)
        (expected_controller.answers W (controller.trace s)
           (expected_controller.runCalls t))
  | controller.Returned (Some _) s' =>
      exists pre c rest,
        expected_controller.runCalls t = (pre ++ c :: rest)%list /\
        controller.trace s' = (controller.trace s ++ pre ++ [c])%list /\
        controller.answer W (controller.trace s ++ pre) c <> None /\
        Forall (fun e => e = None)
          (expected_controller.answers W (controller.trace s) pre)
  | controller.Panicked _ => False
  end.
Proof.
  unfold controller.Run, expected_controller.runCalls. crun.
  pose proof (Run_supervisors_spec W (controller.supervisors t) s) as Hs.
  cbv zeta in Hs.
  destruct (controller.Run_supervisors W (controller.supervisors t) s)
    as [[e|] s1|s1]; [| |exact Hs].
  - destruct Hs as (pre & c & rest & Hcalls & Htr & Hfail & Hok).
    exists pre, c,
      (rest ++ map (fun '(_, e) => controller.EnforcerRun (controller.enforcer e))
                 (controller.enforcers t))%list.
    rewrite Hcalls, <- app_assoc. repeat split; auto.
  - destruct Hs as (Htr & Hl & Hok).
    pose proof (Run_enforcers_spec W (controller.enforcers t) s1) as He.
    cbv zeta in He.
    destruct (controller.Run_enforcers W (controller.enforcers t) s1)
      as [[e|] s2|s2]; [| |exact He].
    + destruct He as (pre & c & rest & Hcalls & Htr2 & Hfail & Hok2).
      exists (map (fun '(_, s) => controller.SupervisorRun s)
                (controller.supervisors t) ++ pre)%list, c, rest.
      rewrite Hcalls, Htr2, Htr, <- !app_assoc. repeat split; auto.
      * rewrite Htr, <- app_assoc in Hfail. exact Hfail.
      * rewrite answers_app. apply Forall_app. split; [exact Hok|].
        rewrite <- Htr. exact Hok2.
    + destruct He as (Htr2 & Hl2 & Hok2).
      rewrite Htr2, Htr, <- app_assoc. split; [reflexivity|].
      rewrite answers_app. apply Forall_app. split; [exact Hok|].
      rewrite <- Htr. exact Hok2.
Qed.

(** X21: doHandleCreate reports to the collector exactly once, as the last
    thing it does, whichever way it ends: the calls it makes are some calls
    that are no collector reports, followed by one CollectContainerEvent for
    the PU. When the function returns, the event reported is ContainerFailed
    exactly when an error is returned. *)
Theorem doHandleCreate_reports_exactly_once
    (W : controller.World) (t : controller.trireme) (contextID : string)
    (policyInfo runtimeInfo : nat) (s : controller.State) :
  exists calls record,
    controller.trace
      (controller.final_state
         (controller.doHandleCreate W t contextID policyInfo runtimeInfo s)) =
      (controller.trace s ++ calls ++ [controller.CollectContainerEvent record])%list /\
    forallb (fun c => negb (expected_controller.isCollect c)) calls = true /\
    controller.ContextID record = contextID /\
    forall err s',
      controller.doHandleCreate W t contextID policyInfo runtimeInfo s =
        controller.Returned err s' ->
      (err <> None <-> controller.Event record = controller.ContainerFailed).
Proof.
  unfold controller.doHandleCreate, controller.deferCollect,
    controller.doHandleCreate_body, controller.onEnforcer,
    controller.onSupervisor, controller.modeOf.
  crun. cbn [controller.trace controller.record controller.locks].
  cases; cbn [controller.final_state controller.trace controller.record];
    rewrite <- ?app_assoc; cbn [app];
    lazymatch goal with
    | |- exists calls record, (?h ++ ?l)%list = _ /\ _ =>
        let init := eval cbn in (List.removelast l) in
        let lst := eval cbn in (List.last l controller.PortAllocate) in
        lazymatch lst with
        | controller.CollectContainerEvent ?r => exists init, r
        end
    end;
    (split; [reflexivity|]);
    (split; [reflexivity|]); (split; [reflexivity|]);
    intros err s' Heq; inversion Heq; subst; cbn; split; congruence.
Qed.

(** X22: when the supervisor refuses a PU that the enforcer has accepted,
    doHandleCreate takes the PU out of the enforcer again, reports
    ContainerFailed and returns an error. The proxy port it has allocated is
    not released. The PU type of the runtime is taken not to change. *)
Theorem doHandleCreate_rolls_back_the_enforcer
    (W : controller.World) (t : controller.trireme) (contextID : string)
    (policyInfo runtimeInfo : nat) (s : controller.State)
    (ty : controller.PUType) (enf : controller.Enforcer) (sup : nat)
    (e : string) :
  let h := controller.trace s in
  let info := controller.PUInfoFromPolicyAndRuntime W h contextID policyInfo
                runtimeInfo in
  let runtime := controller.InfoRuntime W info in
  let mode := default 0 (controller.puTypeToEnforcerType t !! ty) in
  let prepared :=
    [controller.PortAllocate;
     controller.RuntimeSetOptions runtime (controller.allocated W h);
     controller.AddTransmitterLabel contextID info] in
  let enforce := controller.EnforcerEnforce (controller.enforcer enf) contextID info in
  let supervise := controller.SupervisorSupervise sup contextID info in
  (forall h', controller.RuntimePUType W h' runtime = ty) ->
  controller.lookup_mode mode (controller.enforcers t) = Some enf ->
  controller.lookup_mode mode (controller.supervisors t) = Some sup ->
  controller.mustEnforce W (h ++ prepared) contextID info = true ->
  controller.answer W (h ++ prepared) enforce = None ->
  controller.answer W (h ++ prepared ++ [enforce]) supervise = Some e ->
  exists err s',
    controller.doHandleCreate W t contextID policyInfo runtimeInfo s =
      controller.Returned (Some err) s' /\
    controller.trace s' =
      (h ++ prepared ++
       [enforce; supervise;
        controller.EnforcerUnenforce (controller.enforcer enf) contextID;
        controller.CollectContainerEvent
          {| controller.ContextID := contextID;
             controller.IPAddress :=
               controller.PolicyIPAddresses W
                 (h ++ [controller.PortAllocate;
                        controller.RuntimeSetOptions runtime
                          (controller.allocated W h)]) policyInfo;
             controller.Tags :=
               controller.PolicyAnnotations W
                 (h ++ [controller.PortAllocate;
                        controller.RuntimeSetOptions runtime
                          (controller.allocated W h)]) policyInfo;
             controller.Event := controller.ContainerFailed |}])%list.
Proof.
  intros h info runtime mode prepared enforce supervise
         Hty Henf Hsup Hmust Hok Hfail.
  subst h info runtime mode prepared enforce supervise.
  unfold controller.doHandleCreate, controller.deferCollect,
    controller.doHandleCreate_body, controller.onEnforcer,
    controller.onSupervisor, controller.modeOf.
  crun. cbn [controller.trace controller.record controller.locks] in *.
  rewrite <- ?app_assoc in *. cbn [app] in *.
  rewrite Hmust. cbn [negb]. rewrite !Hty, Henf. cstep. rewrite Hok. cstep.
  rewrite !Hty, Hsup. cstep. rewrite Hfail. cstep. rewrite !Hty, Henf. cstep.
  eexists _, _. split; [reflexivity|].
  cbn [controller.trace controller.record controller.locks].
  rewrite <- ?app_assoc. reflexivity.
Qed.

(** The witness: a world in which the supervisor refuses every PU. *)
Lemma doHandleCreate_rolls_back_the_enforcer_witness :
  exists err s',
    controller.doHandleCreate expected_controller.fullWorld
      expected_controller.oneOfEach "pu-1" 1%nat 2%nat expected_controller.idle =
      controller.Returned (Some err) s' /\
    controller.trace s' =
      [controller.PortAllocate;
       controller.RuntimeSetOptions 2%nat "5000";
       controller.AddTransmitterLabel "pu-1" 3%nat;
       controller.EnforcerEnforce 20%nat "pu-1" 3%nat;
       controller.SupervisorSupervise 10%nat "pu-1" 3%nat;
       controller.EnforcerUnenforce 20%nat "pu-1";
       controller.CollectContainerEvent
         {| controller.ContextID := "pu-1";
            controller.IPAddress := ∅;
            controller.Tags := None;
            controller.Event := controller.ContainerFailed |}].
Proof.
  apply (doHandleCreate_rolls_back_the_enforcer expected_controller.fullWorld
           expected_controller.oneOfEach "pu-1" 1%nat 2%nat
           expected_controller.idle 1
           {| controller.enforcer := 20%nat; controller.isProxyInfo := false |}
           10%nat "no room").
  - intros h'. reflexivity.
  - reflexivity.
  - reflexivity.
  - reflexivity.
  - reflexivity.
  - reflexivity.
Defined.

(** X23: doHandleDelete reports ContainerDelete first and then asks both the
    supervisor and the enforcer to forget the PU, the enforcer also when the
    supervisor has failed; the proxy port of the runtime is released unless
    it is empty. An error is returned exactly when one of the two has
    failed. The PU type of the runtime is taken not to change. *)
Theorem doHandleDelete_cleans_up_both
    (W : controller.World) (t : controller.trireme) (contextID : string)
    (policy runtime : nat) (s : controller.State)
    (ty : controller.PUType) (enf : controller.Enforcer) (sup : nat) :
  let h := controller.trace s in
  let mode := default 0 (controller.puTypeToEnforcerType t !! ty) in
  let report :=
    controller.CollectContainerEvent
      {| controller.ContextID := contextID;
         controller.IPAddress := controller.RuntimeIPAddresses W h runtime;
         controller.Tags := None;
         controller.Event := controller.ContainerDelete |} in
  let unsupervise := controller.SupervisorUnsupervise sup contextID in
  let unenforce := controller.EnforcerUnenforce (controller.enforcer enf) contextID in
  let h' := (h ++ [report; unsupervise; unenforce])%list in
  (forall h', controller.RuntimePUType W h' runtime = ty) ->
  controller.lookup_mode mode (controller.enforcers t) = Some enf ->
  controller.lookup_mode mode (controller.supervisors t) = Some sup ->
  exists err s',
    controller.doHandleDelete W t contextID policy runtime s =
      controller.Returned err s' /\
    controller.trace s' =
      (h' ++ if String.eqb (controller.RuntimeProxyPort W h' runtime) ""
             then []
             else [controller.PortRelease (controller.RuntimeProxyPort W h' runtime)])%list /\
    (err = None <->
     controller.answer W (h ++ [report]) unsupervise = None /\
     controller.answer W (h ++ [report; unsupervise]) unenforce = None).
Proof.
  intros h mode report unsupervise unenforce h' Hty Henf Hsup.
  subst h mode report unsupervise unenforce h'.
  unfold controller.doHandleDelete, controller.onEnforcer,
    controller.onSupervisor, controller.modeOf.
  crun. cbn [controller.trace controller.record controller.locks].
  cstep. rewrite !Hty, Hsup. cstep. rewrite !Hty, Henf. cstep.
  destruct (String.eqb _ ""); cbn [negb];
    destruct (controller.answer W _ (controller.SupervisorUnsupervise _ _));
    destruct (controller.answer W _ (controller.EnforcerUnenforce _ _));
    (eexists _, _; split; [reflexivity|]);
    cbn [controller.trace controller.record controller.locks];
    rewrite <- ?app_assoc, ?app_nil_r; cbn [app];
    (split; [reflexivity|]); split; try tauto; try congruence;
    intros [? ?]; congruence.
Qed.

(** The witness: the PU of that world is deleted, and its port released. *)
Lemma doHandleDelete_cleans_up_both_witness :
  exists s',
    controller.doHandleDelete expected_controller.fullWorld
      expected_controller.oneOfEach "pu-1" 1%nat 2%nat expected_controller.idle =
      controller.Returned None s' /\
    controller.trace s' =
      [controller.CollectContainerEvent
         {| controller.ContextID := "pu-1";
            controller.IPAddress := ∅;
            controller.Tags := None;
            controller.Event := controller.ContainerDelete |};
       controller.SupervisorUnsupervise 10%nat "pu-1";
       controller.EnforcerUnenforce 20%nat "pu-1";
       controller.PortRelease "5000"].
Proof.
  destruct (doHandleDelete_cleans_up_both expected_controller.fullWorld
              expected_controller.oneOfEach "pu-1" 1%nat 2%nat
              expected_controller.idle 1
              {| controller.enforcer := 20%nat; controller.isProxyInfo := false |}
              10%nat)
    as (err & s' & Heq & Htrace & Herr).
  - intros h'. reflexivity.
  - reflexivity.
  - reflexivity.
  - exists s'. destruct Herr as [_ Herr]. rewrite Herr in Heq.
    + split; [exact Heq|exact Htrace].
    + split; reflexivity.
Defined.

Section ControllerLocks.
Import controller.
Variable W : World.
Variable t : trireme.

(** The functions that do the work leave [t.locks] alone. *)
Lemma doHandleCreate_locks contextID policyInfo runtimeInfo s :
  locks (final_state (doHandleCreate W t contextID policyInfo runtimeInfo s)) =
  locks s.
Proof.
  unfold doHandleCreate, deferCollect, doHandleCreate_body, onEnforcer,
    onSupervisor, modeOf.
  crun. cases; reflexivity.
Qed.

Lemma doHandleDelete_locks contextID policy runtime s :
  locks (final_state (doHandleDelete W t contextID policy runtime s)) = locks s.
Proof.
  unfold doHandleDelete, onEnforcer, onSupervisor, modeOf.
  crun. cases; reflexivity.
Qed.

End ControllerLocks.

(** X24: UpdatePolicy acts on a PU only between Enforce and UnEnforce: after
    Enforce, however it has ended, UpdatePolicy goes on to doUpdatePolicy;
    after UnEnforce, however it has ended, UpdatePolicy returns nil and
    calls nothing. Neither changes the lock of another PU. *)
Theorem UpdatePolicy_only_while_enforced
    (W : controller.World) (t : controller.trireme) (puID : string)
    (policy runtime plc : nat) (s : controller.State) :
  let enforced :=
    controller.final_state (controller.Enforce W t puID policy runtime s) in
  let unenforced :=
    controller.final_state (controller.UnEnforce W t puID policy runtime s) in
  controller.UpdatePolicy W t puID plc runtime enforced =
    controller.doUpdatePolicy W t puID plc runtime enforced /\
  controller.UpdatePolicy W t puID plc runtime unenforced =
    controller.Returned None unenforced /\
  controller.locks enforced = {[ puID ]} ∪ controller.locks s /\
  controller.locks unenforced = controller.locks s ∖ {[ puID ]}.
Proof.
  cbv zeta.
  assert (He : controller.locks
                 (controller.final_state (controller.Enforce W t puID policy runtime s)) =
               {[ puID ]} ∪ controller.locks s).
  { unfold controller.Enforce. crun. rewrite doHandleCreate_locks. reflexivity. }
  assert (Hu : controller.locks
                 (controller.final_state (controller.UnEnforce W t puID policy runtime s)) =
               controller.locks s ∖ {[ puID ]}).
  { unfold controller.UnEnforce, controller.defer. crun.
    pose proof (doHandleDelete_locks W t puID policy runtime
                  (controller.set_locks (union {[ puID ]}) s)) as Hd.
    destruct (controller.doHandleDelete W t puID policy runtime _) as [e s1|s1];
      cbn in *; rewrite Hd; apply set_eq; intros x;
      rewrite !elem_of_difference, elem_of_union; tauto. }
  unfold controller.UpdatePolicy. rewrite He, Hu.
  repeat split.
  - rewrite bool_decide_eq_true_2; [reflexivity|].
    apply elem_of_union_l, elem_of_singleton. reflexivity.
  - rewrite bool_decide_eq_false_2; [reflexivity|].
    rewrite elem_of_difference, elem_of_singleton. tauto.
Qed.

(** X30: doUpdatePolicy reports ContainerUpdate only for an update that has
    succeeded: whenever a ContainerUpdate report is among the calls it
    makes, the report is its last call and nil is returned. An update that
    fails, or that is turned into a re-creation of the PU, is never reported
    as an update. *)
Theorem doUpdatePolicy_reports_only_success
    (W : controller.World) (t : controller.trireme) (contextID : string)
    (newPolicy runtime : nat) (s : controller.State) :
  let o := controller.doUpdatePolicy W t contextID newPolicy runtime s in
  exists calls,
    controller.trace (controller.final_state o) =
      (controller.trace s ++ calls)%list /\
    forall r,
      In (controller.CollectContainerEvent r) calls ->
      controller.Event r = controller.ContainerUpdate ->
      o = controller.Returned None (controller.final_state o) /\
      last calls = Some (controller.CollectContainerEvent r).
Proof.
  cbv zeta.
  unfold controller.doUpdatePolicy, controller.doHandleCreate,
    controller.deferCollect, controller.doHandleCreate_body,
    controller.onEnforcer, controller.onSupervisor, controller.modeOf.
  crun. cbn [controller.trace controller.record controller.locks].
  cases; cbn [controller.final_state controller.trace controller.record];
    rewrite <- ?app_assoc; cbn [app];
    (eexists; split; [reflexivity|]);
    intros r Hin Hev; cbn [In] in Hin;
    repeat match goal with
    | H : _ \/ _ |- _ => destruct H as [H|H]
    | H : False |- _ => destruct H
    | H : _ = controller.CollectContainerEvent _ |- _ =>
        first [discriminate H | injection H as <-]
    end;
    try discriminate Hev;
    split; reflexivity.
Qed.

(** The witness: an update that enforcer and supervisor accept. *)
Lemma doUpdatePolicy_reports_only_success_witness :
  let o := controller.doUpdatePolicy expected_controller.quietWorld
             expected_controller.oneOfEach "pu-1" 1%nat 2%nat
             expected_controller.idle in
  let r := {| controller.ContextID := "pu-1";
              controller.IPAddress := ∅;
              controller.Tags := None;
              controller.Event := controller.ContainerUpdate |} in
  o = controller.Returned None (controller.final_state o) /\
  controller.trace (controller.final_state o) =
    [controller.AddTransmitterLabel "pu-1" 3%nat;
     controller.EnforcerEnforce 20%nat "pu-1" 3%nat;
     controller.SupervisorSupervise 10%nat "pu-1" 3%nat;
     controller.CollectContainerEvent r].
Proof.
  intros o r.
  destruct (doUpdatePolicy_reports_only_success expected_controller.quietWorld
              expected_controller.oneOfEach "pu-1" 1%nat 2%nat
              expected_controller.idle) as (calls & Htrace & Hreport).
  fold o in Htrace, Hreport.
  assert (Hcalls : calls =
            [controller.AddTransmitterLabel "pu-1" 3%nat;
             controller.EnforcerEnforce 20%nat "pu-1" 3%nat;
             controller.SupervisorSupervise 10%nat "pu-1" 3%nat;
             controller.CollectContainerEvent r]).
  { symmetry. exact Htrace. }
  destruct (Hreport r) as [Hnil _].
  - rewrite Hcalls. right. right. right. left. reflexivity.
  - reflexivity.
  - split; [exact Hnil|]. rewrite Htrace. exact Hcalls.
Defined.
(** ** The statistics collector *)

(** X25: CollectFlowEvent adds the count of a new record, a count of zero
    counting as one, to the count held for the record's flow hash, and
    leaves the counts of all other flows as they are. The record is one the
    collector does not hold yet; that every flow hash has a record of its
    own is kept. *)
Theorem CollectFlowEvent_adds_the_count
    {float64 FlowFields UserFields : Type}
    (float64_of_int : Z -> float64) (fadd fmul fdiv : float64 -> float64 -> float64)
    (StatsFlowHash : statscollector.FlowRecord float64 FlowFields -> string)
    (record : nat) (rec : statscollector.FlowRecord float64 FlowFields)
    (c : statscollector.State float64 FlowFields UserFields) :
  statscollector.records c !! record = Some rec ->
  (forall h, statscollector.Flows c !! h <> Some record) ->
  statscollector.separate c ->
  - 2 ^ 63 <= statscollector.Count rec < 2 ^ 63 ->
  let n := if statscollector.Count rec =? 0 then 1 else statscollector.Count rec in
  exists c',
    statscollector.CollectFlowEvent float64_of_int fadd fmul fdiv StatsFlowHash
      record c = Some c' /\
    statscollector.counts c' =
      <[ StatsFlowHash rec :=
           statscollector.wrap_int
             (default 0 (statscollector.counts c !! StatsFlowHash rec) + n) ]>
        (statscollector.counts c) /\
    statscollector.separate c'.
Proof.
  intros Hrec Hfresh [Hwf Hinj] Hrange n.
  assert (Hn : - 2 ^ 63 <= n < 2 ^ 63).
  { subst n. destruct (statscollector.Count rec =? 0); lia. }
  assert (Hwrap : statscollector.wrap_int (0 + n) = n).
  { unfold statscollector.wrap_int. rewrite Z.add_0_l.
    rewrite Z.mod_small by lia. lia. }
  unfold statscollector.CollectFlowEvent. rewrite Hrec. cbn [mbind option_bind].
  set (rec' := if statscollector.Count rec =? 0
               then statscollector.withCount rec 1 else rec).
  assert (Hcount : statscollector.Count rec' = n).
  { subst rec' n. destruct (statscollector.Count rec =? 0); reflexivity. }
  cbn [statscollector.Flows statscollector.set_records statscollector.records].
  destruct (statscollector.Flows c !! StatsFlowHash rec) as [r|] eqn:Hflow.
  - (* the flow is known: its record [r] takes the count *)
    assert (Hr : r <> record) by (intros ->; exact (Hfresh _ Hflow)).
    destruct (Hwf _ _ Hflow) as [old Hold].
    rewrite lookup_insert_ne by congruence. rewrite Hold. cbn [mbind option_bind].
    eexists. split; [reflexivity|]. split.
    + apply map_eq. intros h. unfold statscollector.counts.
      cbn [statscollector.Flows statscollector.set_records statscollector.records].
      destruct (decide (h = StatsFlowHash rec)) as [->|Hne].
      * rewrite lookup_insert_eq, !lookup_omap, Hflow. cbn.
        rewrite lookup_insert_eq, Hold. cbn. rewrite Hcount. reflexivity.
      * rewrite lookup_insert_ne by congruence. rewrite !lookup_omap.
        destruct (statscollector.Flows c !! h) as [a|] eqn:Ha; [|reflexivity].
        cbn. assert (a <> r) by (intros ->; apply Hne; eauto).
        assert (a <> record) by (intros ->; exact (Hfresh _ Ha)).
        rewrite !lookup_insert_ne by congruence. reflexivity.
    + split.
      * intros h a Ha. cbn in *.
        destruct (decide (a = r)) as [->|]; [rewrite lookup_insert_eq; eauto|].
        rewrite lookup_insert_ne by congruence.
        destruct (decide (a = record)) as [->|]; [rewrite lookup_insert_eq; eauto|].
        rewrite lookup_insert_ne by congruence. eauto.
      * intros h1 h2 a H1 H2. cbn in *. eauto.
  - (* a new flow: the record itself is kept *)
    eexists. split; [reflexivity|]. split.
    + apply map_eq. intros h. unfold statscollector.counts.
      cbn [statscollector.Flows statscollector.set_records
           statscollector.set_Flows statscollector.records].
      destruct (decide (h = StatsFlowHash rec)) as [->|Hne].
      * rewrite lookup_insert_eq, !lookup_omap, lookup_insert_eq, Hflow. cbn.
        rewrite lookup_insert_eq. cbn. rewrite Hcount, Hwrap. reflexivity.
      * rewrite lookup_insert_ne by congruence. rewrite !lookup_omap.
        rewrite lookup_insert_ne by congruence.
        destruct (statscollector.Flows c !! h) as [a|] eqn:Ha; [|reflexivity].
        cbn. assert (a <> record) by (intros ->; exact (Hfresh _ Ha)).
        rewrite lookup_insert_ne by congruence. reflexivity.
    + split.
      * intros h a Ha. cbn in *.
        destruct (decide (h = StatsFlowHash rec)) as [->|Hne].
        -- rewrite lookup_insert_eq in Ha. inversion Ha; subst.
           rewrite lookup_insert_eq. eauto.
        -- rewrite lookup_insert_ne in Ha by congruence.
           destruct (decide (a = record)) as [->|]; [rewrite lookup_insert_eq; eauto|].
           rewrite lookup_insert_ne by congruence. eauto.
      * intros h1 h2 a H1 H2. cbn in *.
        destruct (decide (h1 = StatsFlowHash rec)) as [->|Hne1];
          destruct (decide (h2 = StatsFlowHash rec)) as [->|Hne2]; auto.
        -- rewrite lookup_insert_eq in H1. rewrite lookup_insert_ne in H2 by congruence.
           inversion H1; subst. exfalso. exact (Hfresh _ H2).
        -- rewrite lookup_insert_eq in H2. rewrite lookup_insert_ne in H1 by congruence.
           inversion H2; subst. exfalso. exact (Hfresh _ H1).
        -- rewrite lookup_insert_ne in H1, H2 by congruence. eauto.
Qed.

(** The witness: a flow with a count of 3 takes a record without a count:
    the flow's count becomes 4. *)
Lemma CollectFlowEvent_adds_the_count_witness :
  exists c',
    statscollector.CollectFlowEvent (fun _ => tt) (fun _ _ => tt)
      (fun _ _ => tt) (fun _ _ => tt) (fun _ => "flow") 1%nat
      expected_collector.oneFlow = Some c' /\
    statscollector.counts c' !! "flow" = Some 4.
Proof.
  destruct (CollectFlowEvent_adds_the_count (fun _ => tt) (fun _ _ => tt)
              (fun _ _ => tt) (fun _ _ => tt) (fun _ => "flow") 1%nat
              (expected_collector.flow 0) expected_collector.oneFlow)
    as (c' & Heq & Hcounts & _).
  - reflexivity.
  - intros h Hh. unfold expected_collector.oneFlow in Hh. cbn in Hh.
    apply lookup_singleton_Some in Hh. destruct Hh as [_ Hh]. discriminate Hh.
  - split.
    + intros h a Hh. unfold expected_collector.oneFlow in Hh. cbn in Hh.
      apply lookup_singleton_Some in Hh. destruct Hh as [_ <-].
      exists (expected_collector.flow 3). reflexivity.
    + intros h1 h2 a H1 H2. unfold expected_collector.oneFlow in H1, H2.
      cbn in H1, H2. apply lookup_singleton_Some in H1, H2.
      destruct H1 as [<- _]. destruct H2 as [<- _]. reflexivity.
  - cbn. lia.
  - exists c'. split; [exact Heq|]. rewrite Hcounts, lookup_insert_eq.
    reflexivity.
Defined.


(** ** cgroups *)

Section GoStrings.

Lemma append_cons c (s t : string) : String c s +:+ t = String c (s +:+ t).
Proof. reflexivity. Qed.

Lemma append_nil (t : string) : "" +:+ t = t.
Proof. reflexivity. Qed.

Lemma HasPrefix_app s t : gostrings.HasPrefix (s +:+ t) s = true.
Proof.
  induction s as [|c s IH]; [destruct t; reflexivity|].
  rewrite append_cons. cbn [gostrings.HasPrefix].
  rewrite Ascii.eqb_refl. exact IH.
Qed.

Lemma Contains_app pre s post :
  gostrings.Contains (pre +:+ s +:+ post) s = true.
Proof.
  induction pre as [|c pre IH].
  - rewrite append_nil. destruct (s +:+ post) eqn:E;
      cbn [gostrings.Contains]; rewrite <- E, HasPrefix_app; reflexivity.
  - rewrite append_cons. cbn [gostrings.Contains]. rewrite IH. apply orb_true_r.
Qed.

Lemma Split_aux_line (line rest : string) (sep : ascii) cur :
  (forall c, In c (list_ascii_of_string line) -> c <> sep) ->
  Go.Split_aux (line +:+ String sep rest) sep cur =
  (cur +:+ line) :: Go.Split_aux rest sep "".
Proof.
  revert cur. induction line as [|c line IH]; intros cur Hno;
    rewrite ?append_nil, ?append_cons; cbn [Go.Split_aux].
  - rewrite Ascii.eqb_refl. f_equal.
    induction cur as [|d cur IHc]; [reflexivity|].
    rewrite append_cons. f_equal. exact IHc.
  - destruct (Ascii.eqb c sep) eqn:E.
    + apply Ascii.eqb_eq in E. exfalso. apply (Hno c); [left; reflexivity|exact E].
    + rewrite IH by (intros c' Hin; apply Hno; right; exact Hin).
      f_equal. clear. induction cur as [|d cur IHc]; [reflexivity|].
      rewrite !append_cons. f_equal. exact IHc.
Qed.

End GoStrings.

(** X27: ListCgroupProcesses gives back the entries of the cgroup's procs
    file: when the file holds one line per process, each line not empty and
    ended by a newline, the result is the list of these lines, in order, and
    no error. *)
Theorem ListCgroupProcesses_reads_the_lines
    (os : cgnetcls.OS) (s : cgnetcls.netCls) (cgroupname : string)
    (st : cgnetcls.State) (pids : list string) :
  cgnetcls.StatIsNotExist os (cgnetcls.written st)
    (cgnetcls.Join os [cgnetcls.basePath st; cgnetcls.TriremePath s; cgroupname])
    = false ->
  cgnetcls.ReadFile os (cgnetcls.written st)
    (cgnetcls.Join os [cgnetcls.basePath st; cgnetcls.TriremePath s; cgroupname;
                       "cgroup.procs"])
    = inl (expected_cgnetcls.procsFile pids) ->
  Forall (fun pid => pid <> "" /\
                     forall c, In c (list_ascii_of_string pid) -> c <> "010"%char)
         pids ->
  cgnetcls.ListCgroupProcesses os s cgroupname st = (pids, None).
Proof.
  intros Hstat Hread Hpids. unfold cgnetcls.ListCgroupProcesses.
  rewrite Hstat, Hread. f_equal. unfold Go.Split. clear Hread.
  induction Hpids as [|pid pids [Hne Hnl] _ IH]; [reflexivity|].
  cbn [expected_cgnetcls.procsFile]. rewrite Split_aux_line by exact Hnl.
  rewrite append_nil. cbn [cgnetcls.nonEmptyLines]. rewrite IH.
  destruct pid; [congruence|reflexivity].
Qed.

(** The witness: a procs file with two processes. *)
Lemma ListCgroupProcesses_reads_the_lines_witness :
  cgnetcls.ListCgroupProcesses expected_cgnetcls.someOS
    expected_cgnetcls.someController "web" expected_cgnetcls.start =
  (["123"; "4567"], None).
Proof.
  apply (ListCgroupProcesses_reads_the_lines expected_cgnetcls.someOS
           expected_cgnetcls.someController "web" expected_cgnetcls.start
           ["123"; "4567"]).
  - reflexivity.
  - reflexivity.
  - repeat constructor; try discriminate;
      intros c Hin; cbn in Hin; intuition (subst; discriminate).
Defined.

(** X28: RemoveProcess takes a process for a member of the cgroup as soon as
    the decimal digits of its pid occur anywhere in the procs file of the
    base path: it then writes the pid to that file, and returns nil exactly
    when the write succeeds. *)
Theorem RemoveProcess_accepts_any_occurrence
    (os : cgnetcls.OS) (s : cgnetcls.netCls) (cgroupname : string) (pid : Z)
    (st : cgnetcls.State) (pre post : string) :
  let filename := cgnetcls.Join os [cgnetcls.basePath st; cgnetcls.procs os] in
  cgnetcls.StatIsNotExist os (cgnetcls.written st)
    (cgnetcls.Join os [cgnetcls.basePath st; cgnetcls.TriremePath s; cgroupname])
    = false ->
  cgnetcls.ReadFile os (cgnetcls.written st) filename
    = inl (pre +:+ Go.Itoa pid +:+ post) ->
  exists err st',
    cgnetcls.RemoveProcess os s cgroupname pid st = (err, st') /\
    cgnetcls.written st' =
      (cgnetcls.written st ++ [cgnetcls.WriteFile filename (Go.Itoa pid)])%list /\
    (err = None <->
     cgnetcls.WriteFileError os (cgnetcls.written st) filename (Go.Itoa pid) = None).
Proof.
  intros filename Hstat Hread. unfold cgnetcls.RemoveProcess.
  fold filename. rewrite Hstat, Hread, Contains_app. cbn [negb].
  destruct (cgnetcls.WriteFileError os _ filename _) eqn:Hw;
    eexists _, _; (split; [reflexivity|]); (split; [reflexivity|]);
    split; congruence.
Qed.

(** The witness: the file lists the processes 123 and 4567, and process 12,
    which is not listed, is taken for a member. *)
Lemma RemoveProcess_accepts_any_occurrence_witness :
  let filename := "/sys/fs/cgroup/net_cls/cgroup.procs/" in
  exists st',
    cgnetcls.RemoveProcess expected_cgnetcls.someOS
      expected_cgnetcls.someController "web" 12 expected_cgnetcls.start =
      (None, st') /\
    cgnetcls.written st' = [cgnetcls.WriteFile filename "12"].
Proof.
  destruct (RemoveProcess_accepts_any_occurrence expected_cgnetcls.someOS
              expected_cgnetcls.someController "web" 12 expected_cgnetcls.start
              "" (String "3" (String "010" (expected_cgnetcls.procsFile ["4567"]))))
    as (err & st' & Heq & Hw & Herr).
  - reflexivity.
  - reflexivity.
  - exists st'. destruct Herr as [_ Herr]. rewrite Herr in Heq by reflexivity.
    split; [exact Heq|exact Hw].
Defined.

Section Marks.
Import cgnetcls.

Lemma MarkVals_nth n st i :
  (i < n)%nat ->
  MarkVals n st !! i = Some ((markval st + Z.of_nat i + 1) mod 2 ^ 64).
Proof.
  revert st i. induction n as [|n IH]; intros st i Hi; [lia|].
  cbn [MarkVals MarkVal]. destruct i as [|i].
  - change (Some ((markval st + 1) mod 2 ^ 64) =
            Some ((markval st + Z.of_nat 0 + 1) mod 2 ^ 64)).
    f_equal. f_equal. lia.
  - change ((_ :: ?l) !! S i) with (l !! i). rewrite IH by lia. cbn [markval]. f_equal.
    rewrite <- Z.add_assoc, Zplus_mod_idemp_l. f_equal. lia.
Qed.

Lemma MarkVals_length n st : length (MarkVals n st) = n.
Proof.
  revert st. induction n as [|n IH]; intros st; [reflexivity|].
  cbn [MarkVals MarkVal length]. rewrite IH. reflexivity.
Qed.

End Marks.

(** X29: MarkVal never hands out the same mark twice in a row of up to 2^64
    calls: the marks of such a row are pairwise different, also across the
    wrap-around of the counter. *)
Theorem MarkVal_marks_are_distinct (n : nat) (st : cgnetcls.State) :
  Z.of_nat n <= 2 ^ 64 ->
  NoDup (cgnetcls.MarkVals n st).
Proof.
  intros Hn. apply NoDup_alt. intros i j x Hi Hj.
  assert (Hli : (i < n)%nat).
  { apply lookup_lt_Some in Hi. rewrite MarkVals_length in Hi. exact Hi. }
  assert (Hlj : (j < n)%nat).
  { apply lookup_lt_Some in Hj. rewrite MarkVals_length in Hj. exact Hj. }
  rewrite MarkVals_nth in Hi, Hj by assumption.
  inversion Hi as [Hi']. inversion Hj as [Hj']. rewrite <- Hj' in Hi'.
  assert (H : (Z.of_nat i - Z.of_nat j) mod 2 ^ 64 = 0).
  { replace (Z.of_nat i - Z.of_nat j)
      with ((cgnetcls.markval st + Z.of_nat i + 1) -
            (cgnetcls.markval st + Z.of_nat j + 1)) by lia.
    rewrite Zminus_mod, Hi', Z.sub_diag. reflexivity. }
  apply Z.mod_divide in H; [|lia]. destruct H as [k Hk].
  assert (k = 0) by nia. lia.
Qed.

(** The witness: three marks in a row. *)
Lemma MarkVal_marks_are_distinct_witness :
  NoDup (cgnetcls.MarkVals 3 expected_cgnetcls.start).
Proof.
  apply (MarkVal_marks_are_distinct 3 expected_cgnetcls.start).
  vm_compute. discriminate.
Defined.
(** ** The ACL cache: lists of rules *)

Section AddRuleList.
Import policy acls.

Lemma AddRuleList_loop_app c rs1 rs2 :
  snd (AddRuleList_loop c rs1) = None ->
  AddRuleList_loop c (rs1 ++ rs2) = AddRuleList_loop (expected.addRules c rs1) rs2.
Proof.
  revert c. induction rs1 as [|r rs1 IH]; intros c H; [reflexivity|].
  cbn [AddRuleList_loop app] in *. unfold expected.addRules. cbn [fold_left].
  destruct (AddRule c r) as [c' [e|]]; [discriminate|]. cbn [fst].
  apply IH. exact H.
Qed.

Lemma AddRuleList_ok_loop c rs :
  snd (AddRuleList c rs) = None -> snd (AddRuleList_loop c rs) = None.
Proof.
  unfold AddRuleList. destruct (AddRuleList_loop c rs) as [c' [e|]]; auto.
Qed.

End AddRuleList.

(** X18: AddRuleList stops at the first rule that AddRule refuses and
    returns its error: the rules before it stay in the cache (nothing is
    undone), and the rules after it are not looked at. *)
Theorem AddRuleList_stops_at_the_first_error
    (c : acls.ACLCache) (rs1 rs2 : list policy.IPRule) (r : policy.IPRule)
    (e : string) :
  snd (acls.AddRuleList c rs1) = None ->
  snd (acls.AddRule (expected.addRules c rs1) r) = Some e ->
  acls.AddRuleList c (rs1 ++ r :: rs2) =
    (fst (acls.AddRule (expected.addRules c rs1) r), Some e).
Proof.
  intros Hok Herr. apply AddRuleList_ok_loop in Hok.
  unfold acls.AddRuleList. rewrite AddRuleList_loop_app by exact Hok.
  cbn [acls.AddRuleList_loop].
  destruct (acls.AddRule (expected.addRules c rs1) r) as [c' [e'|]];
    cbn in *; [|discriminate].
  inversion Herr; subst. reflexivity.
Qed.

(** The witness: an accept rule, a rule whose address is no address, and a
    reject rule that is never added. *)
Lemma AddRuleList_stops_at_the_first_error_witness :
  acls.AddRuleList acls.NewACLCache
    [plainAcceptRule; expected_acls.badRule; plainRejectRule] =
    (fst (acls.AddRule (expected.addRules acls.NewACLCache [plainAcceptRule])
            expected_acls.badRule),
     Some "invalid address").
Proof.
  apply (AddRuleList_stops_at_the_first_error acls.NewACLCache
           [plainAcceptRule] [plainRejectRule] expected_acls.badRule
           "invalid address").
  - vm_compute. reflexivity.
  - vm_compute. reflexivity.
Defined.
